(** * MedMove Diagnostics: the measurement core of [PythonApp/gui_app.py]

    A shallow embedding of the acquisition code of the goniometer GUI
    (serial polling, final-angle extraction, entry slots, ROM aggregation),
    of its CSV and PDF exports and of the main loop that dispatches its
    handlers, together with the Python built-ins it relies on: [str.strip],
    [str.split], [in] on strings, [float(str)], float arithmetic, the
    [.1f] format and [csv.writer].

    Conventions.
    - A Python [str] is a [string]; a character is a code point below 256
      (the device protocol is ASCII; Latin-1 code points are kept so that the
      white-space rules of [str.strip] and [float] can be told apart).
    - A Python [float] is an IEEE-754 binary64 number, [spec_float] with
      [prec = 53] and [emax = 1024]; arithmetic rounds to nearest, ties to
      even.
    - Widgets are records holding what the code can read back from them;
      calls to the toolkit and to the serial port are taken to succeed.
      The movement image, the instruction label and the connection frame
      hold nothing the measurement code reads, and are left out.
    - [time.time()] readings are arguments of the handlers, and so are the
      text of the patient identifier entry, the answers of the file dialog
      and the formatted date of the exports.
    - A file is what was written to it: the text of a CSV file, the calls
      made on the document of a PDF file. The path a dialog returns is
      taken to be writable.
    - Bytes the device sends while a handler runs are taken to arrive right
      after it. *)

From Stdlib Require Import ZArith NArith Ascii String DecimalString DecimalN Bool Lia.
From Stdlib Require Import Floats.SpecFloat.
From stdpp Require Import base option list strings gmap.

Local Open Scope Z_scope.

(* ===================================================================== *)
(** * Python strings *)
(* ===================================================================== *)

Module PyStr.

(** [str.isspace] for one code point below 256: TAB LF VT FF CR, the four
    separators FS GS RS US, SPACE, NEL (0x85) and NBSP (0xA0). *)
Definition is_space (c : ascii) : bool :=
  let n := N_of_ascii c in
  (((9 <=? n) && (n <=? 13)) || ((28 <=? n) && (n <=? 32))
   || (n =? 133) || (n =? 160))%N.

Definition is_empty (s : string) : bool :=
  match s with EmptyString => true | String _ _ => false end.

Section Strip.
Variable ws : ascii -> bool.

Fixpoint lstrip_with (s : string) : string :=
  match s with
  | EmptyString => EmptyString
  | String c s' => if ws c then lstrip_with s' else s
  end.

Fixpoint rstrip_with (s : string) : string :=
  match s with
  | EmptyString => EmptyString
  | String c s' =>
      let r := rstrip_with s' in
      if ws c && is_empty r then EmptyString else String c r
  end.

Definition strip_with (s : string) : string := rstrip_with (lstrip_with s).
End Strip.

(** [s.strip()] *)
Definition strip : string -> string := strip_with is_space.

(** [s.startswith(p)] *)
Fixpoint startswith (p s : string) : bool :=
  match p, s with
  | EmptyString, _ => true
  | String a p', String b s' => if Ascii.eqb a b then startswith p' s' else false
  | String _ _, EmptyString => false
  end.

(** [sub in s] *)
Fixpoint contains (sub s : string) : bool :=
  startswith sub s ||
  match s with
  | EmptyString => false
  | String _ s' => contains sub s'
  end.

(** [s.split(sep)] for a non-empty [sep]: left to right, occurrences do not
    overlap. [skip] counts the characters of a separator that was just
    recognised and is still to be passed over; [cur] is the piece being
    collected. *)
Fixpoint split_go (sep : string) (skip : nat) (cur s : string) : list string :=
  match s with
  | EmptyString => [cur]
  | String c s' =>
      match skip with
      | S k => split_go sep k cur s'
      | O =>
          if startswith sep s
          then cur :: split_go sep (Nat.pred (String.length sep)) EmptyString s'
          else split_go sep O (cur +:+ String c EmptyString) s'
      end
  end.

Definition split (sep s : string) : list string := split_go sep O EmptyString s.

Definition newline : string := String (ascii_of_nat 10) EmptyString.

(** [p] holds of every character of [s]. *)
Fixpoint all_chars (p : ascii -> bool) (s : string) : bool :=
  match s with
  | EmptyString => true
  | String c s' => p c && all_chars p s'
  end.

(** [c in s], for a character. *)
Fixpoint mem (c : ascii) (s : string) : bool :=
  match s with
  | EmptyString => false
  | String d s' => Ascii.eqb c d || mem c s'
  end.

End PyStr.

(* ===================================================================== *)
(** * Python floats *)
(* ===================================================================== *)

Module PyFloat.

Definition float : Type := spec_float.

Definition prec : Z := 53.
Definition emax : Z := 1024.

Definition add : float -> float -> float := SFadd prec emax.
Definition sub : float -> float -> float := SFsub prec emax.
Definition mul : float -> float -> float := SFmul prec emax.
(** [x / y]; every divisor in the program is a non-zero constant, so the
    [ZeroDivisionError] of Python never occurs. *)
Definition div : float -> float -> float := SFdiv prec emax.

(** [x >= y], false as soon as one side is a NaN. *)
Definition ge (x y : float) : bool := SFleb y x.

(** An [int] used where a float is expected; exact below 2^53. *)
Definition of_Z (n : Z) : float := binary_normalize prec emax n 0 false.

Definition zero : float := S754_zero false.

(** ** [float(s)] *)

(** The white space [float] removes at both ends: the ASCII one, plus NEL
    and NBSP which it first turns into a space. *)
Definition is_float_space (c : ascii) : bool :=
  let n := N_of_ascii c in
  (((9 <=? n) && (n <=? 13)) || (n =? 32) || (n =? 133) || (n =? 160))%N.

Definition is_digit (c : ascii) : bool :=
  let n := N_of_ascii c in ((48 <=? n) && (n <=? 57))%N.

Definition digit_val (c : ascii) : N := (N_of_ascii c - 48)%N.

Definition is_underscore (c : ascii) : bool := (N_of_ascii c =? 95)%N.

(** Digit grouping: an underscore is accepted only between two digits, and
    is dropped. [prev] tells whether the previous character was a digit. *)
Fixpoint drop_underscores (prev : bool) (s : string) : option string :=
  match s with
  | EmptyString => Some EmptyString
  | String c s' =>
      if is_underscore c then
        match s' with
        | String d _ =>
            if prev && is_digit d then drop_underscores false s' else None
        | EmptyString => None
        end
      else String c <$> drop_underscores (is_digit c) s'
  end.

(** The longest prefix of digits, and what follows it. *)
Fixpoint span_digits (s : string) : string * string :=
  match s with
  | EmptyString => (EmptyString, EmptyString)
  | String c s' =>
      if is_digit c
      then let '(ds, rest) := span_digits s' in (String c ds, rest)
      else (EmptyString, s)
  end.

Fixpoint N_of_digits_acc (acc : N) (ds : string) : N :=
  match ds with
  | EmptyString => acc
  | String c ds' => N_of_digits_acc (acc * 10 + digit_val c)%N ds'
  end.

Definition N_of_digits : string -> N := N_of_digits_acc 0%N.

Definition split_sign (s : string) : bool * string :=
  match s with
  | String c s' =>
      if Ascii.eqb c "-" then (true, s')
      else if Ascii.eqb c "+" then (false, s')
      else (false, s)
  | EmptyString => (false, s)
  end.

(** What follows [e] or [E]: an optional sign and at least one digit, up
    to the end of the text. *)
Definition parse_exponent (s : string) : option Z :=
  let '(neg, s1) := split_sign s in
  let '(ds, rest) := span_digits s1 in
  if PyStr.is_empty ds || negb (PyStr.is_empty rest) then None
  else Some (if neg then - Z.of_N (N_of_digits ds) else Z.of_N (N_of_digits ds)).

(** An unsigned decimal literal, as the pair [(m, e)] standing for
    [m * 10^e]. *)
Definition parse_decimal (s : string) : option (N * Z) :=
  let '(ip, r1) := span_digits s in
  let '(fp, r2) :=
    match r1 with
    | String c r => if Ascii.eqb c "." then span_digits r else (EmptyString, r1)
    | EmptyString => (EmptyString, r1)
    end in
  if PyStr.is_empty ip && PyStr.is_empty fp then None
  else
    let m := N_of_digits (ip +:+ fp) in
    let scale := Z.of_nat (String.length fp) in
    match r2 with
    | EmptyString => Some (m, - scale)
    | String c r3 =>
        if Ascii.eqb c "e" || Ascii.eqb c "E"
        then e ← parse_exponent r3; Some (m, e - scale)
        else None
    end.

Definition lower (c : ascii) : ascii :=
  let n := N_of_ascii c in
  if ((65 <=? n) && (n <=? 90))%N then ascii_of_N (n + 32) else c.

Fixpoint lowercase (s : string) : string :=
  match s with
  | EmptyString => EmptyString
  | String c s' => String (lower c) (lowercase s')
  end.

(** [inf], [infinity] and [nan], in any letter case. *)
Definition parse_special (neg : bool) (s : string) : option float :=
  let l := lowercase s in
  if String.eqb l "inf" || String.eqb l "infinity" then Some (S754_infinity neg)
  else if String.eqb l "nan" then Some S754_nan
  else None.

(** The binary64 number nearest to [(-1)^neg * m * 10^e], ties to even;
    beyond the largest finite number the result is an infinity. *)
Definition of_decimal (neg : bool) (m : N) (e : Z) : float :=
  match m with
  | N0 => S754_zero neg
  | Npos p =>
      if 0 <=? e
      then binary_round prec emax neg (Z.to_pos (Zpos p * 10 ^ e)) 0
      else
        let '(q, e', l) := SFdiv_core_binary prec emax (Zpos p) 0 (10 ^ (- e)) 0 in
        binary_round_aux prec emax neg q e' l
  end.

(** [float(s)]; [None] stands for the [ValueError]. *)
Definition of_string (s : string) : option float :=
  body ← drop_underscores false (PyStr.strip_with is_float_space s);
  let '(neg, num) := split_sign body in
  match parse_decimal num with
  | Some (m, e) => Some (of_decimal neg m e)
  | None => parse_special neg num
  end.

(** ** [f"{x:.1f}"] *)

(** [n / d] rounded to the nearest integer, ties to even ([d > 0]). *)
Definition round_half_even (n d : Z) : Z :=
  let q := n / d in
  match (2 * (n mod d)) ?= d with
  | Lt => q
  | Gt => q + 1
  | Eq => if Z.even q then q else q + 1
  end.

(** [m * 2^e] in tenths, rounded. *)
Definition tenths (m : positive) (e : Z) : Z :=
  if 0 <=? e then Zpos m * 2 ^ e * 10
  else round_half_even (Zpos m * 10) (2 ^ (- e)).

Definition decimal (n : Z) : string := NilZero.string_of_uint (N.to_uint (Z.to_N n)).

Definition sign_text (neg : bool) : string := if neg then "-" else "".

Definition format_1f (x : float) : string :=
  match x with
  | S754_nan => "nan"
  | S754_infinity s => sign_text s +:+ "inf"
  | S754_zero s => sign_text s +:+ "0.0"
  | S754_finite s m e =>
      let t := tenths m e in
      sign_text s +:+ decimal (t / 10) +:+ "." +:+ decimal (t mod 10)
  end.

(** ** Vocabulary for the properties of [float] and [.1f] *)

(** A float rounded to one decimal: the binary64 number nearest to the
    tenths [format_1f] prints. *)
Definition round_1f (x : float) : float :=
  match x with
  | S754_finite s m e => of_decimal s (Z.to_N (tenths m e)) (-1)
  | _ => x
  end.

(** The characters [format_1f] prints for a finite number. *)
Definition is_plain (c : ascii) : bool :=
  is_digit c || Ascii.eqb c "-" || Ascii.eqb c ".".

(** The characters a text accepted by [float] can hold: digits, white space,
    signs, point, underscore, the exponent letter and the letters of [inf],
    [infinity] and [nan], in either case. *)
Definition is_float_char (c : ascii) : bool :=
  is_digit c || is_float_space c || PyStr.mem c "+-._"
  || PyStr.mem (lower c) "einfatyn".

End PyFloat.

(* ===================================================================== *)
(** * Widgets and the serial port *)
(* ===================================================================== *)

Import PyFloat (float).

(** A [CTkEntry]: its text and its state. In the [readonly] state [insert]
    and [delete] leave the text as it is. *)
Inductive EntryState : Type := Normal | Readonly.

Record Entry : Type := { entry_text : string; entry_state : EntryState }.

Definition entry_configure (s : EntryState) (e : Entry) : Entry :=
  {| entry_text := entry_text e; entry_state := s |}.

(** [entry.delete(0, "end")] *)
Definition entry_delete (e : Entry) : Entry :=
  match entry_state e with
  | Normal => {| entry_text := ""; entry_state := Normal |}
  | Readonly => e
  end.

(** [entry.insert(0, text)] *)
Definition entry_insert (text : string) (e : Entry) : Entry :=
  match entry_state e with
  | Normal => {| entry_text := text +:+ entry_text e; entry_state := Normal |}
  | Readonly => e
  end.

(** [entry.get()] *)
Definition entry_get (e : Entry) : string := entry_text e.

(** A [CTkTextbox]: its text, and whether its state is [normal]. *)
Record Textbox : Type := { box_text : string; box_normal : bool }.

Definition box_configure (normal : bool) (b : Textbox) : Textbox :=
  {| box_text := box_text b; box_normal := normal |}.

(** [box.insert("end", text)] *)
Definition box_insert (text : string) (b : Textbox) : Textbox :=
  if box_normal b then {| box_text := box_text b +:+ text; box_normal := true |}
  else b.

(** [box.delete("1.0", "end")] *)
Definition box_delete (b : Textbox) : Textbox :=
  if box_normal b then {| box_text := ""; box_normal := true |} else b.

(** A canvas is the list of the items drawn on it. *)
Inductive CanvasItem : Type :=
  | Arc (extent : float) (outline : string)
  | Text (text : string).

Definition Canvas : Type := list CanvasItem.

(** The degree sign, U+00B0. *)
Definition degree : string := String (ascii_of_nat 176) EmptyString.

(** What [update_live_angle], [update_rom_gauge] and [draw_rom_gauge] leave
    on a canvas (they differ in coordinates and widths only): the grey
    half circle, the blue arc of [(angle / 180) * 180] degrees, the label. *)
Definition gauge (angle : float) : Canvas :=
  [ Arc (PyFloat.of_Z 180) "#CCCCCC";
    Arc (PyFloat.mul (PyFloat.div angle (PyFloat.of_Z 180)) (PyFloat.of_Z 180))
        "#00BFFF";
    Text (PyFloat.format_1f angle +:+ degree) ].

(** A [serial.Serial]. [in_buffer] holds what the next calls of [readline]
    return, after decoding; [in_waiting] is non-zero exactly when it is not
    empty. [written] collects the bytes sent to the device. Bytes that arrive
    while a handler runs are taken to arrive right after it. *)
Record Serial : Type := {
  is_open : bool;
  in_buffer : list string;
  written : string
}.

Definition reset_input_buffer (s : Serial) : Serial :=
  {| is_open := is_open s; in_buffer := []; written := written s |}.

Definition write (bytes : string) (s : Serial) : Serial :=
  {| is_open := is_open s; in_buffer := in_buffer s;
     written := written s +:+ bytes |}.

Definition set_in_buffer (chunks : list string) (s : Serial) : Serial :=
  {| is_open := is_open s; in_buffer := chunks; written := written s |}.

Inductive Side : Type := Unaffected | Affected.

Inductive Mode : Type := Measurement | Calibration.

(** The only callback the program hands to [after]. *)
Inductive Callback : Type := ReadSerialLive.

(** Calls to the display: message boxes, and [update_live_angle]. *)
Inductive Call : Type :=
  | ShowError (title message : string)
  | ShowInfo (title message : string)
  | LiveAngle (angle : float).

Record App : Type := {
  ser : option Serial;
    (* serial connection, [None] until connected *)
  movement_letter : option string;
    (* movement command to send *)
  selected_movement : option nat;
    (* index of the selected movement *)
  selected_side : option Side;
    (* ['affected'] or ['unaffected'] *)
  serial_read_start_time : option float;
    (* when the serial read started *)
  serial_full_response : string;
    (* accumulated serial output *)
  serial_read_duration : Z;
    (* read window in milliseconds *)
  serial_read_mode : Mode;
    (* ['measurement'] or ['calibration'] *)
  unaffected_angle_entries : list Entry;
    (* entry widgets, unaffected side *)
  affected_angle_entries : list Entry;
    (* entry widgets, affected side *)
  unaffected_rom_canvases : list Canvas;
    (* ROM gauges, unaffected side *)
  affected_rom_canvases : list Canvas;
    (* ROM gauges, affected side *)
  live_canvas : Canvas;
    (* live angle gauge *)
  serial_output_box : Textbox;
    (* serial monitor *)
  after_queue : list (Z * Callback);
    (* callbacks handed to [after], oldest first *)
  trace : list Call
    (* calls made to the display, oldest first *)
}.

(** Assignments to the attributes of [self]. *)
Definition set_ser (v : option Serial) (a : App) : App :=
  {| ser := v; movement_letter := movement_letter a;
     selected_movement := selected_movement a;
     selected_side := selected_side a;
     serial_read_start_time := serial_read_start_time a;
     serial_full_response := serial_full_response a;
     serial_read_duration := serial_read_duration a;
     serial_read_mode := serial_read_mode a;
     unaffected_angle_entries := unaffected_angle_entries a;
     affected_angle_entries := affected_angle_entries a;
     unaffected_rom_canvases := unaffected_rom_canvases a;
     affected_rom_canvases := affected_rom_canvases a;
     live_canvas := live_canvas a; serial_output_box := serial_output_box a;
     after_queue := after_queue a; trace := trace a |}.

Definition set_movement_letter (v : option string) (a : App) : App :=
  {| ser := ser a; movement_letter := v;
     selected_movement := selected_movement a;
     selected_side := selected_side a;
     serial_read_start_time := serial_read_start_time a;
     serial_full_response := serial_full_response a;
     serial_read_duration := serial_read_duration a;
     serial_read_mode := serial_read_mode a;
     unaffected_angle_entries := unaffected_angle_entries a;
     affected_angle_entries := affected_angle_entries a;
     unaffected_rom_canvases := unaffected_rom_canvases a;
     affected_rom_canvases := affected_rom_canvases a;
     live_canvas := live_canvas a; serial_output_box := serial_output_box a;
     after_queue := after_queue a; trace := trace a |}.

Definition set_selected_movement (v : option nat) (a : App) : App :=
  {| ser := ser a; movement_letter := movement_letter a;
     selected_movement := v; selected_side := selected_side a;
     serial_read_start_time := serial_read_start_time a;
     serial_full_response := serial_full_response a;
     serial_read_duration := serial_read_duration a;
     serial_read_mode := serial_read_mode a;
     unaffected_angle_entries := unaffected_angle_entries a;
     affected_angle_entries := affected_angle_entries a;
     unaffected_rom_canvases := unaffected_rom_canvases a;
     affected_rom_canvases := affected_rom_canvases a;
     live_canvas := live_canvas a; serial_output_box := serial_output_box a;
     after_queue := after_queue a; trace := trace a |}.

Definition set_selected_side (v : option Side) (a : App) : App :=
  {| ser := ser a; movement_letter := movement_letter a;
     selected_movement := selected_movement a; selected_side := v;
     serial_read_start_time := serial_read_start_time a;
     serial_full_response := serial_full_response a;
     serial_read_duration := serial_read_duration a;
     serial_read_mode := serial_read_mode a;
     unaffected_angle_entries := unaffected_angle_entries a;
     affected_angle_entries := affected_angle_entries a;
     unaffected_rom_canvases := unaffected_rom_canvases a;
     affected_rom_canvases := affected_rom_canvases a;
     live_canvas := live_canvas a; serial_output_box := serial_output_box a;
     after_queue := after_queue a; trace := trace a |}.

Definition set_serial_read_start_time (v : option float) (a : App) : App :=
  {| ser := ser a; movement_letter := movement_letter a;
     selected_movement := selected_movement a;
     selected_side := selected_side a; serial_read_start_time := v;
     serial_full_response := serial_full_response a;
     serial_read_duration := serial_read_duration a;
     serial_read_mode := serial_read_mode a;
     unaffected_angle_entries := unaffected_angle_entries a;
     affected_angle_entries := affected_angle_entries a;
     unaffected_rom_canvases := unaffected_rom_canvases a;
     affected_rom_canvases := affected_rom_canvases a;
     live_canvas := live_canvas a; serial_output_box := serial_output_box a;
     after_queue := after_queue a; trace := trace a |}.

Definition set_serial_full_response (v : string) (a : App) : App :=
  {| ser := ser a; movement_letter := movement_letter a;
     selected_movement := selected_movement a;
     selected_side := selected_side a;
     serial_read_start_time := serial_read_start_time a;
     serial_full_response := v;
     serial_read_duration := serial_read_duration a;
     serial_read_mode := serial_read_mode a;
     unaffected_angle_entries := unaffected_angle_entries a;
     affected_angle_entries := affected_angle_entries a;
     unaffected_rom_canvases := unaffected_rom_canvases a;
     affected_rom_canvases := affected_rom_canvases a;
     live_canvas := live_canvas a; serial_output_box := serial_output_box a;
     after_queue := after_queue a; trace := trace a |}.

Definition set_serial_read_mode (v : Mode) (a : App) : App :=
  {| ser := ser a; movement_letter := movement_letter a;
     selected_movement := selected_movement a;
     selected_side := selected_side a;
     serial_read_start_time := serial_read_start_time a;
     serial_full_response := serial_full_response a;
     serial_read_duration := serial_read_duration a; serial_read_mode := v;
     unaffected_angle_entries := unaffected_angle_entries a;
     affected_angle_entries := affected_angle_entries a;
     unaffected_rom_canvases := unaffected_rom_canvases a;
     affected_rom_canvases := affected_rom_canvases a;
     live_canvas := live_canvas a; serial_output_box := serial_output_box a;
     after_queue := after_queue a; trace := trace a |}.

Definition set_unaffected_angle_entries (v : list Entry) (a : App) : App :=
  {| ser := ser a; movement_letter := movement_letter a;
     selected_movement := selected_movement a;
     selected_side := selected_side a;
     serial_read_start_time := serial_read_start_time a;
     serial_full_response := serial_full_response a;
     serial_read_duration := serial_read_duration a;
     serial_read_mode := serial_read_mode a; unaffected_angle_entries := v;
     affected_angle_entries := affected_angle_entries a;
     unaffected_rom_canvases := unaffected_rom_canvases a;
     affected_rom_canvases := affected_rom_canvases a;
     live_canvas := live_canvas a; serial_output_box := serial_output_box a;
     after_queue := after_queue a; trace := trace a |}.

Definition set_affected_angle_entries (v : list Entry) (a : App) : App :=
  {| ser := ser a; movement_letter := movement_letter a;
     selected_movement := selected_movement a;
     selected_side := selected_side a;
     serial_read_start_time := serial_read_start_time a;
     serial_full_response := serial_full_response a;
     serial_read_duration := serial_read_duration a;
     serial_read_mode := serial_read_mode a;
     unaffected_angle_entries := unaffected_angle_entries a;
     affected_angle_entries := v;
     unaffected_rom_canvases := unaffected_rom_canvases a;
     affected_rom_canvases := affected_rom_canvases a;
     live_canvas := live_canvas a; serial_output_box := serial_output_box a;
     after_queue := after_queue a; trace := trace a |}.

Definition set_unaffected_rom_canvases (v : list Canvas) (a : App) : App :=
  {| ser := ser a; movement_letter := movement_letter a;
     selected_movement := selected_movement a;
     selected_side := selected_side a;
     serial_read_start_time := serial_read_start_time a;
     serial_full_response := serial_full_response a;
     serial_read_duration := serial_read_duration a;
     serial_read_mode := serial_read_mode a;
     unaffected_angle_entries := unaffected_angle_entries a;
     affected_angle_entries := affected_angle_entries a;
     unaffected_rom_canvases := v;
     affected_rom_canvases := affected_rom_canvases a;
     live_canvas := live_canvas a; serial_output_box := serial_output_box a;
     after_queue := after_queue a; trace := trace a |}.

Definition set_affected_rom_canvases (v : list Canvas) (a : App) : App :=
  {| ser := ser a; movement_letter := movement_letter a;
     selected_movement := selected_movement a;
     selected_side := selected_side a;
     serial_read_start_time := serial_read_start_time a;
     serial_full_response := serial_full_response a;
     serial_read_duration := serial_read_duration a;
     serial_read_mode := serial_read_mode a;
     unaffected_angle_entries := unaffected_angle_entries a;
     affected_angle_entries := affected_angle_entries a;
     unaffected_rom_canvases := unaffected_rom_canvases a;
     affected_rom_canvases := v; live_canvas := live_canvas a;
     serial_output_box := serial_output_box a; after_queue := after_queue a;
     trace := trace a |}.

Definition set_live_canvas (v : Canvas) (a : App) : App :=
  {| ser := ser a; movement_letter := movement_letter a;
     selected_movement := selected_movement a;
     selected_side := selected_side a;
     serial_read_start_time := serial_read_start_time a;
     serial_full_response := serial_full_response a;
     serial_read_duration := serial_read_duration a;
     serial_read_mode := serial_read_mode a;
     unaffected_angle_entries := unaffected_angle_entries a;
     affected_angle_entries := affected_angle_entries a;
     unaffected_rom_canvases := unaffected_rom_canvases a;
     affected_rom_canvases := affected_rom_canvases a; live_canvas := v;
     serial_output_box := serial_output_box a; after_queue := after_queue a;
     trace := trace a |}.

Definition set_serial_output_box (v : Textbox) (a : App) : App :=
  {| ser := ser a; movement_letter := movement_letter a;
     selected_movement := selected_movement a;
     selected_side := selected_side a;
     serial_read_start_time := serial_read_start_time a;
     serial_full_response := serial_full_response a;
     serial_read_duration := serial_read_duration a;
     serial_read_mode := serial_read_mode a;
     unaffected_angle_entries := unaffected_angle_entries a;
     affected_angle_entries := affected_angle_entries a;
     unaffected_rom_canvases := unaffected_rom_canvases a;
     affected_rom_canvases := affected_rom_canvases a;
     live_canvas := live_canvas a; serial_output_box := v;
     after_queue := after_queue a; trace := trace a |}.

Definition set_after_queue (v : list (Z * Callback)) (a : App) : App :=
  {| ser := ser a; movement_letter := movement_letter a;
     selected_movement := selected_movement a;
     selected_side := selected_side a;
     serial_read_start_time := serial_read_start_time a;
     serial_full_response := serial_full_response a;
     serial_read_duration := serial_read_duration a;
     serial_read_mode := serial_read_mode a;
     unaffected_angle_entries := unaffected_angle_entries a;
     affected_angle_entries := affected_angle_entries a;
     unaffected_rom_canvases := unaffected_rom_canvases a;
     affected_rom_canvases := affected_rom_canvases a;
     live_canvas := live_canvas a; serial_output_box := serial_output_box a;
     after_queue := v; trace := trace a |}.

Definition set_trace (v : list Call) (a : App) : App :=
  {| ser := ser a; movement_letter := movement_letter a;
     selected_movement := selected_movement a;
     selected_side := selected_side a;
     serial_read_start_time := serial_read_start_time a;
     serial_full_response := serial_full_response a;
     serial_read_duration := serial_read_duration a;
     serial_read_mode := serial_read_mode a;
     unaffected_angle_entries := unaffected_angle_entries a;
     affected_angle_entries := affected_angle_entries a;
     unaffected_rom_canvases := unaffected_rom_canvases a;
     affected_rom_canvases := affected_rom_canvases a;
     live_canvas := live_canvas a; serial_output_box := serial_output_box a;
     after_queue := after_queue a; trace := v |}.

(* ===================================================================== *)
(** * Exceptions and the application monad *)
(* ===================================================================== *)

Inductive PyExn : Type :=
  | ValueError
  | IndexError
  | TypeError (message : string).

(** [str(e)]. The text of a [ValueError] is never shown: every [float(...)]
    of the program sits under an [except] clause that names it. *)
Definition exn_text (e : PyExn) : string :=
  match e with
  | ValueError => "could not convert string to float"
  | IndexError => "list index out of range"
  | TypeError message => message
  end.

Definition is_ValueError (e : PyExn) : bool :=
  match e with ValueError => true | _ => false end.
Definition is_ValueError_or_TypeError (e : PyExn) : bool :=
  match e with ValueError | TypeError _ => true | IndexError => false end.
Definition is_IndexError_or_ValueError (e : PyExn) : bool :=
  match e with IndexError | ValueError => true | TypeError _ => false end.
(** [except Exception] *)
Definition any_exception (e : PyExn) : bool := true.

(** The result of code that returns or raises. *)
Inductive Outcome (A : Type) : Type :=
  | Ok (a : A)
  | Raised (e : PyExn).
Arguments Ok {A} a.
Arguments Raised {A} e.

#[export] Instance Outcome_ret : MRet Outcome := @Ok.
#[export] Instance Outcome_bind : MBind Outcome :=
  fun A B f m => match m with Ok a => f a | Raised e => Raised e end.
#[export] Instance Outcome_fmap : FMap Outcome :=
  fun A B f m => match m with Ok a => Ok (f a) | Raised e => Raised e end.

(** [try: body  except <catches>: handler], for code without state. *)
Definition attempt {A} (body : Outcome A) (catches : PyExn -> bool)
    (handler : PyExn -> Outcome A) : Outcome A :=
  match body with
  | Ok a => Ok a
  | Raised e => if catches e then handler e else Raised e
  end.

(** [l[i]] *)
Definition item {A} (l : list A) (i : nat) : Outcome A :=
  match l !! i with
  | Some x => Ok x
  | None => Raised IndexError
  end.

(** [float(text)] *)
Definition py_float (text : string) : Outcome float :=
  match PyFloat.of_string text with
  | Some x => Ok x
  | None => Raised ValueError
  end.

(** Code of [App] and [ROMCalculator] that reads or writes [self]: a state
    transformer that returns or raises. *)
Definition M (A : Type) : Type := App -> Outcome A * App.

#[export] Instance M_ret : MRet M := fun A a st => (Ok a, st).
#[export] Instance M_bind : MBind M :=
  fun A B f m st =>
    match m st with
    | (Ok a, st') => f a st'
    | (Raised e, st') => (Raised e, st')
    end.

Definition gets {A} (f : App -> A) : M A := fun st => (Ok (f st), st).
Definition modify (f : App -> App) : M unit := fun st => (Ok tt, f st).
Definition lift {A} (r : Outcome A) : M A := fun st => (r, st).
Definition raise {A} (e : PyExn) : M A := fun st => (Raised e, st).

(** [try: body  except <catches> as e: handler]; what [body] did to the
    state before it raised stays done. *)
Definition try_except {A} (body : M A) (catches : PyExn -> bool)
    (handler : PyExn -> M A) : M A :=
  fun st =>
    match body st with
    | (Ok a, st') => (Ok a, st')
    | (Raised e, st') => if catches e then handler e st' else (Raised e, st')
    end.

(** The state a handler leaves, and what it returned. *)
Definition exec {A} (m : M A) (st : App) : App := snd (m st).
Definition result {A} (m : M A) (st : App) : Outcome A := fst (m st).

Definition record (c : Call) : M unit :=
  modify (fun a => set_trace (trace a ++ [c]) a).

(** [messagebox.showerror(title, message)] *)
Definition showerror (title message : string) : M unit :=
  record (ShowError title message).

(** [messagebox.showinfo(title, message)] *)
Definition showinfo (title message : string) : M unit :=
  record (ShowInfo title message).

(** [self.after(ms, callback)] *)
Definition after (ms : Z) (callback : Callback) : M unit :=
  modify (fun a => set_after_queue (after_queue a ++ [(ms, callback)]) a).

Definition angle_entries (side : Side) (a : App) : list Entry :=
  match side with
  | Unaffected => unaffected_angle_entries a
  | Affected => affected_angle_entries a
  end.

Definition set_angle_entries (side : Side) (v : list Entry) : App -> App :=
  match side with
  | Unaffected => set_unaffected_angle_entries v
  | Affected => set_affected_angle_entries v
  end.

Definition rom_canvases (side : Side) (a : App) : list Canvas :=
  match side with
  | Unaffected => unaffected_rom_canvases a
  | Affected => affected_rom_canvases a
  end.

Definition set_rom_canvases (side : Side) (v : list Canvas) : App -> App :=
  match side with
  | Unaffected => set_unaffected_rom_canvases v
  | Affected => set_affected_rom_canvases v
  end.

(* ===================================================================== *)
(** * [class ROMCalculator] *)
(* ===================================================================== *)

(** The dictionary [calculate_rom_side] returns, one field per key. *)
Record RomResult : Type := {
  rom_wrist : float;             (* "ROM Wrist" *)
  rom_forearm : float;           (* "ROM Forearm" *)
  rom_elbow : float;             (* "ROM Elbow" *)
  rom_wrist_deviation : float    (* "ROM Wrist Deviation" *)
}.

Definition safe_float (text : string) : Outcome float :=
  attempt (py_float text) is_ValueError_or_TypeError (fun _ => Ok PyFloat.zero).

Definition calculate_rom_side (entries_list : list Entry) : Outcome RomResult :=
  e0 ← item entries_list 0; a0 ← safe_float (entry_get e0);
  e1 ← item entries_list 1; a1 ← safe_float (entry_get e1);
  let wrist := PyFloat.add a0 a1 in
  e2 ← item entries_list 2; a2 ← safe_float (entry_get e2);
  e3 ← item entries_list 3; a3 ← safe_float (entry_get e3);
  let forearm := PyFloat.add a2 a3 in
  e4 ← item entries_list 4; a4 ← safe_float (entry_get e4);
  e5 ← item entries_list 5; a5 ← safe_float (entry_get e5);
  let elbow := PyFloat.div (PyFloat.add a4 a5) (PyFloat.of_Z 2) in
  e6 ← item entries_list 6; a6 ← safe_float (entry_get e6);
  e7 ← item entries_list 7; a7 ← safe_float (entry_get e7);
  let wrist_deviation := PyFloat.add a6 a7 in
  Ok {| rom_wrist := wrist; rom_forearm := forearm; rom_elbow := elbow;
        rom_wrist_deviation := wrist_deviation |}.

(** [self.update_rom_gauge(self.<side>_rom_canvases[k], angle)] *)
Definition update_rom_gauge (side : Side) (k : nat) (angle : float) : M unit :=
  canvases ← gets (rom_canvases side);
  _ ← lift (item canvases k);
  modify (set_rom_canvases side (<[k := gauge angle]> canvases)).

Definition update_rom_display : M unit :=
  try_except
    (entries ← gets unaffected_angle_entries;
     unaffected_roms ← lift (calculate_rom_side entries);
     update_rom_gauge Unaffected 0 (rom_wrist unaffected_roms);;
     update_rom_gauge Unaffected 1 (rom_forearm unaffected_roms);;
     update_rom_gauge Unaffected 2 (rom_elbow unaffected_roms);;
     update_rom_gauge Unaffected 3 (rom_wrist_deviation unaffected_roms);;
     entries ← gets affected_angle_entries;
     affected_roms ← lift (calculate_rom_side entries);
     update_rom_gauge Affected 0 (rom_wrist affected_roms);;
     update_rom_gauge Affected 1 (rom_forearm affected_roms);;
     update_rom_gauge Affected 2 (rom_elbow affected_roms);;
     update_rom_gauge Affected 3 (rom_wrist_deviation affected_roms))
    any_exception
    (fun e => showerror "Error"
                ("ROM update error:" +:+ PyStr.newline +:+ exn_text e)).

(* ===================================================================== *)
(** * [class App] *)
(* ===================================================================== *)

(** The movements of the sidebar, with the letter each one sends. *)
Definition movements : list (string * string) :=
  [ ("Wrist Flexion", "f"); ("Wrist Extension", "e");
    ("Forearm Supination", "s"); ("Forearm Pronation", "p");
    ("Elbow Flexion", "x"); ("Elbow Extension", "y");
    ("Radial Deviation", "z"); ("Ulnar Deviation", "z") ].

(** [serial.Serial(port, 115200, timeout=10)] either returns an open port or
    raises; [opened] is what it did. *)
Definition connect_bluetooth (selected_port : string) (opened : string + Serial)
    : M unit :=
  if PyStr.is_empty selected_port
  then showerror "Error" "No COM port selected!"
  else
    match opened with
    | inr port =>
        modify (set_ser (Some port));;
        showinfo "Success" ("Connected to " +:+ selected_port)
    | inl message => showerror "Connection Failed" message
    end.

Definition update_live_angle (angle : float) : M unit :=
  modify (set_live_canvas (gauge angle));;
  record (LiveAngle angle).

Definition marker : string := "ANGLE:".

(** The [try] block of the final scan: the text between the first marker
    of the line and the next one, stripped, as a float. *)
Definition angle_of_line (line : string) : Outcome float :=
  part ← item (PyStr.split marker line) 1;
  py_float (PyStr.strip part).

(** [for line in lines: ...], [lines] being already reversed. [Ok (Some v)]
    is the [break], the recursive calls are the [continue]s. *)
Fixpoint scan_lines (lines : list string) : Outcome (option float) :=
  match lines with
  | [] => Ok None
  | line :: rest =>
      if PyStr.contains marker line
      then attempt (angle ← angle_of_line line; Ok (Some angle))
             is_IndexError_or_ValueError (fun _ => scan_lines rest)
      else scan_lines rest
  end.

(** Lines 197 to 207 of [process_final_serial_data]: the value of
    [last_valid_angle] once the loop is over. *)
Definition parse_final (serial_full_response : string) : Outcome (option float) :=
  let lines := PyStr.split PyStr.newline (PyStr.strip serial_full_response) in
  scan_lines (reverse lines).

Definition process_final_serial_data : M unit :=
  try_except
    (response ← gets serial_full_response;
     last_valid_angle ← lift (parse_final response);
     match last_valid_angle with
     | None => showerror "Error" "No valid ANGLE data found!"
     | Some angle =>
         side ← gets selected_side;
         match side with
         | None => mret tt
         | Some side =>
             index ← gets selected_movement;
             entries ← gets (angle_entries side);
             match index with
             | None =>
                 raise (TypeError
                   "list indices must be integers or slices, not NoneType")
             | Some i =>
                 entry ← lift (item entries i);
                 let entry := entry_configure Normal entry in
                 let entry := entry_delete entry in
                 let entry := entry_insert (PyFloat.format_1f angle) entry in
                 let entry := entry_configure Readonly entry in
                 modify (set_angle_entries side (<[i := entry]> entries));;
                 update_rom_display;;
                 update_live_angle angle
             end
         end
     end)
    any_exception
    (fun e => showerror "Error"
                ("Processing error:" +:+ PyStr.newline +:+ exn_text e)).

(** [self.ser] unless [self.ser is None or not self.ser.is_open]. *)
Definition open_port (a : App) : option Serial :=
  match ser a with
  | Some port => if is_open port then Some port else None
  | None => None
  end.

(** The [while self.ser.in_waiting] loop; [chunks] is the input buffer when
    the loop is entered, each element being what one [readline] returns. *)
Fixpoint read_lines (port : Serial) (chunks : list string) : M unit :=
  match chunks with
  | [] => mret tt
  | chunk :: rest =>
      modify (set_ser (Some (set_in_buffer rest port)));;
      let line := PyStr.strip chunk in
      modify (fun a =>
        set_serial_full_response
          (serial_full_response a +:+ (line +:+ PyStr.newline)) a);;
      modify (fun a =>
        set_serial_output_box
          (box_configure false
             (box_insert (line +:+ PyStr.newline)
                (box_configure true (serial_output_box a)))) a);;
      try_except (angle ← lift (py_float line); update_live_angle angle)
        is_ValueError (fun _ => mret tt);;
      read_lines port rest
  end.

(** [(now - start) * 1000 >= duration] *)
Definition window_elapsed (now start : float) (duration : Z) : bool :=
  PyFloat.ge (PyFloat.mul (PyFloat.sub now start) (PyFloat.of_Z 1000))
             (PyFloat.of_Z duration).

(** [now] is what [time.time()] returns at the timer check. *)
Definition read_serial_live (now : float) : M unit :=
  port ← gets open_port;
  match port with
  | None => mret tt
  | Some port =>
      try_except (read_lines port (in_buffer port)) any_exception
        (fun e => showerror "Error"
           ("Serial reading error:" +:+ PyStr.newline +:+ exn_text e));;
      start ← gets serial_read_start_time;
      duration ← gets serial_read_duration;
      match start with
      | None =>
          raise (TypeError
            "unsupported operand type(s) for -: 'float' and 'NoneType'")
      | Some start =>
          if window_elapsed now start duration then
            mode ← gets serial_read_mode;
            match mode with
            | Measurement => process_final_serial_data
            | Calibration => mret tt
            end
          else after 50 ReadSerialLive
      end
  end.

(** [for entry, canvas in zip(entries, canvases)]: the entry is emptied and
    the gauge set to 0; [zip] stops with the shorter list. *)
Fixpoint clear_zip (entries : list Entry) (canvases : list Canvas)
    : list Entry * list Canvas :=
  match entries, canvases with
  | entry :: entries', canvas :: canvases' =>
      let '(es, cs) := clear_zip entries' canvases' in
      (entry_configure Readonly (entry_delete (entry_configure Normal entry)) :: es,
       gauge (PyFloat.of_Z 0) :: cs)
  | _, _ => (entries, canvases)
  end.

Definition clear_side (side : Side) : M unit :=
  modify (fun a =>
    let '(es, cs) := clear_zip (angle_entries side a) (rom_canvases side a) in
    set_rom_canvases side cs (set_angle_entries side es a)).

Definition clear_all_measurements : M unit :=
  try_except
    (clear_side Unaffected;;
     clear_side Affected;;
     update_live_angle (PyFloat.of_Z 0);;
     modify (fun a =>
       set_serial_output_box
         (box_configure false
            (box_delete (box_configure true (serial_output_box a)))) a))
    any_exception
    (fun e => showerror "Error"
                ("Clear all error:" +:+ PyStr.newline +:+ exn_text e)).

(** [started] and [now] are the two readings of [time.time()]: the one
    stored as the start of the read, and the one of the first timer check. *)
Definition calibrate (started now : float) : M unit :=
  try_except
    (port ← gets open_port;
     match port with
     | None => showerror "Error" "Bluetooth not connected!"
     | Some port =>
         modify (set_ser (Some (write "r" (reset_input_buffer port))));;
         modify (fun a =>
           set_serial_output_box
             (box_configure false
                (box_delete (box_configure true (serial_output_box a)))) a);;
         modify (set_serial_read_start_time (Some started));;
         modify (set_serial_full_response "");;
         modify (set_serial_read_mode Calibration);;
         read_serial_live now
     end)
    any_exception
    (fun e => showerror "Error"
                ("Calibration error:" +:+ PyStr.newline +:+ exn_text e)).

(** The image and the instruction label that [select_movement] also sets
    are not part of the state. *)
Definition select_movement (letter movement_name : string) (idx : nat)
    (side : Side) : M unit :=
  modify (set_movement_letter (Some letter));;
  modify (set_selected_movement (Some idx));;
  modify (set_selected_side (Some side)).

Definition start_measurement (started now : float) : M unit :=
  port ← gets open_port;
  match port with
  | None => showerror "Error" "Bluetooth not connected!"
  | Some port =>
      letter ← gets movement_letter;
      movement ← gets selected_movement;
      side ← gets selected_side;
      match letter, movement, side with
      | Some letter, Some _, Some _ =>
          try_except
            (modify (set_ser (Some (write letter (reset_input_buffer port))));;
             modify (fun a =>
               set_serial_output_box
                 (box_configure false
                    (box_delete (box_configure true (serial_output_box a)))) a);;
             modify (set_serial_read_start_time (Some started));;
             modify (set_serial_full_response "");;
             modify (set_serial_read_mode Measurement);;
             read_serial_live now)
            any_exception
            (fun e => showerror "Error"
                        ("Serial error:" +:+ PyStr.newline +:+ exn_text e))
      | _, _, _ => showerror "Error" "No movement selected!"
      end
  end.

Definition redo_last_measurement (started now : float) : M unit :=
  try_except
    (letter ← gets movement_letter;
     match letter with
     | None => showerror "Error" "No previous movement to redo!"
     | Some _ => start_measurement started now
     end)
    any_exception
    (fun e => showerror "Error"
                ("Redo measurement error:" +:+ PyStr.newline +:+ exn_text e)).

(** ** The window once [setup_ui] is done, and the event loop *)

Definition new_entry : Entry := {| entry_text := ""; entry_state := Readonly |}.

Definition new_app : App :=
  {| ser := None; movement_letter := None; selected_movement := None;
     selected_side := None; serial_read_start_time := None;
     serial_full_response := ""; serial_read_duration := 7000;
     serial_read_mode := Measurement;
     unaffected_angle_entries := replicate 8 new_entry;
     affected_angle_entries := replicate 8 new_entry;
     unaffected_rom_canvases := replicate 4 (gauge (PyFloat.of_Z 0));
     affected_rom_canvases := replicate 4 (gauge (PyFloat.of_Z 0));
     live_canvas := [Arc (PyFloat.of_Z 180) "#CCCCCC"];
     serial_output_box :=
       {| box_text := "Awaiting Movement Selection..." +:+ PyStr.newline;
          box_normal := false |};
     after_queue := []; trace := [] |}.

(** A click on the button of movement [idx] for [side]. *)
Definition press_movement_button (idx : nat) (side : Side) : M unit :=
  match movements !! idx with
  | Some (movement, letter) => select_movement letter movement idx side
  | None => mret tt
  end.

(** The main loop runs the oldest callback handed to [after]. *)
Definition fire_timer (now : float) : M unit :=
  queue ← gets after_queue;
  match queue with
  | [] => mret tt
  | (_, ReadSerialLive) :: rest =>
      modify (set_after_queue rest);;
      read_serial_live now
  end.

(** The device sends [chunks]. *)
Definition device_sends (chunks : list string) (a : App) : App :=
  match ser a with
  | Some port => set_ser (Some (set_in_buffer (in_buffer port ++ chunks) port)) a
  | None => a
  end.

(* ===================================================================== *)
(** * Vocabulary of the properties *)
(* ===================================================================== *)

(** An entry seen as an angle slot: unset when its text is not a number. *)
Definition slot (e : Entry) : option float := PyFloat.of_string (entry_get e).

(** A slot's value, an unset slot counting as [0.0]. *)
Definition slot_value (e : Entry) : float := default PyFloat.zero (slot e).

Definition entry_of (text : string) : Entry :=
  {| entry_text := text; entry_state := Readonly |}.

(** The lines the final scan goes through, first to last. *)
Definition response_lines (serial_full_response : string) : list string :=
  PyStr.split PyStr.newline (PyStr.strip serial_full_response).

(** [line] carries the marker and the text after it is the number [v]. *)
Definition valid_angle_line (line : string) (v : float) : Prop :=
  PyStr.contains marker line = true /\ angle_of_line line = Ok v.

(** [line] has no marker, or the text after its marker is not a number. *)
Definition no_valid_angle (line : string) : Prop :=
  PyStr.contains marker line = false \/ exists e, angle_of_line line = Raised e.

(** The scan as the specification words it: from the end, the first line
    that carries the marker decides, whether its number parses or not. *)
Fixpoint scan_first_tagged (lines : list string) : option float :=
  match lines with
  | [] => None
  | line :: rest =>
      if PyStr.contains marker line
      then match angle_of_line line with Ok v => Some v | Raised _ => None end
      else scan_first_tagged rest
  end.

Definition parse_final_first_tagged (serial_full_response : string)
    : option float :=
  scan_first_tagged (reverse (response_lines serial_full_response)).

(** Eight entries and four ROM gauges on each side. *)
Definition laid_out (a : App) : Prop :=
  forall side, length (angle_entries side a) = 8%nat /\
               length (rom_canvases side a) = 4%nat.

Definition rom_gauges (r : RomResult) : list Canvas :=
  [ gauge (rom_wrist r); gauge (rom_forearm r); gauge (rom_elbow r);
    gauge (rom_wrist_deviation r) ].

(** The ROM values of a side of eight entries. *)
Definition rom_of (entries : list Entry) : RomResult :=
  let v k := default PyFloat.zero (slot_value <$> entries !! k) in
  {| rom_wrist := PyFloat.add (v 0%nat) (v 1%nat);
     rom_forearm := PyFloat.add (v 2%nat) (v 3%nat);
     rom_elbow := PyFloat.div (PyFloat.add (v 4%nat) (v 5%nat)) (PyFloat.of_Z 2);
     rom_wrist_deviation := PyFloat.add (v 6%nat) (v 7%nat) |}.

(** The inner [try] of the loop: the line as a bare number, or nothing. *)
Definition parse_live (line : string) : option float :=
  match py_float line with
  | Ok angle => Some angle
  | Raised _ => None
  end.

(** What one turn of the loop does with the chunk it reads. *)
Definition after_chunk (port : Serial) (rest : list string) (chunk : string)
    (st : App) : App :=
  let line := PyStr.strip chunk in
  let st1 :=
    set_serial_output_box
      (box_configure false
         (box_insert (line +:+ PyStr.newline)
            (box_configure true (serial_output_box st))))
      (set_serial_full_response
         (serial_full_response st +:+ (line +:+ PyStr.newline))
         (set_ser (Some (set_in_buffer rest port)) st)) in
  match parse_live line with
  | Some angle =>
      set_trace (trace st1 ++ [LiveAngle angle])
        (set_live_canvas (gauge angle) st1)
  | None => st1
  end.

(** The text the loop adds to [serial_full_response]. *)
Fixpoint received (chunks : list string) : string :=
  match chunks with
  | [] => ""
  | chunk :: rest => (PyStr.strip chunk +:+ PyStr.newline) +:+ received rest
  end.

(** The calls to [update_live_angle] the loop makes. *)
Fixpoint live_calls (chunks : list string) : list Call :=
  match chunks with
  | [] => []
  | chunk :: rest =>
      match parse_live (PyStr.strip chunk) with
      | Some angle => LiveAngle angle :: live_calls rest
      | None => live_calls rest
      end
  end.

(** What a handler leaves alone when all it does is read the port and draw
    live values. *)
Record same_session (st st' : App) : Prop := {
  same_movement_letter : movement_letter st' = movement_letter st;
  same_selected_movement : selected_movement st' = selected_movement st;
  same_selected_side : selected_side st' = selected_side st;
  same_start_time : serial_read_start_time st' = serial_read_start_time st;
  same_duration : serial_read_duration st' = serial_read_duration st;
  same_mode : serial_read_mode st' = serial_read_mode st;
  same_entries : forall side, angle_entries side st' = angle_entries side st;
  same_canvases : forall side, rom_canvases side st' = rom_canvases side st;
  same_after_queue : after_queue st' = after_queue st
}.

(** The state once the loop of a tick has emptied the input buffer. *)
Definition polled (port : Serial) (st : App) : App :=
  exec (read_lines port (in_buffer port)) st.

(** The entry of a slot after a successful final processing. *)
Definition stored_entry (angle : float) : Entry :=
  {| entry_text := PyFloat.format_1f angle; entry_state := Readonly |}.

Definition store_angle (side : Side) (i : nat) (angle : float) (st : App) : App :=
  set_angle_entries side (<[i := stored_entry angle]> (angle_entries side st)) st.

Definition show_roms (st : App) : App :=
  set_affected_rom_canvases (rom_gauges (rom_of (affected_angle_entries st)))
    (set_unaffected_rom_canvases
       (rom_gauges (rom_of (unaffected_angle_entries st))) st).

Definition show_live (angle : float) (st : App) : App :=
  set_trace (trace st ++ [LiveAngle angle]) (set_live_canvas (gauge angle) st).

(** Running [m] from [st] does not change what [f] reads. *)
Definition untouched {X A} (f : App -> X) (m : M A) (st : App) : Prop :=
  f (exec m st) = f st.

(** The state [calibrate] and [start_measurement] prepare before their first
    poll: the command sent on a flushed port, the monitor emptied, the
    session attributes reset. *)
Definition armed (port : Serial) (command : string) (mode : Mode)
    (started : float) (st : App) : App :=
  set_serial_read_mode mode
    (set_serial_full_response ""
       (set_serial_read_start_time (Some started)
          (set_serial_output_box
             (box_configure false
                (box_delete (box_configure true (serial_output_box st))))
             (set_ser (Some (write command (reset_input_buffer port))) st)))).

(** The float a decimal literal denotes. *)
Definition number (text : string) : float :=
  default S754_nan (PyFloat.of_string text).

(** A line as the device sends it. *)
Definition sent (line : string) : string := line +:+ PyStr.newline.

Definition port0 : Serial := {| is_open := true; in_buffer := []; written := "" |}.

(** The window once the user has connected. *)
Definition connected_app : App :=
  exec (connect_bluetooth "COM3" (inr port0)) new_app.

(** A whole measurement of Wrist Flexion on the unaffected side: selection,
    start at second 1000, the device streams [stream], and the tick that
    sees the 7000 ms elapsed. *)
Definition flexion_session (stream : list string) : App :=
  let st := exec (press_movement_button 0 Unaffected) connected_app in
  let st := exec (start_measurement (PyFloat.of_Z 1000) (PyFloat.of_Z 1000)) st in
  let st := device_sends stream st in
  exec (fire_timer (PyFloat.of_Z 1007)) st.

(** A buffered response ready for the final processing of Wrist Flexion on
    the unaffected side. *)
Definition flexion_buffered (response : string) : App :=
  set_serial_full_response response
    (exec (press_movement_button 0 Unaffected) connected_app).

(** Two sessions started one second apart: Wrist Flexion, then Wrist
    Extension before the first read window is over. After the second start
    two ticks are queued, the older one left by the first session; it runs
    once more and queues itself again behind the tick of the second session.
    The device then sends [ANGLE:30.0]. *)
Definition two_sessions : App :=
  let st := exec (press_movement_button 0 Unaffected) connected_app in
  let st := exec (start_measurement (PyFloat.of_Z 1000) (PyFloat.of_Z 1000)) st in
  let st := exec (fire_timer (PyFloat.of_Z 1000)) st in
  let st := exec (press_movement_button 1 Unaffected) st in
  let st := exec (start_measurement (PyFloat.of_Z 1001) (PyFloat.of_Z 1001)) st in
  let st := exec (fire_timer (PyFloat.of_Z 1001)) st in
  device_sends [sent "ANGLE:30.0"] st.

(** The tick of the second session sees its window elapsed and finalizes. *)
Definition second_finalized : App :=
  exec (fire_timer (PyFloat.of_Z 1008)) two_sessions.

(** The device sends one more line; the tick left by the first session runs. *)
Definition stale_tick_fired : App :=
  exec (fire_timer (PyFloat.of_Z 1008))
    (device_sends [sent "ANGLE:99.9"] second_finalized).

(** A measurement of Wrist Flexion started at second 1000, its first tick
    queued. *)
Definition flexion_started : App :=
  exec (start_measurement (PyFloat.of_Z 1000) (PyFloat.of_Z 1000))
    (exec (press_movement_button 0 Unaffected) connected_app).

(** What the loop of a tick will read. *)
Definition incoming (st : App) : list string :=
  match open_port st with
  | Some port => in_buffer port
  | None => []
  end.

(** The device sends some chunks, then the main loop fires the oldest
    timer; and so on. *)
Fixpoint poll (events : list (list string * float)) (st : App) : App :=
  match events with
  | [] => st
  | (chunks, now) :: rest =>
      poll rest (exec (fire_timer now) (device_sends chunks st))
  end.

Definition is_live (c : Call) : Prop := exists angle, c = LiveAngle angle.

(** A calibration started at second 2000 on a window where Wrist Flexion
    holds 10.0; the device streams a bare value and a tagged line. *)
Definition calibration_started : App :=
  device_sends [sent "12.5"; sent "ANGLE:77.7"]
    (exec (calibrate (PyFloat.of_Z 2000) (PyFloat.of_Z 2000))
       (store_angle Unaffected 0 (PyFloat.of_Z 10) connected_app)).

(** A window where all sixteen slots hold 10.0. *)
Definition measured_app : App :=
  set_affected_angle_entries (replicate 8 (stored_entry (PyFloat.of_Z 10)))
    (set_unaffected_angle_entries (replicate 8 (stored_entry (PyFloat.of_Z 10)))
       connected_app).

(** The state [clear_all_measurements] leaves: it raises nothing. *)
Definition cleared_side (side : Side) (st : App) : App :=
  set_rom_canvases side (clear_zip (angle_entries side st) (rom_canvases side st)).2
    (set_angle_entries side
       (clear_zip (angle_entries side st) (rom_canvases side st)).1 st).

(* ===================================================================== *)
(** * Export: the files and the handlers that write them *)
(* ===================================================================== *)

(** ** [csv.writer(file)] with the default dialect *)

Module PyCsv.

Definition quotechar : ascii := ascii_of_nat 34.

Definition lineterminator : string :=
  String (ascii_of_nat 13) (String (ascii_of_nat 10) EmptyString).

(** The characters that make the writer quote a field: the delimiter, the
    quote character, and the characters of the line terminator. *)
Definition is_special (c : ascii) : bool :=
  let n := N_of_ascii c in
  ((n =? 44) || (n =? 34) || (n =? 13) || (n =? 10))%N.

Fixpoint needs_quotes (s : string) : bool :=
  match s with
  | EmptyString => false
  | String c s' => is_special c || needs_quotes s'
  end.

(** Every quote character is written twice. *)
Fixpoint double_quotes (s : string) : string :=
  match s with
  | EmptyString => EmptyString
  | String c s' =>
      if Ascii.eqb c quotechar
      then String c (String c (double_quotes s'))
      else String c (double_quotes s')
  end.

Definition field (s : string) : string :=
  if needs_quotes s
  then String quotechar (double_quotes s +:+ String quotechar EmptyString)
  else s.

Fixpoint join (fields : list string) : string :=
  match fields with
  | [] => EmptyString
  | f :: rest =>
      match rest with
      | [] => f
      | _ :: _ => f +:+ "," +:+ join rest
      end
  end.

(** The text [writer.writerow(fields)] adds to the file. A row made of one
    empty field is written as an empty quoted field. *)
Definition row (fields : list string) : string :=
  match fields with
  | [f] =>
      if PyStr.is_empty f then String quotechar (String quotechar EmptyString)
      else field f
  | _ => join (field <$> fields)
  end +:+ lineterminator.

End PyCsv.

(** ** The calls made on an [FPDF] document *)

(** [border], [ln] and [fill] are off and [align] is empty when the call does
    not give them. *)
Inductive PdfOp : Type :=
  | AddPage
  | SetFont (family style : string) (size : Z)
  | SetFillColor (r g b : Z)
  | Cell (w h : Z) (txt : string) (border ln : bool) (align : string)
         (fill : bool)
  | Ln (h : Z).

(** ** Files *)

(** What a file holds: the text written to it, or the calls that built the
    document [pdf.output] saved. *)
Inductive Document : Type :=
  | CsvFile (content : string)
  | PdfFile (ops : list PdfOp).

(** The window and the files beside it. *)
Record Desk : Type := { window : App; disk : gmap string Document }.

(** Code that reads or writes [self] and files. *)
Definition W (A : Type) : Type := Desk -> Outcome A * Desk.

#[export] Instance W_ret : MRet W := fun A a d => (Ok a, d).
#[export] Instance W_bind : MBind W :=
  fun A B f m d =>
    match m d with
    | (Ok a, d') => f a d'
    | (Raised e, d') => (Raised e, d')
    end.

Definition on_window {A} (m : M A) : W A :=
  fun d =>
    let '(r, a) := m (window d) in (r, {| window := a; disk := disk d |}).

Definition on_disk (f : gmap string Document -> gmap string Document) : W unit :=
  fun d => (Ok tt, {| window := window d; disk := f (disk d) |}).

(** [try: body  except <catches> as e: handler] *)
Definition try_except_files {A} (body : W A) (catches : PyExn -> bool)
    (handler : PyExn -> W A) : W A :=
  fun d =>
    match body d with
    | (Ok a, d') => (Ok a, d')
    | (Raised e, d') => if catches e then handler e d' else (Raised e, d')
    end.

Definition exec_files {A} (m : W A) (d : Desk) : Desk := snd (m d).
Definition result_files {A} (m : W A) (d : Desk) : Outcome A := fst (m d).

(** [filedialog.asksaveasfilename(defaultextension=..., initialfile=...)]:
    the path the user chooses, empty when the dialog is cancelled. *)
Definition Dialog : Type := string -> string -> string.

Definition file_text (file_path : string) (files : gmap string Document)
    : string :=
  match files !! file_path with
  | Some (CsvFile content) => content
  | _ => ""
  end.

(** [open(file_path, mode="w", newline="")]: the file is created or emptied;
    it is taken to be writable. *)
Definition open_w (file_path : string) : W unit :=
  on_disk (<[file_path := CsvFile ""]>).

(** [writer.writerow(row)] on the file opened at [file_path]. *)
Definition writerow (file_path : string) (row : list string) : W unit :=
  on_disk (fun files =>
    <[file_path := CsvFile (file_text file_path files +:+ PyCsv.row row)]> files).

(** The local list [movements] of the two export functions. *)
Definition movement_names : list string :=
  [ "Wrist Flexion"; "Wrist Extension";
    "Forearm Supination"; "Forearm Pronation";
    "Elbow Flexion"; "Elbow Extension";
    "Radial Deviation"; "Ulnar Deviation" ].

Definition rom_labels : list string :=
  [ "ROM Wrist"; "ROM Forearm"; "ROM Elbow"; "ROM Wrist Deviation" ].

(** [roms.get(rom_label, 0)] *)
Definition rom_get (rom_label : string) (roms : RomResult) : float :=
  if String.eqb rom_label "ROM Wrist" then rom_wrist roms
  else if String.eqb rom_label "ROM Forearm" then rom_forearm roms
  else if String.eqb rom_label "ROM Elbow" then rom_elbow roms
  else if String.eqb rom_label "ROM Wrist Deviation"
       then rom_wrist_deviation roms
  else PyFloat.of_Z 0.

(** [for i, movement in enumerate(movements): writer.writerow([...])],
    from index [i] on. *)
Fixpoint write_movements (file_path : string) (i : nat) (names : list string)
    : W unit :=
  match names with
  | [] => mret tt
  | movement :: rest =>
      unaffected ← on_window (entries ← gets unaffected_angle_entries;
                              lift (item entries i));
      affected ← on_window (entries ← gets affected_angle_entries;
                            lift (item entries i));
      writerow file_path [movement; entry_get unaffected; entry_get affected];;
      write_movements file_path (S i) rest
  end.

(** [for rom_label in [...]: writer.writerow([...])] *)
Fixpoint write_roms (file_path : string) (labels : list string) : W unit :=
  match labels with
  | [] => mret tt
  | rom_label :: rest =>
      unaffected_roms ← on_window (entries ← gets unaffected_angle_entries;
                                   lift (calculate_rom_side entries));
      affected_roms ← on_window (entries ← gets affected_angle_entries;
                                 lift (calculate_rom_side entries));
      writerow file_path
        [ rom_label;
          PyFloat.format_1f (rom_get rom_label unaffected_roms);
          PyFloat.format_1f (rom_get rom_label affected_roms) ];;
      write_roms file_path rest
  end.

(** [patient_id_text] is what [self.patient_id_entry.get()] returns. An
    exception inside the [with] block leaves the file with the rows written
    before it. *)
Definition export_to_csv (patient_id_text : string)
    (asksaveasfilename : Dialog) : W unit :=
  try_except_files
    (let patient_id := PyStr.strip patient_id_text in
     if PyStr.is_empty patient_id
     then on_window (showerror "Error" "Please enter a patient ID!")
     else
       let file_path :=
         asksaveasfilename ".csv" (patient_id +:+ "_DiagnosticTest.csv") in
       if PyStr.is_empty file_path then mret tt
       else
         open_w file_path;;
         writerow file_path ["Patient ID"; patient_id];;
         writerow file_path [];;
         writerow file_path ["Movement Measurements"];;
         writerow file_path ["Movement"; "Unaffected"; "Affected"];;
         write_movements file_path 0 movement_names;;
         writerow file_path [];;
         writerow file_path ["Calculated ROM Values"];;
         writerow file_path ["ROM Type"; "Unaffected"; "Affected"];;
         write_roms file_path rom_labels;;
         on_window (showinfo "Success" "Data exported successfully!"))
    any_exception
    (fun e => on_window (showerror "Error"
                ("Export error:" +:+ PyStr.newline +:+ exn_text e))).

(** The cells of the movements table, from index [i] on. *)
Fixpoint pdf_movements (a : App) (i : nat) (names : list string)
    : Outcome (list PdfOp) :=
  match names with
  | [] => Ok []
  | movement :: rest =>
      unaffected ← item (unaffected_angle_entries a) i;
      affected ← item (affected_angle_entries a) i;
      ops ← pdf_movements a (S i) rest;
      Ok ([ Cell 70 8 movement true false "" false;
            Cell 60 8 (entry_get unaffected) true false "C" false;
            Cell 60 8 (entry_get affected) true false "C" false;
            Ln 8 ] ++ ops)
  end.

(** The cells of the ROM summary. *)
Definition pdf_roms (unaffected_roms affected_roms : RomResult)
    (labels : list string) : list PdfOp :=
  rom_label ← labels;
  [ Cell 70 8 rom_label true false "" false;
    Cell 60 8 (PyFloat.format_1f (rom_get rom_label unaffected_roms))
      true false "C" false;
    Cell 60 8 (PyFloat.format_1f (rom_get rom_label affected_roms))
      true false "C" false;
    Ln 8 ].

(** The calls [export_to_pdf] makes on its document before it saves it. The
    document is local: when a call raises, what was drawn is lost.
    [current_date] is [datetime.datetime.now()] formatted. *)
Definition pdf_report (patient_id current_date : string) (a : App)
    : Outcome (list PdfOp) :=
  movement_cells ← pdf_movements a 0 movement_names;
  unaffected_roms ← calculate_rom_side (unaffected_angle_entries a);
  affected_roms ← calculate_rom_side (affected_angle_entries a);
  Ok ([ AddPage;
        SetFont "Arial" "" 12;
        Cell 200 10 "MedMove Diagnostics Report" false true "C" false;
        Ln 5;
        SetFont "Arial" "" 10;
        Cell 200 10 ("Date: " +:+ current_date) false true "C" false;
        Ln 10;
        SetFillColor 220 220 220;
        SetFont "Arial" "" 12;
        Cell 200 10 ("Patient ID: " +:+ patient_id) false true "L" true;
        Ln 10;
        SetFont "Arial" "B" 12;
        Cell 200 10 "Movement Measurements" false true "L" false;
        SetFont "Arial" "B" 11;
        Cell 70 8 "Movement" true false "C" false;
        Cell 60 8 "Unaffected" true false "C" false;
        Cell 60 8 "Affected" true false "C" false;
        Ln 8;
        SetFont "Arial" "" 11 ]
      ++ movement_cells
      ++ [ Ln 10;
           SetFont "Arial" "B" 12;
           Cell 200 10 "Calculated ROM Values" false true "L" false;
           SetFont "Arial" "B" 11;
           Cell 70 8 "ROM Type" true false "C" false;
           Cell 60 8 "Unaffected" true false "C" false;
           Cell 60 8 "Affected" true false "C" false;
           Ln 8;
           SetFont "Arial" "" 11 ]
      ++ pdf_roms unaffected_roms affected_roms rom_labels).

Definition export_to_pdf (patient_id_text : string)
    (asksaveasfilename : Dialog) (current_date : string) : W unit :=
  try_except_files
    (let patient_id := PyStr.strip patient_id_text in
     if PyStr.is_empty patient_id
     then on_window (showerror "Error" "Please enter a patient ID!")
     else
       let file_path :=
         asksaveasfilename ".pdf" (patient_id +:+ "_DiagnosticTest.pdf") in
       if PyStr.is_empty file_path then mret tt
       else
         ops ← on_window (a ← gets id;
                          lift (pdf_report patient_id current_date a));
         on_disk (<[file_path := PdfFile ops]>);;
         on_window (showinfo "Success" "PDF exported successfully!"))
    any_exception
    (fun e => on_window (showerror "Error"
                ("PDF export error:" +:+ PyStr.newline +:+ exn_text e))).

Definition handle_export (patient_id_text : string)
    (asksaveasfilename : Dialog) (current_date : string) : W unit :=
  export_to_csv patient_id_text asksaveasfilename;;
  export_to_pdf patient_id_text asksaveasfilename current_date.

(** ** The main loop *)

(** What the main loop dispatches: a click on a button of the window, a
    timer that is due, and, between two handlers, bytes from the device. *)
Inductive Event : Type :=
  | ClickConnect (selected_port : string) (opened : string + Serial)
  | ClickMovement (idx : nat) (side : Side)
  | ClickStart (started now : float)
  | ClickRedo (started now : float)
  | ClickCalibrate (started now : float)
  | ClickClearAll
  | ClickExport (patient_id_text : string) (asksaveasfilename : Dialog)
                (current_date : string)
  | TimerFires (now : float)
  | DeviceSends (chunks : list string).

Definition handle (ev : Event) : W unit :=
  match ev with
  | ClickConnect selected_port opened =>
      on_window (connect_bluetooth selected_port opened)
  | ClickMovement idx side => on_window (press_movement_button idx side)
  | ClickStart started now => on_window (start_measurement started now)
  | ClickRedo started now => on_window (redo_last_measurement started now)
  | ClickCalibrate started now => on_window (calibrate started now)
  | ClickClearAll => on_window clear_all_measurements
  | ClickExport patient_id_text asksaveasfilename current_date =>
      handle_export patient_id_text asksaveasfilename current_date
  | TimerFires now => on_window (fire_timer now)
  | DeviceSends chunks => on_window (modify (device_sends chunks))
  end.

(** The desk after the events, oldest first. A handler that ends by an
    exception leaves what it had done: the main loop reports it and goes on. *)
Definition run (events : list Event) (d : Desk) : Desk :=
  foldl (fun d ev => exec_files (handle ev) d) d events.

(** The desk when the window opens. *)
Definition new_desk : Desk := {| window := new_app; disk := ∅ |}.

(** ** Vocabulary of the main loop's properties *)

(** An entry as the handlers leave it: read-only, and empty or holding the
    [.1f] rendering of a float. *)
Definition rendered (e : Entry) : Prop :=
  entry_state e = Readonly /\
  (entry_text e = "" \/ exists v, entry_text e = PyFloat.format_1f v).

(** Nothing is selected, or a letter, a movement and a side are, the letter
    being the one the sidebar gives to the movement. *)
Definition selection_ok (st : App) : Prop :=
  match movement_letter st, selected_movement st, selected_side st with
  | None, None, None => True
  | Some letter, Some i, Some _ =>
      exists name, movements !! i = Some (name, letter)
  | _, _, _ => False
  end.

(** The errors the handlers show on purpose, after a check of theirs. *)
Definition user_errors : list string :=
  [ "No COM port selected!"; "Bluetooth not connected!";
    "No movement selected!"; "No valid ANGLE data found!";
    "No previous movement to redo!"; "Please enter a patient ID!" ].

(** A call to the display that no [except Exception] clause made: a live
    update, a success message, the report of a failed connection, or one of
    the errors above. *)
Definition expected (c : Call) : Prop :=
  match c with
  | ShowError title message =>
      title = "Connection Failed" \/
      (title = "Error" /\ message ∈ user_errors)
  | ShowInfo _ _ | LiveAngle _ => True
  end.

(** What every handler finds and leaves. *)
Record well_formed (st : App) : Prop := {
  wf_laid_out : laid_out st;
  wf_rendered : forall side, Forall rendered (angle_entries side st);
  wf_monitor : box_normal (serial_output_box st) = false;
  wf_selection : selection_ok st;
  wf_timer : serial_read_start_time st = None -> after_queue st = [];
  wf_trace : Forall expected (trace st)
}.

(** ** Vocabulary of the exports *)

(** The text of a slot, empty when the entry is missing. *)
Definition slot_text (side : Side) (i : nat) (a : App) : string :=
  default "" (entry_get <$> angle_entries side a !! i).

(** A row by movement, from index [i] on: its name and the texts of its two
    slots. *)
Fixpoint movement_rows (a : App) (i : nat) (names : list string)
    : list (list string) :=
  match names with
  | [] => []
  | movement :: rest =>
      [movement; slot_text Unaffected i a; slot_text Affected i a]
      :: movement_rows a (S i) rest
  end.

(** A row by ROM value: its label and the value of each side, with one
    decimal. *)
Definition rom_rows (a : App) : list (list string) :=
  let unaffected := rom_of (unaffected_angle_entries a) in
  let affected := rom_of (affected_angle_entries a) in
  [ [ "ROM Wrist"; PyFloat.format_1f (rom_wrist unaffected);
      PyFloat.format_1f (rom_wrist affected) ];
    [ "ROM Forearm"; PyFloat.format_1f (rom_forearm unaffected);
      PyFloat.format_1f (rom_forearm affected) ];
    [ "ROM Elbow"; PyFloat.format_1f (rom_elbow unaffected);
      PyFloat.format_1f (rom_elbow affected) ];
    [ "ROM Wrist Deviation";
      PyFloat.format_1f (rom_wrist_deviation unaffected);
      PyFloat.format_1f (rom_wrist_deviation affected) ] ].

(** The two tables of a report, each under its heading row. *)
Definition report_tables (a : App) : list (list string) :=
  (["Movement"; "Unaffected"; "Affected"] :: movement_rows a 0 movement_names)
  ++ (["ROM Type"; "Unaffected"; "Affected"] :: rom_rows a).

(** The rows of an exported CSV file. *)
Definition csv_rows (patient_id : string) (a : App) : list (list string) :=
  [ ["Patient ID"; patient_id]; []; ["Movement Measurements"];
    ["Movement"; "Unaffected"; "Affected"] ]
  ++ movement_rows a 0 movement_names
  ++ [ []; ["Calculated ROM Values"]; ["ROM Type"; "Unaffected"; "Affected"] ]
  ++ rom_rows a.

(** The text of a file made of these rows. *)
Fixpoint csv_text (rows : list (list string)) : string :=
  match rows with
  | [] => ""
  | row :: rest => PyCsv.row row +:+ csv_text rest
  end.

(** The rows of bordered cells of a document, a row ending where [ln] is
    called; [cur] holds the cells of the row being read. *)
Fixpoint bordered_rows (cur : list string) (ops : list PdfOp)
    : list (list string) :=
  match ops with
  | [] => match cur with [] => [] | _ :: _ => [cur] end
  | Cell _ _ txt true _ _ _ :: rest => bordered_rows (cur ++ [txt]) rest
  | Ln _ :: rest =>
      match cur with
      | [] => bordered_rows [] rest
      | _ :: _ => cur :: bordered_rows [] rest
      end
  | _ :: rest => bordered_rows cur rest
  end.

(** The cells an export draws for a row of three texts. *)
Definition row_cells (header : bool) (row : list string) : list PdfOp :=
  match row with
  | [name; unaffected; affected] =>
      [ Cell 70 8 name true false (if header then "C" else "") false;
        Cell 60 8 unaffected true false "C" false;
        Cell 60 8 affected true false "C" false;
        Ln 8 ]
  | _ => []
  end.

(** The document [export_to_pdf] saves. *)
Definition pdf_ops (patient_id current_date : string) (a : App) : list PdfOp :=
  [ AddPage;
    SetFont "Arial" "" 12;
    Cell 200 10 "MedMove Diagnostics Report" false true "C" false;
    Ln 5;
    SetFont "Arial" "" 10;
    Cell 200 10 ("Date: " +:+ current_date) false true "C" false;
    Ln 10;
    SetFillColor 220 220 220;
    SetFont "Arial" "" 12;
    Cell 200 10 ("Patient ID: " +:+ patient_id) false true "L" true;
    Ln 10;
    SetFont "Arial" "B" 12;
    Cell 200 10 "Movement Measurements" false true "L" false;
    SetFont "Arial" "B" 11 ]
  ++ row_cells true ["Movement"; "Unaffected"; "Affected"]
  ++ [ SetFont "Arial" "" 11 ]
  ++ (movement_rows a 0 movement_names ≫= row_cells false)
  ++ [ Ln 10;
       SetFont "Arial" "B" 12;
       Cell 200 10 "Calculated ROM Values" false true "L" false;
       SetFont "Arial" "B" 11 ]
  ++ row_cells true ["ROM Type"; "Unaffected"; "Affected"]
  ++ [ SetFont "Arial" "" 11 ]
  ++ (rom_rows a ≫= row_cells false).

(** ** Vocabulary of a whole read *)

(** What [readline] can return: a text with no line feed, but possibly as
    its last character. *)
Fixpoint one_line (chunk : string) : bool :=
  match chunk with
  | EmptyString => true
  | String c rest =>
      if Ascii.eqb c (ascii_of_nat 10) then PyStr.is_empty rest
      else one_line rest
  end.

(** A text that does not begin with white space. *)
Definition no_lead (ws : ascii -> bool) (s : string) : Prop :=
  match s with
  | EmptyString => True
  | String c _ => ws c = false
  end.

(** A line as the read loop stores it: stripped, and without a line feed. *)
Record clean (line : string) : Prop := {
  clean_lead : no_lead PyStr.is_space line;
  clean_trail : PyStr.rstrip_with PyStr.is_space line = line;
  clean_line : PyStr.contains PyStr.newline line = false
}.

(** A measurement under way since [started], as [start_measurement] on [st0]
    and the ticks that follow leave it while the read window is open:
    [chunks] is what was read so far, [shown] what the monitor shows of
    it. *)
Record reading (st0 : App) (started : float) (chunks shown : list string)
    (st : App) : Prop := {
  reading_port :
    exists port, open_port st = Some port /\ in_buffer port = [];
  reading_start : serial_read_start_time st = Some started;
  reading_duration : serial_read_duration st = serial_read_duration st0;
  reading_mode : serial_read_mode st = Measurement;
  reading_queue : after_queue st = [(50, ReadSerialLive)];
  reading_response : serial_full_response st = received chunks;
  reading_monitor : box_text (serial_output_box st) = received shown;
  reading_letter : movement_letter st = movement_letter st0;
  reading_movement : selected_movement st = selected_movement st0;
  reading_side : selected_side st = selected_side st0;
  reading_entries : forall side, angle_entries side st = angle_entries side st0;
  reading_canvases : forall side, rom_canvases side st = rom_canvases side st0
}.

(** The chunks of a list of batches, oldest first. *)
Definition chunks_of (batches : list (list string * float)) : list string :=
  mjoin (fst <$> batches).

(** A click on [Connect] that opens a port. *)
Definition connects (ev : Event) : bool :=
  match ev with
  | ClickConnect selected_port (inr _) => negb (PyStr.is_empty selected_port)
  | _ => false
  end.

(** A window that was never connected and never measured. *)
Record idle (st : App) : Prop := {
  idle_ser : ser st = None;
  idle_queue : after_queue st = [];
  idle_entries : forall side, angle_entries side st = replicate 8 new_entry;
  idle_canvases :
    forall side, rom_canvases side st = replicate 4 (gauge (PyFloat.of_Z 0))
}.

(* ===================================================================== *)
(** * Lemmas *)
(* ===================================================================== *)

Lemma safe_float_default text :
  safe_float text = Ok (default PyFloat.zero (PyFloat.of_string text)).
Proof.
  unfold safe_float, py_float.
  destruct (PyFloat.of_string text); reflexivity.
Qed.

Lemma calculate_rom_side_eight (e0 e1 e2 e3 e4 e5 e6 e7 : Entry) :
    calculate_rom_side [e0; e1; e2; e3; e4; e5; e6; e7] =
    Ok {| rom_wrist := PyFloat.add (slot_value e0) (slot_value e1);
          rom_forearm := PyFloat.add (slot_value e2) (slot_value e3);
          rom_elbow :=
            PyFloat.div (PyFloat.add (slot_value e4) (slot_value e5))
                        (PyFloat.of_Z 2);
          rom_wrist_deviation := PyFloat.add (slot_value e6) (slot_value e7) |}.
Proof.
  unfold calculate_rom_side, item. cbn [lookup list_lookup].
  cbn.
  rewrite !safe_float_default. reflexivity.
Qed.

Lemma angle_of_line_raises line e :
  angle_of_line line = Raised e -> is_IndexError_or_ValueError e = true.
Proof.
  unfold angle_of_line, item, py_float.
  destruct (PyStr.split marker line !! 1%nat) as [part|]; cbn.
  - destruct (PyFloat.of_string (PyStr.strip part)); intros H; inversion H.
    reflexivity.
  - intros H; inversion H. reflexivity.
Qed.

Lemma scan_lines_found before line after v :
  Forall no_valid_angle before -> valid_angle_line line v ->
  scan_lines (before ++ line :: after) = Ok (Some v).
Proof.
  intros Hbefore [Htag Hval].
  induction Hbefore as [|l before Hl _ IH]; cbn.
  - rewrite Htag, Hval. reflexivity.
  - destruct Hl as [Hl | [e He]].
    + rewrite Hl. exact IH.
    + destruct (PyStr.contains marker l); [|exact IH].
      rewrite He. cbn. rewrite (angle_of_line_raises _ _ He). exact IH.
Qed.

Lemma scan_lines_none lines :
  Forall no_valid_angle lines -> scan_lines lines = Ok None.
Proof.
  induction 1 as [|l lines Hl _ IH]; cbn; [reflexivity|].
  destruct Hl as [Hl | [e He]].
  - rewrite Hl. exact IH.
  - destruct (PyStr.contains marker l); [|exact IH].
    rewrite He. cbn. rewrite (angle_of_line_raises _ _ He). exact IH.
Qed.

(** Every list of lines either has no valid line or splits at its first
    valid one. *)
Lemma first_valid_line lines :
  Forall no_valid_angle lines \/
  exists before line after v,
    lines = before ++ line :: after /\
    Forall no_valid_angle before /\ valid_angle_line line v.
Proof.
  induction lines as [|l lines IH].
  - left. constructor.
  - destruct (PyStr.contains marker l) eqn:Htag.
    + destruct (angle_of_line l) as [v|e] eqn:Hval.
      * right. exists [], l, lines, v. repeat split; auto.
      * destruct IH as [IH | (before & line & after & v & -> & Hb & Hv)].
        -- left. constructor; [right; eauto | exact IH].
        -- right. exists (l :: before), line, after, v.
           repeat split; [|apply Hv|apply Hv].
           constructor; [right; eauto | exact Hb].
    + destruct IH as [IH | (before & line & after & v & -> & Hb & Hv)].
      * left. constructor; [left; exact Htag | exact IH].
      * right. exists (l :: before), line, after, v.
        repeat split; [|apply Hv|apply Hv].
        constructor; [left; exact Htag | exact Hb].
Qed.

(** C2, counterexample. With the lines [ANGLE:12.0] and [ANGLE:abc] the last
    tagged line does not parse: the claim's scan stops there with no value,
    the code goes on to the earlier line and returns 12.0. *)
Lemma parse_final_skips_unparsable_tagged_line :
  let response := "ANGLE:12.0" +:+ PyStr.newline +:+ "ANGLE:abc" +:+ PyStr.newline in
  parse_final_first_tagged response = None /\
  parse_final response = Ok (Some (PyFloat.of_Z 12)).
Proof. vm_compute. split; reflexivity. Qed.

(** C2, amended. [parse_final] never raises and returns the number of the
    last line of the buffer that carries the marker [ANGLE:] and whose text
    between that marker and the next one (or the end of the line) parses as
    a float; tagged lines that do not parse are passed over. It returns
    [None] exactly when the buffer has no such line. With the lines [junk],
    [ANGLE:12.0], [ANGLE:45.5] the result is 45.5. *)
Theorem parse_final_last_valid_line :
  (forall response : string,
     (Forall no_valid_angle (response_lines response) /\
      parse_final response = Ok None) \/
     (exists before line after v,
        response_lines response = before ++ line :: after /\
        valid_angle_line line v /\
        Forall no_valid_angle after /\
        parse_final response = Ok (Some v))) /\
  parse_final ("junk" +:+ PyStr.newline +:+ "ANGLE:12.0" +:+ PyStr.newline
               +:+ "ANGLE:45.5" +:+ PyStr.newline)
  = Ok (PyFloat.of_string "45.5") /\
  PyFloat.of_string "45.5" <> None.
Proof.
  split; [|split; [vm_compute; reflexivity | vm_compute; discriminate]].
  intros response. unfold parse_final. fold (response_lines response).
  destruct (first_valid_line (reverse (response_lines response)))
    as [Hnone | (before & line & after & v & Heq & Hb & Hv)].
  - left. split.
    + apply Forall_reverse in Hnone. rewrite reverse_involutive in Hnone.
      exact Hnone.
    + apply scan_lines_none. exact Hnone.
  - right. exists (reverse after), line, (reverse before), v.
    split; [|split; [exact Hv|split]].
    + rewrite <- (reverse_involutive (response_lines response)), Heq.
      rewrite reverse_app, reverse_cons, <- app_assoc. reflexivity.
    + apply Forall_reverse. exact Hb.
    + rewrite Heq. apply scan_lines_found; assumption.
Qed.

Ltac list_of_length l :=
  repeat (destruct l as [|? l]; [discriminate|]);
  destruct l; [|discriminate].

Lemma calculate_rom_side_rom_of entries :
  length entries = 8%nat -> calculate_rom_side entries = Ok (rom_of entries).
Proof.
  intros H. list_of_length entries.
  rewrite calculate_rom_side_eight. reflexivity.
Qed.

#[local] Arguments calculate_rom_side : simpl never.
#[local] Arguments gauge : simpl never.
#[local] Arguments rom_of : simpl never.
#[local] Arguments parse_final : simpl never.
#[local] Arguments PyFloat.format_1f : simpl never.
#[local] Arguments PyFloat.of_string : simpl never.
#[local] Arguments PyFloat.of_Z : simpl never.
#[local] Arguments PyFloat.add : simpl never.
#[local] Arguments PyFloat.sub : simpl never.
#[local] Arguments PyFloat.mul : simpl never.
#[local] Arguments PyFloat.div : simpl never.
#[local] Arguments PyFloat.ge : simpl never.
#[local] Arguments PyStr.strip : simpl never.
#[local] Arguments PyStr.newline : simpl never.
#[local] Arguments window_elapsed : simpl never.

Lemma update_rom_display_laid_out st :
  laid_out st ->
  update_rom_display st =
    (Ok tt,
     set_affected_rom_canvases (rom_gauges (rom_of (affected_angle_entries st)))
       (set_unaffected_rom_canvases
          (rom_gauges (rom_of (unaffected_angle_entries st))) st)).
Proof.
  intros H. destruct (H Unaffected) as [Hu Hcu], (H Affected) as [Ha Hca].
  cbn in Hu, Hcu, Ha, Hca.
  destruct (unaffected_rom_canvases st) as [|c0 [|c1 [|c2 [|c3 [|]]]]] eqn:Ecu;
    try discriminate.
  destruct (affected_rom_canvases st) as [|d0 [|d1 [|d2 [|d3 [|]]]]] eqn:Eca;
    try discriminate.
  unfold update_rom_display, update_rom_gauge.
  unfold mbind, M_bind, mret, M_ret, gets, modify, lift, raise, try_except,
    record, showerror, showinfo, after.
  rewrite (calculate_rom_side_rom_of _ Hu).
  cbn. rewrite Ecu. cbn. rewrite (calculate_rom_side_rom_of _ Ha), Eca. cbn.
  reflexivity.
Qed.

Lemma string_app_nil_r (s : string) : s +:+ "" = s.
Proof.
  induction s as [|c s IH]; [reflexivity|]. exact (f_equal (String c) IH).
Qed.

Lemma string_app_assoc (s t u : string) : (s +:+ t) +:+ u = s +:+ (t +:+ u).
Proof.
  induction s as [|c s IH]; [reflexivity|]. exact (f_equal (String c) IH).
Qed.

Lemma read_lines_cons port chunk rest st :
  read_lines port (chunk :: rest) st =
  read_lines port rest (after_chunk port rest chunk st).
Proof.
  unfold after_chunk, parse_live. cbn [read_lines].
  unfold update_live_angle.
  unfold mbind, M_bind, mret, M_ret, gets, modify, lift, raise, try_except,
    record.
  destruct (py_float (PyStr.strip chunk)) as [angle|e] eqn:E; cbn.
  - reflexivity.
  - unfold py_float in E.
    destruct (PyFloat.of_string (PyStr.strip chunk)); inversion E.
    reflexivity.
Qed.

Lemma same_session_refl st : same_session st st.
Proof. split; reflexivity. Qed.

Lemma same_session_trans st1 st2 st3 :
  same_session st1 st2 -> same_session st2 st3 -> same_session st1 st3.
Proof.
  intros [] []; split; intros; etransitivity; eauto.
Qed.

Lemma after_chunk_same_session port rest chunk st :
  same_session st (after_chunk port rest chunk st).
Proof.
  unfold after_chunk.
  destruct (parse_live (PyStr.strip chunk)); split; try intros []; reflexivity.
Qed.

Lemma read_lines_spec port chunks : forall st,
  exists st',
    read_lines port chunks st = (Ok tt, st') /\
    same_session st st' /\
    serial_full_response st' = serial_full_response st +:+ received chunks /\
    trace st' = trace st ++ live_calls chunks /\
    ser st' = match chunks with [] => ser st | _ => Some (set_in_buffer [] port) end.
Proof.
  induction chunks as [|chunk rest IH]; intros st.
  - exists st. cbn. rewrite string_app_nil_r, app_nil_r.
    repeat split; reflexivity.
  - destruct (IH (after_chunk port rest chunk st))
      as (st' & Hrun & Hsame & Hresp & Htrace & Hser).
    exists st'. rewrite read_lines_cons. split; [exact Hrun|].
    split; [|split; [|split]].
    + eapply same_session_trans; [apply after_chunk_same_session | exact Hsame].
    + rewrite Hresp. unfold after_chunk.
      destruct (parse_live (PyStr.strip chunk)); cbn;
        rewrite string_app_assoc; reflexivity.
    + rewrite Htrace. unfold after_chunk. cbn [live_calls].
      destruct (parse_live (PyStr.strip chunk)); cbn.
      * rewrite <- app_assoc. reflexivity.
      * reflexivity.
    + rewrite Hser. destruct rest; [|reflexivity].
      unfold after_chunk.
      destruct (parse_live (PyStr.strip chunk)); reflexivity.
Qed.

Lemma read_lines_exec port chunks st :
  read_lines port chunks st = (Ok tt, exec (read_lines port chunks) st).
Proof.
  destruct (read_lines_spec port chunks st) as (st' & Hrun & _).
  unfold exec. rewrite Hrun. reflexivity.
Qed.

Lemma polled_same_session port st : same_session st (polled port st).
Proof.
  unfold polled, exec.
  destruct (read_lines_spec port (in_buffer port) st) as (st' & Hrun & H & _).
  rewrite Hrun. exact H.
Qed.

Lemma polled_response port st :
  serial_full_response (polled port st) =
  serial_full_response st +:+ received (in_buffer port).
Proof.
  unfold polled, exec.
  destruct (read_lines_spec port (in_buffer port) st) as (st' & Hrun & _ & H & _).
  rewrite Hrun. exact H.
Qed.

Lemma polled_trace port st :
  trace (polled port st) = trace st ++ live_calls (in_buffer port).
Proof.
  unfold polled, exec.
  destruct (read_lines_spec port (in_buffer port) st)
    as (st' & Hrun & _ & _ & H & _).
  rewrite Hrun. exact H.
Qed.

(** A tick on an open port: the loop, then the timer check. *)
Lemma read_serial_live_open now port start st :
  open_port st = Some port ->
  serial_read_start_time st = Some start ->
  read_serial_live now st =
  if window_elapsed now start (serial_read_duration st) then
    match serial_read_mode st with
    | Measurement => process_final_serial_data (polled port st)
    | Calibration => (Ok tt, polled port st)
    end
  else
    (Ok tt,
     set_after_queue (after_queue st ++ [(50, ReadSerialLive)]) (polled port st)).
Proof.
  intros Hport Hstart.
  pose proof (polled_same_session port st) as Hsame.
  unfold read_serial_live.
  unfold mbind, M_bind, mret, M_ret, gets, modify, lift, raise, try_except,
    after.
  rewrite Hport. rewrite read_lines_exec. fold (polled port st).
  rewrite (same_start_time _ _ Hsame), Hstart.
  rewrite (same_duration _ _ Hsame).
  destruct (window_elapsed now start (serial_read_duration st)).
  - rewrite (same_mode _ _ Hsame).
    destruct (serial_read_mode st); [|reflexivity].
    destruct (process_final_serial_data (polled port st)) as [[[]|e] st'];
      reflexivity.
  - unfold modify. rewrite (same_after_queue _ _ Hsame). reflexivity.
Qed.

Lemma read_serial_live_closed now st :
  open_port st = None -> read_serial_live now st = (Ok tt, st).
Proof.
  intros H. unfold read_serial_live, mbind, M_bind, gets. rewrite H.
  reflexivity.
Qed.

Lemma process_final_no_angle st :
  parse_final (serial_full_response st) = Ok None ->
  process_final_serial_data st =
  (Ok tt,
   set_trace (trace st ++ [ShowError "Error" "No valid ANGLE data found!"]) st).
Proof.
  intros H. unfold process_final_serial_data.
  unfold mbind, M_bind, mret, M_ret, gets, modify, lift, raise, try_except,
    record, showerror.
  rewrite H. reflexivity.
Qed.

Lemma store_angle_laid_out side i angle st :
  laid_out st -> laid_out (store_angle side i angle st).
Proof.
  intros H sd. destruct (H sd) as [He Hc].
  unfold store_angle. destruct side, sd; cbn in *;
    rewrite ?length_insert; auto.
Qed.

Lemma process_final_stores st angle side i :
  parse_final (serial_full_response st) = Ok (Some angle) ->
  selected_side st = Some side ->
  selected_movement st = Some i ->
  laid_out st -> (i < 8)%nat ->
  process_final_serial_data st =
  (Ok tt, show_live angle (show_roms (store_angle side i angle st))).
Proof.
  intros Hparse Hside Hidx Hlaid Hi.
  destruct (lookup_lt_is_Some_2 (angle_entries side st) i) as [entry Hentry].
  { destruct (Hlaid side) as [-> _]. exact Hi. }
  pose proof (update_rom_display_laid_out _
                (store_angle_laid_out side i angle st Hlaid)) as Hrom.
  unfold process_final_serial_data, update_live_angle, item.
  unfold mbind, M_bind, mret, M_ret, gets, modify, lift, raise, try_except,
    record, showerror.
  rewrite Hparse, Hside, Hidx, Hentry.
  unfold entry_insert, entry_delete, entry_configure. cbn [entry_state entry_text].
  rewrite string_app_nil_r.
  fold (stored_entry angle). fold (store_angle side i angle st).
  rewrite Hrom. reflexivity.
Qed.

Section Untouched.
Context {X : Type} (f : App -> X).

Lemma untouched_ret {A} (a : A) st : untouched f (mret a) st.
Proof. reflexivity. Qed.

Lemma untouched_gets {A} (g : App -> A) st : untouched f (gets g) st.
Proof. reflexivity. Qed.

Lemma untouched_lift {A} (r : Outcome A) st : untouched f (lift r) st.
Proof. reflexivity. Qed.

Lemma untouched_raise {A} e st : untouched f (@raise A e) st.
Proof. reflexivity. Qed.

Lemma untouched_modify g st : f (g st) = f st -> untouched f (modify g) st.
Proof. intros H. exact H. Qed.

Lemma untouched_bind {A B} (m : M A) (k : A -> M B) st :
  untouched f m st ->
  (forall a st', m st = (Ok a, st') -> untouched f (k a) st') ->
  untouched f (m ≫= k) st.
Proof.
  unfold untouched, exec, mbind, M_bind. intros Hm Hk.
  destruct (m st) as [[a|e] st'] eqn:E; cbn in *.
  - rewrite <- Hm. apply (Hk a st' eq_refl).
  - exact Hm.
Qed.

Lemma untouched_try_except {A} (body : M A) catches handler st :
  untouched f body st ->
  (forall e st', body st = (Raised e, st') -> untouched f (handler e) st') ->
  untouched f (try_except body catches handler) st.
Proof.
  unfold untouched, exec, try_except. intros Hb Hh.
  destruct (body st) as [[a|e] st'] eqn:E; cbn in *.
  - exact Hb.
  - destruct (catches e); [|exact Hb].
    rewrite <- Hb. apply (Hh e st' eq_refl).
Qed.

(** [f] does not read the trace, the live gauge, the ROM gauges. *)
Hypothesis f_trace : forall v st, f (set_trace v st) = f st.

Lemma untouched_record c st : untouched f (record c) st.
Proof. apply untouched_modify, f_trace. Qed.

Lemma untouched_showerror title message st :
  untouched f (showerror title message) st.
Proof. apply untouched_record. Qed.

Hypothesis f_live_canvas : forall v st, f (set_live_canvas v st) = f st.

Lemma untouched_update_live_angle angle st :
  untouched f (update_live_angle angle) st.
Proof.
  unfold update_live_angle. apply untouched_bind.
  - apply untouched_modify, f_live_canvas.
  - intros _ st' _. apply untouched_record.
Qed.

Hypothesis f_rom_canvases :
  forall side v st, f (set_rom_canvases side v st) = f st.

Lemma untouched_update_rom_gauge side k angle st :
  untouched f (update_rom_gauge side k angle) st.
Proof.
  unfold update_rom_gauge.
  apply untouched_bind; [apply untouched_gets|]. intros canvases st1 _.
  apply untouched_bind; [apply untouched_lift|]. intros _ st2 _.
  apply untouched_modify, f_rom_canvases.
Qed.

Lemma untouched_update_rom_display st : untouched f update_rom_display st.
Proof.
  unfold update_rom_display.
  apply untouched_try_except; [|intros; apply untouched_showerror].
  repeat first
    [ apply untouched_update_rom_gauge
    | apply untouched_gets
    | apply untouched_lift
    | apply untouched_bind; [|intros ? ? _] ].
Qed.

(** The final processing changes [f] only through the entry of the
    slot selected in [st]. *)
Lemma untouched_process_final st :
  (forall side i entry,
     selected_side st = Some side -> selected_movement st = Some i ->
     f (set_angle_entries side (<[i := entry]> (angle_entries side st)) st)
     = f st) ->
  untouched f process_final_serial_data st.
Proof.
  intros Hslot. unfold process_final_serial_data.
  apply untouched_try_except; [|intros; apply untouched_showerror].
  apply untouched_bind; [apply untouched_gets|]. intros response st1 E1.
  injection E1 as _ <-.
  apply untouched_bind; [apply untouched_lift|]. intros last st2 E2.
  unfold lift in E2. injection E2 as _ <-.
  destruct last as [angle|]; [|apply untouched_showerror].
  apply untouched_bind; [apply untouched_gets|]. intros side st3 E3.
  injection E3 as <- <-.
  destruct (selected_side st) as [side|] eqn:Hside; [|apply untouched_ret].
  apply untouched_bind; [apply untouched_gets|]. intros index st4 E4.
  injection E4 as <- <-.
  apply untouched_bind; [apply untouched_gets|]. intros entries st5 E5.
  injection E5 as <- <-.
  destruct (selected_movement st) as [i|] eqn:Hidx; [|apply untouched_raise].
  apply untouched_bind; [apply untouched_lift|]. intros entry st6 E6.
  unfold lift in E6. injection E6 as _ <-.
  apply untouched_bind.
  { apply untouched_modify. apply Hslot; reflexivity. }
  intros _ st7 _.
  apply untouched_bind; [apply untouched_update_rom_display|].
  intros _ st8 _. apply untouched_update_live_angle.
Qed.

End Untouched.

Module PyFloatFacts.
Import PyFloat.
Notation all_chars := PyStr.all_chars.

Lemma all_chars_app p s t :
  all_chars p (s +:+ t) = all_chars p s && all_chars p t.
Proof.
  induction s as [|c s IH]; [reflexivity|].
  change (String c s +:+ t) with (String c (s +:+ t)).
  cbn [all_chars]. rewrite IH. apply andb_assoc.
Qed.

Lemma all_chars_impl (p q : ascii -> bool) s :
  (forall c, p c = true -> q c = true) ->
  all_chars p s = true -> all_chars q s = true.
Proof.
  intros Hpq. induction s as [|c s IH]; [reflexivity|]. cbn.
  intros [Hc Hs]%andb_prop. rewrite (Hpq c Hc), (IH Hs). reflexivity.
Qed.

Lemma plain_no_space c : is_plain c = true -> is_float_space c = false.
Proof.
  destruct c as [[] [] [] [] [] [] [] []]; vm_compute; intros H;
    try reflexivity; discriminate H.
Qed.

Lemma plain_no_underscore c : is_plain c = true -> is_underscore c = false.
Proof.
  destruct c as [[] [] [] [] [] [] [] []]; vm_compute; intros H;
    try reflexivity; discriminate H.
Qed.

Lemma digit_not_sign c :
  is_digit c = true -> Ascii.eqb c "-" = false /\ Ascii.eqb c "+" = false.
Proof.
  destruct c as [[] [] [] [] [] [] [] []]; vm_compute; intros H;
    try discriminate H; split; reflexivity.
Qed.

Lemma strip_plain s :
  all_chars is_plain s = true -> PyStr.strip_with is_float_space s = s.
Proof.
  intros H. unfold PyStr.strip_with.
  assert (Hl : PyStr.lstrip_with is_float_space s = s).
  { destruct s as [|c s]; [reflexivity|]. cbn in *.
    apply andb_prop in H as [Hc _]. rewrite (plain_no_space c Hc).
    reflexivity. }
  rewrite Hl. clear Hl.
  induction s as [|c s IH]; [reflexivity|]. cbn in *.
  apply andb_prop in H as [Hc Hs]. rewrite (plain_no_space c Hc), (IH Hs).
  reflexivity.
Qed.

Lemma drop_underscores_plain s : forall prev,
  all_chars is_plain s = true -> drop_underscores prev s = Some s.
Proof.
  induction s as [|c s IH]; intros prev H; [reflexivity|]. cbn in *.
  apply andb_prop in H as [Hc Hs]. rewrite (plain_no_underscore c Hc).
  rewrite (IH _ Hs). reflexivity.
Qed.

Lemma span_digits_app ds rest :
  all_chars is_digit ds = true ->
  match rest with EmptyString => True | String c _ => is_digit c = false end ->
  span_digits (ds +:+ rest) = (ds, rest).
Proof.
  intros Hds Hrest. induction ds as [|c ds IH].
  - change ("" +:+ rest) with rest.
    destruct rest as [|c rest]; [reflexivity|]. cbn. rewrite Hrest.
    reflexivity.
  - change (String c ds +:+ rest) with (String c (ds +:+ rest)).
    cbn in *. apply andb_prop in Hds as [Hc Hds].
    rewrite Hc, (IH Hds). reflexivity.
Qed.

Lemma N_of_digits_acc_app s t : forall acc,
  N_of_digits_acc acc (s +:+ t) = N_of_digits_acc (N_of_digits_acc acc s) t.
Proof.
  induction s as [|c s IH]; intros acc; [reflexivity|].
  change (String c s +:+ t) with (String c (s +:+ t)).
  cbn. apply IH.
Qed.

Lemma string_of_uint_digits d :
  all_chars is_digit (NilEmpty.string_of_uint d) = true.
Proof. induction d; cbn; auto. Qed.

Lemma N_of_digits_acc_pos d : forall acc,
  N_of_digits_acc (Npos acc) (NilEmpty.string_of_uint d)
  = Npos (Pos.of_uint_acc d acc).
Proof.
  induction d; intros acc; cbn [NilEmpty.string_of_uint N_of_digits_acc
                                Pos.of_uint_acc];
    try reflexivity;
    match goal with
    | |- N_of_digits_acc ?a _ = Npos (Pos.of_uint_acc _ ?b) =>
        replace a with (Npos b) by (unfold digit_val; cbn; lia)
    end; apply IHd.
Qed.

Lemma N_of_digits_of_uint d :
  N_of_digits (NilEmpty.string_of_uint d) = N.of_uint d.
Proof.
  unfold N_of_digits, N.of_uint.
  induction d; cbn [NilEmpty.string_of_uint N_of_digits_acc Pos.of_uint];
    try reflexivity; try exact IHd;
    match goal with
    | |- N_of_digits_acc ?a _ = Npos (Pos.of_uint_acc _ ?b) =>
        change a with (Npos b)
    end; apply N_of_digits_acc_pos.
Qed.

Lemma decimal_spec n :
  0 <= n ->
  all_chars is_digit (decimal n) = true /\
  N_of_digits (decimal n) = Z.to_N n /\
  exists c rest, decimal n = String c rest.
Proof.
  intros Hn. unfold decimal, NilZero.string_of_uint.
  pose proof (DecimalN.Unsigned.of_to (Z.to_N n)) as Hof.
  destruct (N.to_uint (Z.to_N n)) as [|d|d|d|d|d|d|d|d|d|d] eqn:E;
    rewrite <- Hof;
    (split; [|split]);
    try (rewrite <- N_of_digits_of_uint; reflexivity);
    try (cbn; apply string_of_uint_digits);
    try (cbn; eauto); reflexivity.
Qed.

Lemma round_half_even_nonneg n d : 0 <= n -> 0 < d -> 0 <= round_half_even n d.
Proof.
  intros Hn Hd. unfold round_half_even.
  pose proof (Z.div_pos n d Hn Hd).
  destruct (2 * (n mod d) ?= d); [destruct (Z.even (n / d))| |]; lia.
Qed.

Lemma tenths_nonneg m e : 0 <= tenths m e.
Proof.
  unfold tenths. destruct (0 <=? e) eqn:E.
  - apply Z.leb_le in E. pose proof (Z.pow_pos_nonneg 2 e). nia.
  - apply Z.leb_gt in E. apply round_half_even_nonneg; [lia|].
    apply Z.pow_pos_nonneg; lia.
Qed.

Lemma decimal_one_digit r :
  0 <= r < 10 ->
  exists c, decimal r = String c "" /\ is_digit c = true /\
            digit_val c = Z.to_N r.
Proof.
  intros Hr.
  assert (r = 0 \/ r = 1 \/ r = 2 \/ r = 3 \/ r = 4 \/ r = 5 \/ r = 6
          \/ r = 7 \/ r = 8 \/ r = 9) as H by lia.
  repeat (destruct H as [-> | H]); [..|subst r];
    eexists; repeat split; vm_compute; reflexivity.
Qed.

(** An integer part, a point and one decimal read as that many tenths. *)
Lemma parse_decimal_tenths t :
  0 <= t ->
  parse_decimal (decimal (t / 10) +:+ "." +:+ decimal (t mod 10))
  = Some (Z.to_N t, -1).
Proof.
  intros Ht.
  assert (Hq : 0 <= t / 10) by (apply Z.div_pos; lia).
  assert (Hr : 0 <= t mod 10 < 10) by (apply Z.mod_pos_bound; lia).
  destruct (decimal_spec (t / 10) Hq) as (Hqd & Hqv & cq & restq & Hqs).
  destruct (decimal_one_digit (t mod 10) Hr) as (cr & Hrs & Hrd & Hrv).
  unfold parse_decimal.
  change ("." +:+ decimal (t mod 10)) with (String "." (decimal (t mod 10))).
  rewrite span_digits_app; [|exact Hqd|reflexivity].
  change (Ascii.eqb "." ".") with true. cbv iota.
  rewrite Hrs. cbn [span_digits]. rewrite Hrd.
  rewrite Hqs at 1. cbn [PyStr.is_empty andb String.length].
  unfold N_of_digits. rewrite N_of_digits_acc_app.
  fold (N_of_digits (decimal (t / 10))). rewrite Hqv.
  cbn [N_of_digits_acc]. rewrite Hrv.

  f_equal. f_equal.
  apply N2Z.inj. rewrite N2Z.inj_add, N2Z.inj_mul, !Z2N.id by lia.
  pose proof (Z.div_mod t 10). lia.
Qed.

Lemma format_finite_plain s m e :
  all_chars is_plain (format_1f (S754_finite s m e)) = true.
Proof.
  pose proof (tenths_nonneg m e) as Ht.
  assert (Hq : 0 <= tenths m e / 10) by (apply Z.div_pos; lia).
  assert (Hr : 0 <= tenths m e mod 10) by (apply Z.mod_pos_bound; lia).
  destruct (decimal_spec _ Hq) as (Hqd & _).
  destruct (decimal_spec _ Hr) as (Hrd & _).
  assert (Hdp : forall c, is_digit c = true -> is_plain c = true).
  { intros c Hc. unfold is_plain. rewrite Hc. reflexivity. }
  unfold format_1f. rewrite !all_chars_app.
  rewrite (all_chars_impl _ _ _ Hdp Hqd), (all_chars_impl _ _ _ Hdp Hrd).
  destruct s; reflexivity.
Qed.

(** What [float] reads in a text printed by [.1f]. *)
Theorem of_string_format_1f x : of_string (format_1f x) = Some (round_1f x).
Proof.
  destruct x as [[]|[]| |s m e]; [vm_compute; reflexivity..|].
  pose proof (tenths_nonneg m e) as Ht.
  unfold of_string.
  rewrite (strip_plain _ (format_finite_plain s m e)).
  rewrite (drop_underscores_plain _ _ (format_finite_plain s m e)).
  cbn [mbind option_bind]. unfold format_1f, round_1f.
  assert (Hq : 0 <= tenths m e / 10) by (apply Z.div_pos; lia).
  destruct (decimal_spec _ Hq) as (Hqd & _ & cq & restq & Hqs).
  destruct s.
  - change (sign_text true +:+ ?x) with (String "-" x).
    cbn [split_sign]. change (Ascii.eqb "-" "-") with true. cbv iota.
    rewrite (parse_decimal_tenths _ Ht). reflexivity.
  - change (sign_text false +:+ ?x) with x.
    assert (Hc : is_digit cq = true).
    { rewrite Hqs in Hqd. cbn in Hqd. now apply andb_prop in Hqd. }
    destruct (digit_not_sign cq Hc) as [Hminus Hplus].
    rewrite Hqs at 1.
    change (String cq restq +:+ ?x) with (String cq (restq +:+ x)).
    cbn [split_sign]. rewrite Hminus, Hplus.
    change (String cq (restq +:+ ?x)) with (String cq restq +:+ x).
    rewrite <- Hqs.
    rewrite (parse_decimal_tenths _ Ht). reflexivity.
Qed.
Lemma all_chars_lstrip p ws s :
  (forall c, ws c = true -> p c = true) ->
  all_chars p (PyStr.lstrip_with ws s) = true -> all_chars p s = true.
Proof.
  intros Hws. induction s as [|c s IH]; [reflexivity|]. cbn.
  destruct (ws c) eqn:E.
  - intros H. rewrite (Hws c E), (IH H). reflexivity.
  - exact id.
Qed.

Lemma all_chars_rstrip p ws s :
  (forall c, ws c = true -> p c = true) ->
  all_chars p (PyStr.rstrip_with ws s) = true -> all_chars p s = true.
Proof.
  intros Hws. induction s as [|c s IH]; [reflexivity|]. cbn.
  destruct (ws c) eqn:E; cbn.
  - destruct (PyStr.rstrip_with ws s) eqn:Er; cbn.
    + intros _. rewrite (Hws c E), IH; reflexivity.
    + intros [Hc H]%andb_prop. rewrite Hc, (IH H). reflexivity.
  - intros [Hc H]%andb_prop. rewrite Hc, (IH H). reflexivity.
Qed.

Lemma all_chars_drop_underscores p s : forall prev body,
  (forall c, is_underscore c = true -> p c = true) ->
  drop_underscores prev s = Some body ->
  all_chars p body = true -> all_chars p s = true.
Proof.
  induction s as [|c s IH]; intros prev body Hu; [reflexivity|]. cbn.
  destruct (is_underscore c) eqn:E.
  - destruct s as [|d s']; [discriminate|].
    destruct (prev && is_digit d); [|discriminate].
    intros Hdrop Hbody. rewrite (Hu c E). cbn [andb].
    exact (IH _ _ Hu Hdrop Hbody).
  - destruct (drop_underscores (is_digit c) s) as [body'|] eqn:Ed;
      [|discriminate].
    intros [= <-]. cbn. intros [Hc H]%andb_prop.
    rewrite Hc, (IH _ _ Hu Ed H). reflexivity.
Qed.

Lemma all_chars_split_sign p s neg num :
  p "-"%char = true -> p "+"%char = true ->
  split_sign s = (neg, num) ->
  all_chars p num = true -> all_chars p s = true.
Proof.
  intros Hminus Hplus. destruct s as [|c s]; cbn; [intros [= _ <-]; auto|].
  destruct (Ascii.eqb_spec c "-") as [->|_].
  - intros [= _ <-] H. cbn. rewrite Hminus, H. reflexivity.
  - destruct (Ascii.eqb_spec c "+") as [->|_].
    + intros [= _ <-] H. cbn. rewrite Hplus, H. reflexivity.
    + intros [= _ <-]. exact id.
Qed.

Lemma all_chars_span_digits p s : forall ds rest,
  (forall c, is_digit c = true -> p c = true) ->
  span_digits s = (ds, rest) ->
  all_chars p rest = true -> all_chars p s = true.
Proof.
  induction s as [|c s IH]; intros ds rest Hd; cbn.
  - intros [= _ <-]. auto.
  - destruct (is_digit c) eqn:E.
    + destruct (span_digits s) as [ds' rest'] eqn:Es.
      intros [= _ <-] H. rewrite (Hd c E), (IH _ _ Hd eq_refl H). reflexivity.
    + intros [= _ <-]. exact id.
Qed.

Lemma float_char_digit c : is_digit c = true -> is_float_char c = true.
Proof. intros H. unfold is_float_char. rewrite H. reflexivity. Qed.

Lemma float_char_space c : is_float_space c = true -> is_float_char c = true.
Proof.
  intros H. unfold is_float_char. rewrite H. apply orb_true_iff. left.
  apply orb_true_iff. left. apply orb_true_r.
Qed.

Lemma float_char_underscore c : is_underscore c = true -> is_float_char c = true.
Proof.
  destruct c as [[] [] [] [] [] [] [] []]; vm_compute; intros H;
    try reflexivity; discriminate H.
Qed.

Lemma all_chars_parse_exponent s e :
  parse_exponent s = Some e -> all_chars is_float_char s = true.
Proof.
  unfold parse_exponent.
  destruct (split_sign s) as [neg s1] eqn:Es.
  destruct (span_digits s1) as [ds rest] eqn:Ed.
  destruct ds as [|d ds]; [discriminate|]. destruct rest; [|discriminate].
  intros _.
  apply (all_chars_split_sign _ _ _ _ eq_refl eq_refl Es).
  apply (all_chars_span_digits _ _ _ _ float_char_digit Ed). reflexivity.
Qed.

Lemma all_chars_parse_decimal s parsed :
  parse_decimal s = Some parsed -> all_chars is_float_char s = true.
Proof.
  unfold parse_decimal.
  destruct (span_digits s) as [ip r1] eqn:Ei.
  intros H. apply (all_chars_span_digits _ _ _ _ float_char_digit Ei).
  assert (Htail : forall r2,
    (if PyStr.is_empty r2 then true
     else match r2 with
          | String c r3 =>
              (Ascii.eqb c "e" || Ascii.eqb c "E")
              && match parse_exponent r3 with Some _ => true | None => false end
          | EmptyString => true
          end) = true ->
    all_chars is_float_char r2 = true).
  { intros [|c r3]; [reflexivity|]. cbn.
    intros [Hc He]%andb_prop.
    destruct (parse_exponent r3) eqn:Ee; [|discriminate].
    rewrite (all_chars_parse_exponent _ _ Ee).
    destruct (Ascii.eqb_spec c "e") as [->|_]; [reflexivity|].
    destruct (Ascii.eqb_spec c "E") as [->|_]; [reflexivity|discriminate]. }
  destruct r1 as [|c r].
  - destruct (PyStr.is_empty ip && PyStr.is_empty ""); reflexivity.
  - destruct (Ascii.eqb_spec c ".") as [->|Hc].
    + destruct (span_digits r) as [fp r2] eqn:Ef.
      destruct (PyStr.is_empty ip && PyStr.is_empty fp); [discriminate|].
      cbn. apply (all_chars_span_digits _ _ _ _ float_char_digit Ef).
      apply Htail. destruct r2 as [|c2 r3]; [reflexivity|]. cbn.
      destruct (Ascii.eqb c2 "e" || Ascii.eqb c2 "E"); [|discriminate].
      destruct (parse_exponent r3); [reflexivity|discriminate].
    + destruct (PyStr.is_empty ip && PyStr.is_empty ""); [discriminate|].
      apply Htail. cbn.
      destruct (Ascii.eqb c "e" || Ascii.eqb c "E"); [|discriminate].
      destruct (parse_exponent r); [reflexivity|discriminate].
Qed.

Lemma all_chars_lowercase q s :
  all_chars q (lowercase s) = all_chars (fun c => q (lower c)) s.
Proof. induction s as [|c s IH]; [reflexivity|]. cbn. rewrite IH. reflexivity. Qed.

Lemma all_chars_parse_special neg s x :
  parse_special neg s = Some x -> all_chars is_float_char s = true.
Proof.
  unfold parse_special. intros H.
  assert (Hl : all_chars (fun c => PyStr.mem c "einfatyn") (lowercase s) = true).
  { destruct (String.eqb_spec (lowercase s) "inf") as [->|_]; [reflexivity|].
    destruct (String.eqb_spec (lowercase s) "infinity") as [->|_];
      [reflexivity|].
    destruct (String.eqb_spec (lowercase s) "nan") as [->|_]; [reflexivity|].
    discriminate H. }
  rewrite all_chars_lowercase in Hl.
  apply (all_chars_impl (fun c => PyStr.mem (lower c) "einfatyn")); [|exact Hl].
  intros c Hc. unfold is_float_char. rewrite Hc. apply orb_true_r.
Qed.

(** A text [float] accepts holds float characters only. *)
Theorem of_string_alphabet s x :
  of_string s = Some x -> all_chars is_float_char s = true.
Proof.
  unfold of_string.
  destruct (drop_underscores false (PyStr.strip_with is_float_space s))
    as [body|] eqn:Ed; [|discriminate].
  cbn [mbind option_bind].
  destruct (split_sign body) as [neg num] eqn:Es.
  intros H.
  apply (all_chars_lstrip _ is_float_space _ float_char_space).
  apply (all_chars_rstrip _ is_float_space _ float_char_space).
  apply (all_chars_drop_underscores _ _ _ _ float_char_underscore Ed).
  apply (all_chars_split_sign _ _ _ _ eq_refl eq_refl Es).
  destruct (parse_decimal num) as [[m e]|] eqn:Ep.
  - exact (all_chars_parse_decimal _ _ Ep).
  - exact (all_chars_parse_special _ _ _ H).
Qed.

Lemma startswith_marker_not_float s :
  PyStr.startswith marker s = true -> all_chars is_float_char s = false.
Proof.
  unfold marker.
  repeat (destruct s as [|?c s]; [discriminate|]; cbn [PyStr.startswith];
          match goal with
          | |- (if Ascii.eqb ?a ?b then _ else _) = true -> _ =>
              destruct (Ascii.eqb_spec a b) as [<-|_]; [|discriminate]
          end).
  intros _. reflexivity.
Qed.

(** A line that carries the marker is not made of float characters. *)
Lemma tagged_not_float s :
  PyStr.contains marker s = true -> all_chars is_float_char s = false.
Proof.
  induction s as [|c s IH].
  - cbn. discriminate.
  - cbn [PyStr.contains]. intros [H|H]%orb_prop.
    + apply startswith_marker_not_float. exact H.
    + cbn. rewrite (IH H). apply andb_false_r.
Qed.

End PyFloatFacts.

Lemma open_port_is_open st port : open_port st = Some port -> is_open port = true.
Proof.
  unfold open_port. destruct (ser st) as [p|]; [|discriminate].
  destruct (is_open p) eqn:E; [|discriminate]. intros [= <-]. exact E.
Qed.

Lemma parse_final_empty : parse_final "" = Ok None.
Proof. reflexivity. Qed.

(** The first poll of an armed read finds an empty input buffer. *)
Lemma read_serial_live_armed port command mode started now st :
  is_open port = true ->
  read_serial_live now (armed port command mode started st) =
  let st1 := armed port command mode started st in
  if window_elapsed now started (serial_read_duration st) then
    match mode with
    | Measurement =>
        (Ok tt,
         set_trace (trace st ++ [ShowError "Error" "No valid ANGLE data found!"])
           st1)
    | Calibration => (Ok tt, st1)
    end
  else (Ok tt, set_after_queue (after_queue st ++ [(50, ReadSerialLive)]) st1).
Proof.
  intros Hopen.
  rewrite (read_serial_live_open now (write command (reset_input_buffer port))
             started).
  - set (st1 := armed port command mode started st).
    assert (Hpolled : polled (write command (reset_input_buffer port)) st1 = st1)
      by reflexivity.
    assert (Hd : serial_read_duration st1 = serial_read_duration st)
      by reflexivity.
    assert (Hm : serial_read_mode st1 = mode) by reflexivity.
    assert (Hq : after_queue st1 = after_queue st) by reflexivity.
    assert (Ht : trace st1 = trace st) by reflexivity.
    rewrite Hpolled, Hd, Hm, Hq. cbv zeta.
    destruct (window_elapsed now started (serial_read_duration st));
      [|reflexivity].
    destruct mode; [|reflexivity].
    rewrite <- Ht. apply process_final_no_angle. reflexivity.
  - unfold open_port. cbn. rewrite Hopen. reflexivity.
  - reflexivity.
Qed.

Lemma start_measurement_open port letter i side started now st :
  open_port st = Some port ->
  movement_letter st = Some letter ->
  selected_movement st = Some i ->
  selected_side st = Some side ->
  start_measurement started now st =
  read_serial_live now (armed port letter Measurement started st).
Proof.
  intros Hport Hletter Hidx Hside.
  pose proof (read_serial_live_armed port letter Measurement started now st
                (open_port_is_open _ _ Hport)) as Hlive.
  unfold start_measurement.
  unfold mbind, M_bind, mret, M_ret, gets, modify, try_except.
  rewrite Hport, Hletter, Hidx, Hside.
  match goal with
  | |- context [read_serial_live now ?x] =>
      change x with (armed port letter Measurement started st)
  end.
  rewrite Hlive. cbv zeta.
  destruct (window_elapsed now started (serial_read_duration st)); reflexivity.
Qed.

Lemma calibrate_open port started now st :
  open_port st = Some port ->
  calibrate started now st =
  read_serial_live now (armed port "r" Calibration started st).
Proof.
  intros Hport.
  pose proof (read_serial_live_armed port "r" Calibration started now st
                (open_port_is_open _ _ Hport)) as Hlive.
  unfold calibrate.
  unfold mbind, M_bind, mret, M_ret, gets, modify, try_except.
  rewrite Hport.
  match goal with
  | |- context [read_serial_live now ?x] =>
      change x with (armed port "r" Calibration started st)
  end.
  rewrite Hlive. cbv zeta.
  destruct (window_elapsed now started (serial_read_duration st)); reflexivity.
Qed.

(** A tick changes the entries only through the final processing. *)
Lemma read_serial_live_entries now st side j :
  (selected_side st, selected_movement st) <> (Some side, Some j) ->
  angle_entries side (exec (read_serial_live now) st) !! j
  = angle_entries side st !! j.
Proof.
  intros Hsel. unfold exec at 1.
  destruct (open_port st) as [port|] eqn:Hport.
  2:{ rewrite read_serial_live_closed by exact Hport. reflexivity. }
  pose proof (polled_same_session port st) as Hsame.
  assert (Hpolled :
    angle_entries side (polled port st) !! j = angle_entries side st !! j).
  { rewrite (same_entries _ _ Hsame). reflexivity. }
  destruct (serial_read_start_time st) as [start|] eqn:Hstart.
  - rewrite (read_serial_live_open now port start) by assumption.
    destruct (window_elapsed now start (serial_read_duration st)).
    + destruct (serial_read_mode st); [|exact Hpolled].
      rewrite <- Hpolled.
      apply (untouched_process_final (fun a => angle_entries side a !! j));
        try reflexivity.
      { intros [] v a; reflexivity. }
      intros sd i entry Hsd Hi.
      rewrite (same_selected_side _ _ Hsame) in Hsd.
      rewrite (same_selected_movement _ _ Hsame) in Hi.
      destruct sd, side; try reflexivity; cbn;
        apply list_lookup_insert_ne; intros ->; apply Hsel;
        rewrite Hsd, Hi; reflexivity.
    + exact Hpolled.
  - unfold read_serial_live.
    unfold mbind, M_bind, mret, M_ret, gets, try_except, raise.
    rewrite Hport, read_lines_exec. fold (polled port st).
    rewrite (same_start_time _ _ Hsame), Hstart. exact Hpolled.
Qed.

(** C1. For every eight entries, [calculate_rom_side] returns wrist = slot 0 +
    slot 1, forearm = slot 2 + slot 3, elbow = (slot 4 + slot 5) / 2 and
    wrist deviation = slot 6 + slot 7, where the value of a slot is the float
    its entry holds and 0.0 when the entry is unset; nothing is clamped or
    validated (200 + 300 gives 500, negative values pass). On either side of
    a laid-out window [update_rom_display] shows exactly these values. The
    slots 30, 40, 10, 20, 60, 80, 5, 15 give 70, 30, 70, 20. The function
    reads nothing but its argument, so equal entries give equal results. *)
Theorem calculate_rom_side_formulas :
  (forall e0 e1 e2 e3 e4 e5 e6 e7 : Entry,
     calculate_rom_side [e0; e1; e2; e3; e4; e5; e6; e7] =
     Ok {| rom_wrist := PyFloat.add (slot_value e0) (slot_value e1);
           rom_forearm := PyFloat.add (slot_value e2) (slot_value e3);
           rom_elbow :=
             PyFloat.div (PyFloat.add (slot_value e4) (slot_value e5))
                         (PyFloat.of_Z 2);
           rom_wrist_deviation :=
             PyFloat.add (slot_value e6) (slot_value e7) |}) /\
  (forall e : Entry, slot e = None -> slot_value e = PyFloat.zero) /\
  slot new_entry = None /\
  (forall (st : App) (side : Side),
     laid_out st ->
     calculate_rom_side (angle_entries side st)
     = Ok (rom_of (angle_entries side st)) /\
     rom_canvases side (exec update_rom_display st)
     = rom_gauges (rom_of (angle_entries side st))) /\
  calculate_rom_side
    (stored_entry <$> (PyFloat.of_Z <$> [30; 40; 10; 20; 60; 80; 5; 15]))
  = Ok {| rom_wrist := PyFloat.of_Z 70; rom_forearm := PyFloat.of_Z 30;
          rom_elbow := PyFloat.of_Z 70;
          rom_wrist_deviation := PyFloat.of_Z 20 |} /\
  calculate_rom_side
    (entry_of <$> ["200.0"; "300.0"; "-10.0"; "-20.0"; ""; ""; ""; "999.9"])
  = Ok {| rom_wrist := PyFloat.of_Z 500; rom_forearm := PyFloat.of_Z (-30);
          rom_elbow := PyFloat.zero;
          rom_wrist_deviation := number "999.9" |}.
Proof.
  split; [exact calculate_rom_side_eight|].
  split; [intros e H; unfold slot_value; rewrite H; reflexivity|].
  split; [reflexivity|].
  split; [|split; vm_compute; reflexivity].
  intros st side Hlaid. split.
  - apply calculate_rom_side_rom_of. apply Hlaid.
  - unfold exec. rewrite (update_rom_display_laid_out st Hlaid).
    destruct side; reflexivity.
Qed.

(** C1, witness: the window as it opens is laid out, and its gauges show the
    ROM of eight unset slots. *)
Lemma calculate_rom_side_formulas_witness :
  laid_out new_app /\
  rom_canvases Affected (exec update_rom_display new_app)
  = rom_gauges (rom_of (angle_entries Affected new_app)).
Proof.
  assert (H : laid_out new_app) by (intros []; split; reflexivity).
  split; [exact H|].
  exact (proj2 (proj1 (proj2 (proj2 (proj2 calculate_rom_side_formulas)))
                  new_app Affected H)).
Defined.

(** C3, counterexample. The device streams [ANGLE:42.35]: the final scan
    obtains 42.35, but the slot holds the text [42.4], whose value is not
    42.35. *)
Lemma finalize_does_not_store_exact_value :
  let st' := flexion_session [sent "ANGLE:42.35"] in
  parse_final (serial_full_response st') = Ok (Some (number "42.35")) /\
  unaffected_angle_entries st' !! 0%nat = Some (entry_of "42.4") /\
  slot (entry_of "42.4") = Some (number "42.4") /\
  number "42.4" <> number "42.35".
Proof. vm_compute. repeat split; try reflexivity. discriminate. Qed.

(** C3, amended. Whenever the final processing obtains a value [v] from
    [parse_final] over the accumulated buffer, with a side and a movement
    selected, the entry of the selected slot receives the one-decimal
    rendering of [v] (not [v] itself), every other entry is unchanged,
    [update_live_angle] is called once, with [v], and the ROM gauges of both
    sides show the ROM computed from the new entries. With Wrist Flexion on
    the unaffected side and the device streaming [noise] then [ANGLE:42.3],
    the command sent is [f], slot 0 of the unaffected side holds [42.3], the
    only live update is 42.3 and the wrist ROM of that side is
    42.3 + 0.0 = 42.3. *)
Theorem finalize_stores_rendering :
  (forall (st : App) (v : float) (side : Side) (i : nat),
     parse_final (serial_full_response st) = Ok (Some v) ->
     selected_side st = Some side ->
     selected_movement st = Some i ->
     laid_out st -> (i < 8)%nat ->
     let st' := exec process_final_serial_data st in
     result process_final_serial_data st = Ok tt /\
     angle_entries side st' !! i = Some (stored_entry v) /\
     (forall sd j, (sd, j) <> (side, i) ->
        angle_entries sd st' !! j = angle_entries sd st !! j) /\
     trace st' = trace st ++ [LiveAngle v] /\
     live_canvas st' = gauge v /\
     (forall sd,
        calculate_rom_side (angle_entries sd st')
        = Ok (rom_of (angle_entries sd st')) /\
        rom_canvases sd st' = rom_gauges (rom_of (angle_entries sd st')))) /\
  (let st' := flexion_session [sent "noise"; sent "ANGLE:42.3"] in
   (written <$> ser st') = Some "f" /\
   entry_get <$> unaffected_angle_entries st'
   = ["42.3"; ""; ""; ""; ""; ""; ""; ""] /\
   (slot <$> unaffected_angle_entries st' !! 0%nat)
   = Some (Some (number "42.3")) /\
   trace st' = [ShowInfo "Success" "Connected to COM3";
                LiveAngle (number "42.3")] /\
   (rom_wrist <$> calculate_rom_side (unaffected_angle_entries st'))
   = Ok (number "42.3") /\
   PyFloat.add (number "42.3") PyFloat.zero = number "42.3" /\
   unaffected_rom_canvases st' !! 0%nat = Some (gauge (number "42.3")) /\
   after_queue st' = []).
Proof.
  split; [|vm_compute; repeat split; reflexivity].
  intros st v side i Hparse Hside Hidx Hlaid Hi st'.
  pose proof (process_final_stores st v side i Hparse Hside Hidx Hlaid Hi)
    as Hrun.
  assert (Hst' : st' = show_live v (show_roms (store_angle side i v st))).
  { unfold st', exec. rewrite Hrun. reflexivity. }
  assert (Hentries : forall sd,
    angle_entries sd st' = angle_entries sd (store_angle side i v st)).
  { intros []; rewrite Hst'; reflexivity. }
  pose proof (store_angle_laid_out side i v st Hlaid) as Hlaid'.
  split; [unfold result; rewrite Hrun; reflexivity|].
  split.
  { rewrite Hentries. unfold store_angle.
    destruct side; cbn; apply list_lookup_insert_eq;
      destruct (Hlaid Unaffected) as [Hu _], (Hlaid Affected) as [Ha _];
      cbn in Hu, Ha; lia. }
  split.
  { intros sd j Hne. rewrite Hentries. unfold store_angle.
    destruct side, sd; cbn; try reflexivity;
      apply list_lookup_insert_ne; intros ->; apply Hne; reflexivity. }
  split; [rewrite Hst'; destruct side; reflexivity|].
  split; [rewrite Hst'; reflexivity|].
  intros sd. rewrite Hentries. split.
  - apply calculate_rom_side_rom_of. apply Hlaid'.
  - rewrite Hst'. destruct sd; reflexivity.
Qed.

Lemma connected_laid_out (response : string) : laid_out (flexion_buffered response).
Proof. intros []; split; reflexivity. Qed.

(** C3, witness: the buffer [noise], [ANGLE:42.3] with Wrist Flexion selected
    on the unaffected side. *)
Lemma finalize_stores_rendering_witness :
  let st := flexion_buffered (sent "noise" +:+ sent "ANGLE:42.3") in
  parse_final (serial_full_response st) = Ok (Some (number "42.3")) /\
  selected_side st = Some Unaffected /\
  selected_movement st = Some 0%nat /\
  laid_out st /\
  angle_entries Unaffected (exec process_final_serial_data st) !! 0%nat
  = Some (stored_entry (number "42.3")).
Proof.
  assert (Hparse :
    parse_final (serial_full_response
                   (flexion_buffered (sent "noise" +:+ sent "ANGLE:42.3")))
    = Ok (Some (number "42.3"))) by (vm_compute; reflexivity).
  split; [exact Hparse|].
  split; [reflexivity|]. split; [reflexivity|].
  split; [apply connected_laid_out|].
  exact (proj1 (proj2 (proj1 finalize_stores_rendering _ _ Unaffected 0%nat
                         Hparse eq_refl eq_refl (connected_laid_out _)
                         (Nat.lt_0_succ 7)))).
Defined.

(** C4, counterexample. The second session finalizes and writes 30.0 into
    its slot, the one of Wrist Extension; the tick still queued from the
    first session then finalizes too and overwrites that slot with 99.9:
    nothing guards it. *)
Lemma stale_tick_overwrites_new_slot :
  after_queue two_sessions = [(50, ReadSerialLive); (50, ReadSerialLive)] /\
  entry_get <$> unaffected_angle_entries second_finalized
  = [""; "30.0"; ""; ""; ""; ""; ""; ""] /\
  after_queue second_finalized = [(50, ReadSerialLive)] /\
  entry_get <$> unaffected_angle_entries stale_tick_fired
  = [""; "99.9"; ""; ""; ""; ""; ""; ""] /\
  after_queue stale_tick_fired = [].
Proof. vm_compute. repeat split; reflexivity. Qed.

Lemma fire_timer_entries now st side j :
  (selected_side st, selected_movement st) <> (Some side, Some j) ->
  angle_entries side (exec (fire_timer now) st) !! j
  = angle_entries side st !! j.
Proof.
  intros Hsel. unfold fire_timer, exec.
  unfold mbind, M_bind, mret, M_ret, gets, modify.
  destruct (after_queue st) as [|[ms []] rest]; [reflexivity|].
  apply (read_serial_live_entries now (set_after_queue rest st) side j).
  exact Hsel.
Qed.

(** C4, amended. The code has no instance or generation guard: a polling
    tick carries no session and acts on the one set of session attributes.
    What holds instead: a successful start resets these attributes (start
    time, empty buffer, emptied input buffer), so that a tick left by a
    superseded session runs from then on as a tick of the new one; and a
    tick, whichever start queued it, changes no entry other than the one of
    the slot currently selected. *)
Theorem tick_writes_only_selected_slot :
  (forall (st : App) (now : float) (side : Side) (j : nat),
     (selected_side st, selected_movement st) <> (Some side, Some j) ->
     angle_entries side (exec (read_serial_live now) st) !! j
     = angle_entries side st !! j /\
     angle_entries side (exec (fire_timer now) st) !! j
     = angle_entries side st !! j) /\
  (forall (st : App) (started now : float) port letter i side,
     open_port st = Some port ->
     movement_letter st = Some letter ->
     selected_movement st = Some i ->
     selected_side st = Some side ->
     let st' := exec (start_measurement started now) st in
     serial_read_start_time st' = Some started /\
     serial_full_response st' = "" /\
     (in_buffer <$> ser st') = Some []).
Proof.
  split.
  - intros st now side j Hsel. split.
    + apply read_serial_live_entries. exact Hsel.
    + apply fire_timer_entries. exact Hsel.
  - intros st started now port letter i side Hport Hletter Hidx Hside st'.
    unfold st', exec.
    rewrite (start_measurement_open port letter i side) by assumption.
    rewrite (read_serial_live_armed port letter Measurement started now st
               (open_port_is_open _ _ Hport)).
    cbv zeta.
    destruct (window_elapsed now started (serial_read_duration st));
      repeat split; reflexivity.
Qed.

(** C4, witness: when the tick left by the first session fires, Wrist
    Extension is selected, and the slot of the first session, Wrist
    Flexion, is left as it is. *)
Lemma tick_writes_only_selected_slot_witness :
  let st := device_sends [sent "ANGLE:99.9"] second_finalized in
  (selected_side st, selected_movement st) <> (Some Unaffected, Some 0%nat) /\
  angle_entries Unaffected (exec (fire_timer (PyFloat.of_Z 1008)) st) !! 0%nat
  = angle_entries Unaffected st !! 0%nat.
Proof.
  assert (Hsel :
    (selected_side (device_sends [sent "ANGLE:99.9"] second_finalized),
     selected_movement (device_sends [sent "ANGLE:99.9"] second_finalized))
    <> (Some Unaffected, Some 0%nat)) by (vm_compute; discriminate).
  split; [exact Hsel|].
  exact (proj2 (proj1 tick_writes_only_selected_slot _ (PyFloat.of_Z 1008)
                  Unaffected 0%nat Hsel)).
Defined.

Tactic Notation "exact_side" constr(H) :=
  let H' := fresh in
  pose proof H as H';
  match type of H' with context [angle_entries ?s] => destruct s
                   | context [rom_canvases ?s] => destruct s end;
  exact H'.

(** C5. A tick of a measurement session that sees the read window elapsed,
    [(now - start) * 1000 >= 7000], while the buffer accumulated so far
    holds no line with a parsable [ANGLE:] value, ends the session: no
    further tick is queued, the error [No valid ANGLE data found!] is shown,
    and no entry and no ROM gauge changes. A tick before that moment queues
    the next one and changes no entry either. A device that never answers
    leaves an empty buffer, which has no valid line: the session of a silent
    device ends at the deadline with that error and all slots unset. *)
Theorem no_angle_aborts_without_writing :
  (forall (st : App) (now : float) port start,
     open_port st = Some port ->
     serial_read_mode st = Measurement ->
     serial_read_start_time st = Some start ->
     window_elapsed now start (serial_read_duration st) = true ->
     parse_final (serial_full_response st +:+ received (in_buffer port))
     = Ok None ->
     let st' := exec (read_serial_live now) st in
     result (read_serial_live now) st = Ok tt /\
     (forall side, angle_entries side st' = angle_entries side st) /\
     (forall side, rom_canvases side st' = rom_canvases side st) /\
     after_queue st' = after_queue st /\
     trace st' = trace st ++ live_calls (in_buffer port)
                 ++ [ShowError "Error" "No valid ANGLE data found!"]) /\
  (forall (st : App) (now : float) port start,
     open_port st = Some port ->
     serial_read_start_time st = Some start ->
     window_elapsed now start (serial_read_duration st) = false ->
     let st' := exec (read_serial_live now) st in
     result (read_serial_live now) st = Ok tt /\
     (forall side, angle_entries side st' = angle_entries side st) /\
     (forall side, rom_canvases side st' = rom_canvases side st) /\
     after_queue st' = after_queue st ++ [(50, ReadSerialLive)] /\
     trace st' = trace st ++ live_calls (in_buffer port)) /\
  parse_final "" = Ok None /\
  (let st' := flexion_session [] in
   entry_get <$> unaffected_angle_entries st'
   = [""; ""; ""; ""; ""; ""; ""; ""] /\
   entry_get <$> affected_angle_entries st'
   = [""; ""; ""; ""; ""; ""; ""; ""] /\
   after_queue st' = [] /\
   trace st' = [ShowInfo "Success" "Connected to COM3";
                ShowError "Error" "No valid ANGLE data found!"]).
Proof.
  split; [|split; [|split; [reflexivity|vm_compute; repeat split; reflexivity]]].
  - intros st now port start Hport Hmode Hstart Helapsed Hparse st'.
    pose proof (polled_same_session port st) as Hsame.
    pose proof (read_serial_live_open now port start st Hport Hstart) as Hrun.
    rewrite Helapsed, Hmode in Hrun.
    rewrite process_final_no_angle in Hrun
      by (rewrite polled_response; exact Hparse).
    unfold st', exec, result. rewrite Hrun. cbn [fst snd].
    split; [reflexivity|].
    split; [intros side; exact_side (same_entries _ _ Hsame side)|].
    split; [intros side; exact_side (same_canvases _ _ Hsame side)|].
    split; [exact (same_after_queue _ _ Hsame)|].
    cbn. rewrite polled_trace, <- app_assoc. reflexivity.
  - intros st now port start Hport Hstart Helapsed st'.
    pose proof (polled_same_session port st) as Hsame.
    pose proof (read_serial_live_open now port start st Hport Hstart) as Hrun.
    rewrite Helapsed in Hrun.
    unfold st', exec, result. rewrite Hrun. cbn [fst snd].
    split; [reflexivity|].
    split; [intros side; exact_side (same_entries _ _ Hsame side)|].
    split; [intros side; exact_side (same_canvases _ _ Hsame side)|].
    split; [reflexivity|].
    cbn. apply polled_trace.
Qed.

(** C5, witness: the deadline tick of a session whose device stayed silent. *)
Lemma no_angle_aborts_without_writing_witness :
  let st := flexion_started in
  let now := PyFloat.of_Z 1007 in
  open_port st = Some {| is_open := true; in_buffer := []; written := "f" |} /\
  serial_read_mode st = Measurement /\
  serial_read_start_time st = Some (PyFloat.of_Z 1000) /\
  window_elapsed now (PyFloat.of_Z 1000) (serial_read_duration st) = true /\
  (forall side,
     angle_entries side (exec (read_serial_live now) st)
     = angle_entries side st).
Proof.
  do 4 (split; [vm_compute; reflexivity|]).
  exact (proj1 (proj2 (proj1 no_angle_aborts_without_writing
     flexion_started (PyFloat.of_Z 1007)
     {| is_open := true; in_buffer := []; written := "f" |}
     (PyFloat.of_Z 1000) eq_refl eq_refl eq_refl eq_refl eq_refl))).
Defined.

(** C6. [start_measurement] checks its preconditions before it touches the
    port. When the port is absent or closed it shows [Bluetooth not
    connected!]; when the port is open and no letter, movement or side is
    selected it shows [No movement selected!]; [calibrate] makes the first
    check too. In these cases the handler returns normally and the state is
    the one it found, but for the message shown: nothing is written to the
    port, and start time, buffer and mode are as before. Once the
    preconditions hold, a start sends the letter of the movement. *)
Theorem start_checks_preconditions :
  (forall st : App,
     open_port st = None <->
     ser st = None \/ exists port, ser st = Some port /\ is_open port = false) /\
  (forall (st : App) (started now : float),
     open_port st = None ->
     start_measurement started now st =
     (Ok tt,
      set_trace (trace st ++ [ShowError "Error" "Bluetooth not connected!"]) st)
     /\
     calibrate started now st =
     (Ok tt,
      set_trace (trace st ++ [ShowError "Error" "Bluetooth not connected!"]) st))
  /\
  (forall (st : App) (started now : float) port,
     open_port st = Some port ->
     movement_letter st = None \/ selected_movement st = None
     \/ selected_side st = None ->
     start_measurement started now st =
     (Ok tt,
      set_trace (trace st ++ [ShowError "Error" "No movement selected!"]) st))
  /\
  (forall (st : App) (calls : list Call),
     let st' := set_trace calls st in
     ser st' = ser st /\
     serial_read_start_time st' = serial_read_start_time st /\
     serial_full_response st' = serial_full_response st /\
     serial_read_mode st' = serial_read_mode st /\
     after_queue st' = after_queue st /\
     (forall side, angle_entries side st' = angle_entries side st)) /\
  (forall (st : App) (started now : float) port letter i side,
     open_port st = Some port ->
     movement_letter st = Some letter ->
     selected_movement st = Some i ->
     selected_side st = Some side ->
     ser (exec (start_measurement started now) st)
     = Some (write letter (reset_input_buffer port)) /\
     written (write letter (reset_input_buffer port))
     = written port +:+ letter).
Proof.
  split; [|split; [|split; [|split]]].
  - intros st. unfold open_port. destruct (ser st) as [port|].
    + destruct (is_open port) eqn:E; split.
      * discriminate.
      * intros [H | (p & [= <-] & H)]; congruence.
      * intros _. right. eauto.
      * reflexivity.
    + split; [left|]; reflexivity.
  - intros st started now Hport. split.
    + unfold start_measurement, mbind, M_bind, gets. rewrite Hport.
      reflexivity.
    + unfold calibrate, try_except, mbind, M_bind, gets. rewrite Hport.
      reflexivity.
  - intros st started now port Hport Hsel.
    unfold start_measurement, mbind, M_bind, gets. rewrite Hport.
    destruct (movement_letter st), (selected_movement st), (selected_side st);
      try reflexivity.
    destruct Hsel as [H | [H | H]]; discriminate H.
  - intros st calls st'. repeat split; intros []; reflexivity.
  - intros st started now port letter i side Hport Hletter Hidx Hside.
    split; [|reflexivity].
    unfold exec.
    rewrite (start_measurement_open port letter i side) by assumption.
    rewrite (read_serial_live_armed port letter Measurement started now st
               (open_port_is_open _ _ Hport)).
    cbv zeta.
    destruct (window_elapsed now started (serial_read_duration st));
      reflexivity.
Qed.

(** C6, witness: a start before any connection, then a start once connected
    with Wrist Flexion selected. *)
Lemma start_checks_preconditions_witness :
  open_port new_app = None /\
  start_measurement (PyFloat.of_Z 1000) (PyFloat.of_Z 1000) new_app =
  (Ok tt,
   set_trace (trace new_app ++ [ShowError "Error" "Bluetooth not connected!"])
     new_app) /\
  (written <$> ser flexion_started) = Some "f".
Proof.
  split; [reflexivity|]. split.
  - exact (proj1 (proj1 (proj2 start_checks_preconditions) new_app
                    (PyFloat.of_Z 1000) (PyFloat.of_Z 1000) eq_refl)).
  - vm_compute. reflexivity.
Defined.

Lemma live_calls_live chunks : Forall is_live (live_calls chunks).
Proof.
  induction chunks as [|chunk rest IH]; cbn; [constructor|].
  destruct (parse_live (PyStr.strip chunk)); [constructor|]; eauto.
  eexists; reflexivity.
Qed.

(** A tick in calibration mode reads and draws, and no more. *)
Lemma read_serial_live_calibration now st :
  serial_read_mode st = Calibration ->
  let st' := exec (read_serial_live now) st in
  (forall side, angle_entries side st' = angle_entries side st) /\
  (forall side, rom_canvases side st' = rom_canvases side st) /\
  serial_read_mode st' = Calibration /\
  trace st' = trace st ++ live_calls (incoming st).
Proof.
  intros Hmode st'. unfold st', exec, incoming.
  destruct (open_port st) as [port|] eqn:Hport.
  2:{ rewrite read_serial_live_closed by exact Hport. cbn.
      rewrite app_nil_r. auto. }
  pose proof (polled_same_session port st) as Hsame.
  pose proof (polled_trace port st) as Htrace.
  assert (Hm : serial_read_mode (polled port st) = Calibration)
    by (rewrite (same_mode _ _ Hsame); exact Hmode).
  destruct (serial_read_start_time st) as [start|] eqn:Hstart.
  - rewrite (read_serial_live_open now port start) by assumption.
    rewrite Hmode.
    destruct (window_elapsed now start (serial_read_duration st)); cbn [snd];
      (split; [intros side; exact_side (same_entries _ _ Hsame side)|]);
      (split; [intros side; exact_side (same_canvases _ _ Hsame side)|]);
      (split; [exact Hm|exact Htrace]).
  - unfold read_serial_live.
    unfold mbind, M_bind, mret, M_ret, gets, try_except, raise.
    rewrite Hport, read_lines_exec. fold (polled port st).
    rewrite (same_start_time _ _ Hsame), Hstart. cbn [snd].
    split; [intros side; exact_side (same_entries _ _ Hsame side)|].
    split; [intros side; exact_side (same_canvases _ _ Hsame side)|].
    split; [exact Hm|exact Htrace].
Qed.

Lemma fire_timer_calibration now st :
  serial_read_mode st = Calibration ->
  let st' := exec (fire_timer now) st in
  (forall side, angle_entries side st' = angle_entries side st) /\
  (forall side, rom_canvases side st' = rom_canvases side st) /\
  serial_read_mode st' = Calibration /\
  exists calls, trace st' = trace st ++ calls /\ Forall is_live calls.
Proof.
  intros Hmode st'. unfold st', fire_timer, exec.
  unfold mbind, M_bind, mret, M_ret, gets, modify.
  destruct (after_queue st) as [|[ms []] rest].
  - cbn. repeat split; auto. exists []. rewrite app_nil_r. split; constructor.
  - destruct (read_serial_live_calibration now (set_after_queue rest st) Hmode)
      as (He & Hc & Hm & Ht).
    split; [intros side; exact_side (He side)|].
    split; [intros side; exact_side (Hc side)|].
    split; [exact Hm|].
    eexists. split; [exact Ht|apply live_calls_live].
Qed.

Lemma device_sends_frame chunks st :
  (forall side, angle_entries side (device_sends chunks st)
                = angle_entries side st) /\
  (forall side, rom_canvases side (device_sends chunks st)
                = rom_canvases side st) /\
  serial_read_mode (device_sends chunks st) = serial_read_mode st /\
  trace (device_sends chunks st) = trace st.
Proof.
  unfold device_sends. destruct (ser st); repeat split; intros []; reflexivity.
Qed.

(** However long calibration is polled, it records nothing. *)
Lemma poll_calibration events : forall st,
  serial_read_mode st = Calibration ->
  let st' := poll events st in
  (forall side, angle_entries side st' = angle_entries side st) /\
  (forall side, rom_canvases side st' = rom_canvases side st) /\
  serial_read_mode st' = Calibration /\
  exists calls, trace st' = trace st ++ calls /\ Forall is_live calls.
Proof.
  induction events as [|[chunks now] rest IH]; intros st Hmode.
  - cbn. repeat split; auto. exists []. rewrite app_nil_r. split; constructor.
  - cbn [poll].
    destruct (device_sends_frame chunks st) as (He0 & Hc0 & Hm0 & Ht0).
    assert (Hmode1 : serial_read_mode (device_sends chunks st) = Calibration)
      by (rewrite Hm0; exact Hmode).
    destruct (fire_timer_calibration now _ Hmode1) as (He1 & Hc1 & Hm1 & Ht1).
    destruct (IH _ Hm1) as (He2 & Hc2 & Hm2 & calls2 & Ht2 & Hl2).
    destruct Ht1 as (calls1 & Ht1 & Hl1).
    split; [intros side; rewrite He2, He1; apply He0|].
    split; [intros side; rewrite Hc2, Hc1; apply Hc0|].
    split; [exact Hm2|].
    exists (calls1 ++ calls2). split.
    + rewrite Ht2, Ht1, Ht0, app_assoc. reflexivity.
    + apply Forall_app; split; assumption.
Qed.

(** C7. On an open port [calibrate] sends the single byte [r], whatever is
    or is not selected, and enters calibration mode. A tick of a calibration
    session that sees the read window elapsed does nothing after its read
    loop: whatever the buffer holds, its result is the state the loop left,
    no tick is queued, no entry and no ROM gauge changes, and the only calls
    to the display are the live updates of the loop. However long and with
    whatever data a calibration is polled, the entries and the ROM gauges
    stay as they were and nothing but live updates reaches the display. *)
Theorem calibration_records_nothing :
  (forall (st : App) (started now : float) port,
     open_port st = Some port ->
     let st' := exec (calibrate started now) st in
     ser st' = Some (write "r" (reset_input_buffer port)) /\
     written (write "r" (reset_input_buffer port)) = written port +:+ "r" /\
     serial_read_mode st' = Calibration /\
     serial_read_start_time st' = Some started) /\
  (forall (st : App) (now : float) port start,
     open_port st = Some port ->
     serial_read_mode st = Calibration ->
     serial_read_start_time st = Some start ->
     window_elapsed now start (serial_read_duration st) = true ->
     read_serial_live now st = (Ok tt, polled port st) /\
     same_session st (polled port st) /\
     trace (polled port st) = trace st ++ live_calls (in_buffer port)) /\
  (forall (events : list (list string * float)) (st : App),
     serial_read_mode st = Calibration ->
     let st' := poll events st in
     (forall side, angle_entries side st' = angle_entries side st) /\
     (forall side, rom_canvases side st' = rom_canvases side st) /\
     serial_read_mode st' = Calibration /\
     exists calls, trace st' = trace st ++ calls /\ Forall is_live calls).
Proof.
  split; [|split].
  - intros st started now port Hport st'. unfold st', exec.
    rewrite (calibrate_open port) by assumption.
    rewrite (read_serial_live_armed port "r" Calibration started now st
               (open_port_is_open _ _ Hport)).
    cbv zeta.
    destruct (window_elapsed now started (serial_read_duration st));
      repeat split; reflexivity.
  - intros st now port start Hport Hmode Hstart Helapsed.
    rewrite (read_serial_live_open now port start) by assumption.
    rewrite Helapsed, Hmode.
    split; [reflexivity|].
    split; [apply polled_same_session|apply polled_trace].
  - exact poll_calibration.
Qed.

(** C7, witness: the deadline tick of that calibration draws the live value
    12.5 and leaves the entries alone, tagged line or not. *)
Lemma calibration_records_nothing_witness :
  let st := calibration_started in
  let now := PyFloat.of_Z 2007 in
  serial_read_mode st = Calibration /\
  (written <$> ser st) = Some "r" /\
  window_elapsed now (PyFloat.of_Z 2000) (serial_read_duration st) = true /\
  entry_get <$> unaffected_angle_entries (poll [([], now)] st)
  = ["10.0"; ""; ""; ""; ""; ""; ""; ""] /\
  (forall side,
     angle_entries side (poll [([], now)] st) = angle_entries side st).
Proof.
  do 4 (split; [vm_compute; reflexivity|]).
  exact (proj1 (proj2 (proj2 calibration_records_nothing)
                  [([], PyFloat.of_Z 2007)] calibration_started eq_refl)).
Defined.

Lemma read_lines_result port chunks st : result (read_lines port chunks) st = Ok tt.
Proof. unfold result. rewrite read_lines_exec. reflexivity. Qed.

Lemma process_final_result st : result process_final_serial_data st = Ok tt.
Proof.
  unfold result, process_final_serial_data, try_except.
  match goal with |- context [let (_, _) := ?body st in _] =>
    destruct (body st) as [[[]|e] st'] end; reflexivity.
Qed.

(** C8. [parse_live], the inner [try] of the read loop, returns the float a
    line denotes when [float] accepts it, and nothing otherwise: the
    [ValueError] is caught there. It gives 93.5 on [93.5], nothing on
    [ANGLE:93.5] and on the empty line, and more generally nothing on any
    line that holds a character no float is written with, as every line
    carrying the marker does. A line that is not a number is only added to
    the buffer and to the monitor: the loop goes on with the next one,
    never raises, shows no error, and the tick that runs it returns normally
    once a session has been started. *)
Theorem parse_live_never_raises :
  (forall line : string, parse_live line = PyFloat.of_string line) /\
  parse_live "93.5" = Some (PyFloat.div (PyFloat.of_Z 187) (PyFloat.of_Z 2)) /\
  parse_live "ANGLE:93.5" = None /\
  parse_live "" = None /\
  (forall line : string,
     PyStr.all_chars PyFloat.is_float_char line = false ->
     parse_live line = None) /\
  (forall line : string,
     PyStr.contains marker line = true -> parse_live line = None) /\
  (forall port chunk rest (st : App),
     read_lines port (chunk :: rest) st
     = read_lines port rest (after_chunk port rest chunk st) /\
     (parse_live (PyStr.strip chunk) = None ->
      let st1 := after_chunk port rest chunk st in
      serial_full_response st1
      = serial_full_response st +:+ (PyStr.strip chunk +:+ PyStr.newline) /\
      trace st1 = trace st /\ live_canvas st1 = live_canvas st /\
      same_session st st1)) /\
  (forall port chunks (st : App), result (read_lines port chunks) st = Ok tt) /\
  (forall (now : float) (st : App),
     serial_read_start_time st <> None ->
     result (read_serial_live now) st = Ok tt).
Proof.
  assert (Halpha : forall line,
    PyStr.all_chars PyFloat.is_float_char line = false ->
    parse_live line = None).
  { intros line H. unfold parse_live, py_float.
    destruct (PyFloat.of_string line) as [x|] eqn:E; [|reflexivity].
    rewrite (PyFloatFacts.of_string_alphabet _ _ E) in H. discriminate H. }
  split; [|split; [|split; [|split; [|split; [|split; [|split; [|split]]]]]]].
  - intros line. unfold parse_live, py_float.
    destruct (PyFloat.of_string line); reflexivity.
  - vm_compute. reflexivity.
  - vm_compute. reflexivity.
  - vm_compute. reflexivity.
  - exact Halpha.
  - intros line H. apply Halpha, PyFloatFacts.tagged_not_float, H.
  - intros port chunk rest st. split; [apply read_lines_cons|].
    intros Hnone st1. unfold st1, after_chunk. rewrite Hnone.
    repeat split; intros []; reflexivity.
  - exact read_lines_result.
  - intros now st Hstart. unfold result.
    destruct (serial_read_start_time st) as [start|] eqn:Es; [|congruence].
    destruct (open_port st) as [port|] eqn:Hport.
    + rewrite (read_serial_live_open now port start) by assumption.
      destruct (window_elapsed now start (serial_read_duration st));
        [|reflexivity].
      destruct (serial_read_mode st); [|reflexivity].
      apply process_final_result.
    + rewrite read_serial_live_closed by exact Hport. reflexivity.
Qed.

(** C8, witness: a tick of a started session that reads a line which is
    not a number returns normally. *)
Lemma parse_live_never_raises_witness :
  let st := device_sends [sent "noise"] flexion_started in
  serial_read_start_time st <> None /\
  parse_live "noise" = None /\
  result (read_serial_live (PyFloat.of_Z 1001)) st = Ok tt.
Proof.
  assert (H : serial_read_start_time
                (device_sends [sent "noise"] flexion_started) <> None)
    by (vm_compute; discriminate).
  split; [exact H|]. split; [vm_compute; reflexivity|].
  exact (proj2 (proj2 (proj2 (proj2 (proj2 (proj2 (proj2 (proj2
           parse_live_never_raises)))))))
           (PyFloat.of_Z 1001) _ H).
Defined.

Lemma clear_zip_keeps entries : forall canvases j,
  (length canvases <= j)%nat ->
  (clear_zip entries canvases).1 !! j = entries !! j.
Proof.
  induction entries as [|entry entries IH]; intros canvases j Hj.
  - destruct canvases; reflexivity.
  - destruct canvases as [|canvas canvases]; [reflexivity|].
    cbn [clear_zip]. destruct (clear_zip entries canvases) as [es cs] eqn:E.
    destruct j as [|j]; [cbn in Hj; lia|]. cbn.
    specialize (IH canvases j). rewrite E in IH. apply IH. cbn in Hj. lia.
Qed.

Lemma clear_zip_canvases entries : forall canvases,
  length (clear_zip entries canvases).2 = length canvases.
Proof.
  induction entries as [|entry entries IH]; intros canvases.
  - destruct canvases; reflexivity.
  - destruct canvases as [|canvas canvases]; [reflexivity|].
    cbn [clear_zip]. specialize (IH canvases).
    destruct (clear_zip entries canvases) as [es cs]. cbn in *. lia.
Qed.

Lemma clear_all_measurements_run st :
  clear_all_measurements st =
  (Ok tt,
   set_serial_output_box
     (box_configure false (box_delete (box_configure true (serial_output_box st))))
     (show_live (PyFloat.of_Z 0)
        (cleared_side Affected (cleared_side Unaffected st)))).
Proof.
  unfold clear_all_measurements, clear_side, update_live_angle, cleared_side.
  unfold mbind, M_bind, mret, M_ret, gets, modify, try_except, record.
  cbn [angle_entries rom_canvases set_rom_canvases set_angle_entries].
  destruct (clear_zip (unaffected_angle_entries st) (unaffected_rom_canvases st))
    as [es cs].
  cbn.
  destruct (clear_zip (affected_angle_entries st) (affected_rom_canvases st))
    as [es' cs'].
  reflexivity.
Qed.

(** C9 (the code departs from it). [clear_all_measurements] pairs the eight
    entries of a side with its four ROM gauges, and [zip] stops with the
    shorter list: an entry whose index is not below the number of gauges is
    left as it is. With 10.0 in all sixteen slots, the first four entries of
    each side are emptied and the last four still hold 10.0, so that the ROM
    recomputed afterwards is not zero (elbow 10, wrist deviation 20) while
    the gauges show 0.0. The live gauge is reset to 0 and the port is left as
    it is. *)
Theorem clear_all_leaves_last_four :
  (forall (st : App) (side : Side) (j : nat),
     (length (rom_canvases side st) <= j)%nat ->
     angle_entries side (exec clear_all_measurements st) !! j
     = angle_entries side st !! j) /\
  (forall st : App,
     ser (exec clear_all_measurements st) = ser st /\
     live_canvas (exec clear_all_measurements st) = gauge (PyFloat.of_Z 0)) /\
  (let st' := exec clear_all_measurements measured_app in
   entry_get <$> unaffected_angle_entries st'
   = [""; ""; ""; ""; "10.0"; "10.0"; "10.0"; "10.0"] /\
   entry_get <$> affected_angle_entries st'
   = [""; ""; ""; ""; "10.0"; "10.0"; "10.0"; "10.0"] /\
   calculate_rom_side (unaffected_angle_entries st')
   = Ok {| rom_wrist := PyFloat.zero; rom_forearm := PyFloat.zero;
           rom_elbow := PyFloat.of_Z 10;
           rom_wrist_deviation := PyFloat.of_Z 20 |} /\
   unaffected_rom_canvases st' = replicate 4 (gauge PyFloat.zero) /\
   ser st' = ser measured_app).
Proof.
  split; [|split; [|vm_compute; repeat split; reflexivity]].
  - intros st side j Hj. unfold exec. rewrite clear_all_measurements_run.
    cbn [snd]. destruct side; cbn in *.
    + apply clear_zip_keeps. exact Hj.
    + apply clear_zip_keeps. exact Hj.
  - intros st. unfold exec. rewrite clear_all_measurements_run.
    split; reflexivity.
Qed.

(** C9, witness: entry 4 of a window laid out by [setup_ui], with its four
    gauges a side. *)
Lemma clear_all_leaves_last_four_witness :
  (length (rom_canvases Unaffected measured_app) <= 4)%nat /\
  angle_entries Unaffected (exec clear_all_measurements measured_app) !! 4%nat
  = angle_entries Unaffected measured_app !! 4%nat.
Proof.
  assert (H : (length (rom_canvases Unaffected measured_app) <= 4)%nat)
    by (vm_compute; lia).
  split; [exact H|].
  exact (proj1 clear_all_leaves_last_four measured_app Unaffected 4%nat H).
Defined.

(** C10. On every successful final processing the entry of the selected
    slot holds the parsed angle formatted by [.1f], a text with one
    decimal, and not the parsed float: read back as a slot it gives the
    float nearest to that angle rounded to tenths. Whatever float is
    printed, the text reads back as a float. The exact angle goes to
    [update_live_angle] only, whose label is the same one-decimal text
    followed by the degree sign. A parsed 42.35 is stored as [42.4], which
    reads back as 42.4. *)
Theorem finalize_slot_holds_one_decimal :
  (forall (st : App) (v : float) (side : Side) (i : nat),
     parse_final (serial_full_response st) = Ok (Some v) ->
     selected_side st = Some side ->
     selected_movement st = Some i ->
     laid_out st -> (i < 8)%nat ->
     let st' := exec process_final_serial_data st in
     (entry_get <$> angle_entries side st' !! i)
     = Some (PyFloat.format_1f v) /\
     (slot <$> angle_entries side st' !! i)
     = Some (Some (PyFloat.round_1f v)) /\
     last (trace st') = Some (LiveAngle v) /\
     last (live_canvas st') = Some (Text (PyFloat.format_1f v +:+ degree))) /\
  (forall v : float,
     PyFloat.of_string (PyFloat.format_1f v) = Some (PyFloat.round_1f v)) /\
  (forall s m e,
     PyFloat.round_1f (S754_finite s m e)
     = PyFloat.of_decimal s (Z.to_N (PyFloat.tenths m e)) (-1)) /\
  PyFloat.format_1f (number "42.35") = "42.4" /\
  PyFloat.round_1f (number "42.35") = number "42.4" /\
  number "42.4" <> number "42.35" /\
  number "42.35" = PyFloat.div (PyFloat.of_Z 4235) (PyFloat.of_Z 100) /\
  number "42.4" = PyFloat.div (PyFloat.of_Z 424) (PyFloat.of_Z 10).
Proof.
  split; [|split; [exact PyFloatFacts.of_string_format_1f|]].
  2:{ split; [reflexivity|].
      vm_compute. repeat split; try reflexivity. discriminate. }
  intros st v side i Hparse Hside Hidx Hlaid Hi st'.
  pose proof (process_final_stores st v side i Hparse Hside Hidx Hlaid Hi)
    as Hrun.
  assert (Hst' : st' = show_live v (show_roms (store_angle side i v st))).
  { unfold st', exec. rewrite Hrun. reflexivity. }
  assert (Hentry : angle_entries side st' !! i = Some (stored_entry v)).
  { rewrite Hst'. unfold store_angle.
    destruct (Hlaid Unaffected) as [Hu _], (Hlaid Affected) as [Ha _].
    cbn in Hu, Ha.
    destruct side; cbn; apply list_lookup_insert_eq; lia. }
  rewrite Hentry. cbn [fmap option_map option_fmap].
  split; [reflexivity|].
  split.
  { unfold slot, stored_entry, entry_get. cbn [entry_text].
    rewrite PyFloatFacts.of_string_format_1f. reflexivity. }
  split.
  - rewrite Hst'. unfold show_live. cbn [trace set_trace].
    apply last_snoc.
  - rewrite Hst'. reflexivity.
Qed.

(** C10, witness: the buffer [ANGLE:42.35] with Wrist Flexion selected on the
    unaffected side. *)
Lemma finalize_slot_holds_one_decimal_witness :
  let st := flexion_buffered (sent "ANGLE:42.35") in
  parse_final (serial_full_response st) = Ok (Some (number "42.35")) /\
  laid_out st /\
  (entry_get <$>
     angle_entries Unaffected (exec process_final_serial_data st) !! 0%nat)
  = Some (PyFloat.format_1f (number "42.35")).
Proof.
  assert (Hparse :
    parse_final (serial_full_response (flexion_buffered (sent "ANGLE:42.35")))
    = Ok (Some (number "42.35"))) by (vm_compute; reflexivity).
  split; [exact Hparse|].
  split; [apply connected_laid_out|].
  exact (proj1 (proj1 finalize_slot_holds_one_decimal _ _ Unaffected 0%nat
                  Hparse eq_refl eq_refl (connected_laid_out _)
                  (Nat.lt_0_succ 7))).
Defined.

(* ===================================================================== *)
(** * The main loop: what every reachable window satisfies *)
(* ===================================================================== *)

Lemma parse_final_total response : exists r, parse_final response = Ok r.
Proof.
  unfold parse_final.
  destruct (first_valid_line
              (reverse (PyStr.split PyStr.newline (PyStr.strip response))))
    as [Hnone | (before & line & after & v & -> & Hb & Hv)].
  - exists None. apply scan_lines_none. exact Hnone.
  - exists (Some v). apply scan_lines_found; assumption.
Qed.

Lemma process_final_no_side st angle :
  parse_final (serial_full_response st) = Ok (Some angle) ->
  selected_side st = None ->
  process_final_serial_data st = (Ok tt, st).
Proof.
  intros Hparse Hside. unfold process_final_serial_data.
  unfold mbind, M_bind, mret, M_ret, gets, modify, lift, raise, try_except.
  rewrite Hparse, Hside. reflexivity.
Qed.

Lemma expected_user_error message :
  message ∈ user_errors -> expected (ShowError "Error" message).
Proof. intros H. right. split; [reflexivity|exact H]. Qed.

(** A property of both sides, from the same property of another state whose
    entries and gauges are the same terms. *)
Ltac by_side H :=
  let side := fresh "side" in
  intros side; destruct side; [exact (H Unaffected) | exact (H Affected)].

Lemma well_formed_new_app : well_formed new_app.
Proof.
  split.
  - intros []; split; reflexivity.
  - intros []; cbn; repeat constructor.
  - reflexivity.
  - exact I.
  - reflexivity.
  - constructor.
Qed.

(** Showing something expected keeps the window well formed. *)
Lemma well_formed_record st c :
  well_formed st -> expected c -> well_formed (set_trace (trace st ++ [c]) st).
Proof.
  intros [Hl Hr Hm Hs Ht Hc] Hexp. split.
  - by_side Hl.
  - by_side Hr.
  - exact Hm.
  - exact Hs.
  - exact Ht.
  - cbn. apply Forall_app. split; [exact Hc|]. constructor; [exact Hexp|constructor].
Qed.

Lemma movements_index i name letter :
  movements !! i = Some (name, letter) -> (i < 8)%nat.
Proof. intros H. apply lookup_lt_Some in H. exact H. Qed.

Lemma live_calls_expected chunks : Forall expected (live_calls chunks).
Proof.
  induction chunks as [|chunk rest IH]; cbn; [constructor|].
  destruct (parse_live (PyStr.strip chunk)); [constructor|]; auto.
  exact I.
Qed.

Lemma after_chunk_monitor port rest chunk st :
  box_normal (serial_output_box (after_chunk port rest chunk st)) = false.
Proof.
  unfold after_chunk. destruct (parse_live (PyStr.strip chunk)); reflexivity.
Qed.

Lemma read_lines_monitor port chunks : forall st,
  box_normal (serial_output_box st) = false ->
  box_normal (serial_output_box (exec (read_lines port chunks) st)) = false.
Proof.
  induction chunks as [|chunk rest IH]; intros st H; [exact H|].
  unfold exec. rewrite read_lines_cons. apply IH, after_chunk_monitor.
Qed.

Lemma polled_well_formed port st : well_formed st -> well_formed (polled port st).
Proof.
  intros [Hl Hr Hm Hs Ht Hc].
  pose proof (polled_same_session port st) as Hsame.
  split.
  - intros side.
    rewrite (same_entries _ _ Hsame side), (same_canvases _ _ Hsame side).
    exact (Hl side).
  - intros side. rewrite (same_entries _ _ Hsame side). exact (Hr side).
  - apply read_lines_monitor, Hm.
  - unfold selection_ok.
    rewrite (same_movement_letter _ _ Hsame), (same_selected_movement _ _ Hsame),
      (same_selected_side _ _ Hsame).
    exact Hs.
  - rewrite (same_start_time _ _ Hsame), (same_after_queue _ _ Hsame). exact Ht.
  - rewrite polled_trace. apply Forall_app. split; [exact Hc|].
    apply live_calls_expected.
Qed.

Lemma well_formed_queue st queue :
  well_formed st -> serial_read_start_time st <> None ->
  well_formed (set_after_queue queue st).
Proof.
  intros [Hl Hr Hm Hs Ht Hc] Hstart. split.
  - by_side Hl.
  - by_side Hr.
  - exact Hm.
  - exact Hs.
  - intros H. destruct (Hstart H).
  - exact Hc.
Qed.

Lemma stored_entry_rendered angle : rendered (stored_entry angle).
Proof. split; [reflexivity|]. right. exists angle. reflexivity. Qed.

Lemma well_formed_stored st side i angle :
  well_formed st ->
  well_formed (show_live angle (show_roms (store_angle side i angle st))).
Proof.
  intros [Hl Hr Hm Hs Ht Hc].
  destruct (Hl Unaffected) as [Hu Hcu], (Hl Affected) as [Ha Hca].
  cbn in Hu, Hcu, Ha, Hca.
  split.
  - intros sd. destruct side, sd; cbn; rewrite ?length_insert; auto.
  - intros sd. pose proof (Hr Unaffected) as Hru. pose proof (Hr Affected) as Hra.
    cbn in Hru, Hra.
    destruct side, sd; cbn; auto;
      apply Forall_insert; auto using stored_entry_rendered.
  - destruct side; exact Hm.
  - destruct side; exact Hs.
  - destruct side; exact Ht.
  - cbn. destruct side; cbn; apply Forall_app; split; auto;
      repeat constructor.
Qed.

Lemma process_final_well_formed st :
  well_formed st ->
  well_formed (exec process_final_serial_data st).
Proof.
  intros Hwf. unfold exec.
  destruct (parse_final_total (serial_full_response st)) as [[angle|] Hparse].
  - destruct (selected_side st) as [side|] eqn:Hside.
    + pose proof (wf_selection _ Hwf) as Hsel. unfold selection_ok in Hsel.
      rewrite Hside in Hsel.
      destruct (movement_letter st) as [letter|];
        [|destruct (selected_movement st); destruct Hsel].
      destruct (selected_movement st) as [i|] eqn:Hidx; [|destruct Hsel].
      destruct Hsel as [name Hname].
      rewrite (process_final_stores st angle side i Hparse Hside Hidx
                 (wf_laid_out _ Hwf) (movements_index _ _ _ Hname)).
      apply well_formed_stored, Hwf.
    + rewrite (process_final_no_side st angle Hparse Hside). exact Hwf.
  - rewrite (process_final_no_angle st Hparse). cbn [snd].
    apply well_formed_record; [exact Hwf|].
    apply expected_user_error. set_solver.
Qed.

Lemma read_serial_live_well_formed now st :
  well_formed st -> serial_read_start_time st <> None ->
  well_formed (exec (read_serial_live now) st).
Proof.
  intros Hwf Hstart. unfold exec.
  destruct (open_port st) as [port|] eqn:Hport.
  2:{ rewrite read_serial_live_closed by exact Hport. exact Hwf. }
  destruct (serial_read_start_time st) as [start|] eqn:Es; [|congruence].
  rewrite (read_serial_live_open now port start) by assumption.
  pose proof (polled_well_formed port st Hwf) as Hpolled.
  destruct (window_elapsed now start (serial_read_duration st)).
  - destruct (serial_read_mode st); [|exact Hpolled].
    apply process_final_well_formed, Hpolled.
  - cbn [snd]. apply well_formed_queue; [exact Hpolled|].
    rewrite (same_start_time _ _ (polled_same_session port st)), Es.
    discriminate.
Qed.

Lemma fire_timer_well_formed now st :
  well_formed st -> well_formed (exec (fire_timer now) st).
Proof.
  intros Hwf. unfold fire_timer, exec.
  unfold mbind, M_bind, mret, M_ret, gets, modify.
  destruct (after_queue st) as [|[ms []] rest] eqn:Hq; [exact Hwf|].
  assert (Hstart : serial_read_start_time st <> None).
  { intros H. apply (wf_timer _ Hwf) in H. congruence. }
  apply (read_serial_live_well_formed now (set_after_queue rest st)).
  - apply well_formed_queue; assumption.
  - exact Hstart.
Qed.

Lemma well_formed_armed port command mode started st :
  well_formed st -> well_formed (armed port command mode started st).
Proof.
  intros [Hl Hr Hm Hs Ht Hc]. split.
  - by_side Hl.
  - by_side Hr.
  - reflexivity.
  - exact Hs.
  - discriminate.
  - exact Hc.
Qed.

(** A read armed and polled once. *)
Lemma armed_poll_well_formed port command mode started now st :
  is_open port = true -> well_formed st ->
  well_formed (exec (read_serial_live now) (armed port command mode started st)).
Proof.
  intros Hopen Hwf. apply read_serial_live_well_formed.
  - apply well_formed_armed, Hwf.
  - discriminate.
Qed.

Lemma start_measurement_well_formed started now st :
  well_formed st -> well_formed (exec (start_measurement started now) st).
Proof.
  intros Hwf. unfold exec.
  destruct (open_port st) as [port|] eqn:Hport.
  - pose proof (wf_selection _ Hwf) as Hsel. unfold selection_ok in Hsel.
    destruct (movement_letter st) as [letter|] eqn:Hletter,
             (selected_movement st) as [i|] eqn:Hidx,
             (selected_side st) as [side|] eqn:Hside; try destruct Hsel.
    + rewrite (start_measurement_open port letter i side) by assumption.
      apply armed_poll_well_formed; [|exact Hwf].
      apply (open_port_is_open _ _ Hport).
    + unfold start_measurement, mbind, M_bind, gets.
      rewrite Hport. cbn beta iota. rewrite ?Hletter, ?Hidx, ?Hside. cbn [snd].
      apply well_formed_record; [exact Hwf|].
      apply expected_user_error. set_solver.
  - unfold start_measurement, mbind, M_bind, gets. rewrite Hport. cbn [snd].
    apply well_formed_record; [exact Hwf|].
    apply expected_user_error. set_solver.
Qed.

Lemma calibrate_well_formed started now st :
  well_formed st -> well_formed (exec (calibrate started now) st).
Proof.
  intros Hwf. unfold exec.
  destruct (open_port st) as [port|] eqn:Hport.
  - rewrite (calibrate_open port) by assumption.
    apply armed_poll_well_formed; [|exact Hwf].
    apply (open_port_is_open _ _ Hport).
  - unfold calibrate, try_except, mbind, M_bind, gets. rewrite Hport. cbn [snd].
    apply well_formed_record; [exact Hwf|].
    apply expected_user_error. set_solver.
Qed.

(** A handler whose body is one [try] with a catch-all clause that shows a
    message returns normally. *)
Lemma try_except_result (body : M unit) title message st :
  result (try_except body any_exception
            (fun e => showerror title (message e))) st = Ok tt.
Proof.
  unfold result, try_except.
  destruct (body st) as [[[]|e] st']; reflexivity.
Qed.

Lemma start_measurement_result started now st :
  result (start_measurement started now) st = Ok tt.
Proof.
  unfold result, start_measurement, mbind, M_bind, gets.
  destruct (open_port st) as [port|]; [|reflexivity].
  destruct (movement_letter st), (selected_movement st), (selected_side st);
    try reflexivity.
  apply try_except_result.
Qed.

Lemma start_measurement_run started now st :
  start_measurement started now st
  = (Ok tt, exec (start_measurement started now) st).
Proof.
  pose proof (start_measurement_result started now st) as H.
  unfold result, exec in *.
  destruct (start_measurement started now st) as [r st']. cbn in *.
  rewrite H. reflexivity.
Qed.

(** With a letter to send again, [Redo] is [Start]. *)
Lemma redo_with_letter started now st letter :
  movement_letter st = Some letter ->
  redo_last_measurement started now st = start_measurement started now st.
Proof.
  intros Hletter. unfold redo_last_measurement, try_except, mbind, M_bind, gets.
  rewrite Hletter, start_measurement_run. reflexivity.
Qed.

Lemma redo_without_letter started now st :
  movement_letter st = None ->
  redo_last_measurement started now st =
  (Ok tt,
   set_trace (trace st ++ [ShowError "Error" "No previous movement to redo!"])
     st).
Proof.
  intros Hletter. unfold redo_last_measurement, try_except, mbind, M_bind, gets.
  rewrite Hletter. reflexivity.
Qed.

Lemma redo_well_formed started now st :
  well_formed st -> well_formed (exec (redo_last_measurement started now) st).
Proof.
  intros Hwf. unfold exec.
  destruct (movement_letter st) as [letter|] eqn:Hletter.
  - rewrite (redo_with_letter started now st letter Hletter).
    apply start_measurement_well_formed, Hwf.
  - rewrite (redo_without_letter started now st Hletter). cbn [snd].
    apply well_formed_record; [exact Hwf|].
    apply expected_user_error. set_solver.
Qed.

Lemma clear_zip_entries entries : forall canvases,
  length (clear_zip entries canvases).1 = length entries /\
  (Forall rendered entries -> Forall rendered (clear_zip entries canvases).1).
Proof.
  induction entries as [|entry entries IH]; intros canvases.
  - destruct canvases; split; auto.
  - destruct canvases as [|canvas canvases]; [split; auto|].
    cbn [clear_zip]. destruct (IH canvases) as [Hlen Hall].
    destruct (clear_zip entries canvases) as [es cs]. cbn in *.
    split; [lia|].
    intros H. apply Forall_cons in H as [_ H]. constructor; [|auto].
    split; [reflexivity|]. left.
    unfold entry_delete, entry_configure. reflexivity.
Qed.

Lemma clear_all_well_formed st :
  well_formed st -> well_formed (exec clear_all_measurements st).
Proof.
  intros [Hl Hr Hm Hs Ht Hc]. unfold exec.
  rewrite clear_all_measurements_run. cbn [snd].
  destruct (Hl Unaffected) as [Hu Hcu], (Hl Affected) as [Ha Hca].
  cbn in Hu, Hcu, Ha, Hca.
  split.
  - intros []; cbn; rewrite ?clear_zip_canvases;
      rewrite (proj1 (clear_zip_entries _ _)); auto.
  - intros []; cbn; apply clear_zip_entries; [exact (Hr Unaffected)|exact (Hr Affected)].
  - reflexivity.
  - exact Hs.
  - exact Ht.
  - cbn. apply Forall_app. split; [exact Hc|]. repeat constructor.
Qed.

Lemma connect_bluetooth_well_formed selected_port opened st :
  well_formed st ->
  well_formed (exec (connect_bluetooth selected_port opened) st).
Proof.
  intros Hwf. unfold exec, connect_bluetooth.
  destruct (PyStr.is_empty selected_port).
  - apply well_formed_record; [exact Hwf|].
    apply expected_user_error. set_solver.
  - destruct opened as [message|port].
    + apply well_formed_record; [exact Hwf|]. left. reflexivity.
    + destruct Hwf as [Hl Hr Hm Hs Ht Hc]. split.
      * by_side Hl.
      * by_side Hr.
      * exact Hm.
      * exact Hs.
      * exact Ht.
      * cbn. apply Forall_app. split; [exact Hc|]. repeat constructor.
Qed.

Lemma press_movement_button_well_formed idx side st :
  well_formed st -> well_formed (exec (press_movement_button idx side) st).
Proof.
  intros Hwf. unfold exec, press_movement_button.
  destruct (movements !! idx) as [[movement letter]|] eqn:Hidx; [|exact Hwf].
  destruct Hwf as [Hl Hr Hm Hs Ht Hc]. split.
  - by_side Hl.
  - by_side Hr.
  - exact Hm.
  - exists movement. exact Hidx.
  - exact Ht.
  - exact Hc.
Qed.

Lemma device_sends_well_formed chunks st :
  well_formed st -> well_formed (device_sends chunks st).
Proof.
  intros Hwf. unfold device_sends. destruct (ser st) as [port|]; [|exact Hwf].
  destruct Hwf as [Hl Hr Hm Hs Ht Hc]. split.
  - by_side Hl.
  - by_side Hr.
  - exact Hm.
  - exact Hs.
  - exact Ht.
  - exact Hc.
Qed.

(* ===================================================================== *)
(** * The exports *)
(* ===================================================================== *)

Lemma is_empty_true s : PyStr.is_empty s = true <-> s = "".
Proof. destruct s; split; intros H; try reflexivity; discriminate H. Qed.

Lemma csv_text_app rows1 rows2 :
  csv_text (rows1 ++ rows2) = csv_text rows1 +:+ csv_text rows2.
Proof.
  induction rows1 as [|row rows1 IH]; [reflexivity|].
  cbn [csv_text app]. rewrite IH, string_app_assoc. reflexivity.
Qed.

Lemma writerow_open file_path row content a files :
  writerow file_path row
    {| window := a; disk := <[file_path := CsvFile content]> files |}
  = (Ok tt,
     {| window := a;
        disk := <[file_path := CsvFile (content +:+ PyCsv.row row)]> files |}).
Proof.
  unfold writerow, on_disk, file_text. cbn [window disk].
  rewrite lookup_insert_eq, insert_insert_eq. reflexivity.
Qed.

Lemma slot_text_item side i a entry :
  angle_entries side a !! i = Some entry -> slot_text side i a = entry_get entry.
Proof. intros H. unfold slot_text. rewrite H. reflexivity. Qed.

Lemma write_movements_rows file_path names : forall i content a files,
  (i + length names <= length (unaffected_angle_entries a))%nat ->
  (i + length names <= length (affected_angle_entries a))%nat ->
  write_movements file_path i names
    {| window := a; disk := <[file_path := CsvFile content]> files |}
  = (Ok tt,
     {| window := a;
        disk := <[file_path :=
                    CsvFile (content +:+ csv_text (movement_rows a i names))]>
                  files |}).
Proof.
  induction names as [|movement rest IH]; intros i content a files Hu Ha.
  - cbn. rewrite string_app_nil_r. reflexivity.
  - cbn [length] in Hu, Ha.
    destruct (lookup_lt_is_Some_2 (unaffected_angle_entries a) i) as [u Eu];
      [lia|].
    destruct (lookup_lt_is_Some_2 (affected_angle_entries a) i) as [f Ef];
      [lia|].
    cbn [write_movements movement_rows csv_text].
    unfold mbind at 1, W_bind at 1.
    unfold on_window at 1, mbind at 1, M_bind at 1, gets at 1, lift at 1, item at 1.
    cbn [window disk]. rewrite Eu.
    unfold mbind at 1, W_bind at 1.
    unfold on_window at 1, mbind at 1, M_bind at 1, gets at 1, lift at 1, item at 1.
    cbn [window disk]. rewrite Ef.
    unfold mbind at 1, W_bind at 1.
    rewrite writerow_open.
    rewrite IH by lia.
    rewrite (slot_text_item Unaffected i a u Eu),
            (slot_text_item Affected i a f Ef).
    rewrite string_app_assoc. reflexivity.
Qed.

Lemma write_roms_rows file_path labels : forall content a files,
  laid_out a ->
  write_roms file_path labels
    {| window := a; disk := <[file_path := CsvFile content]> files |}
  = (Ok tt,
     {| window := a;
        disk :=
          <[file_path :=
              CsvFile
                (content +:+
                 csv_text
                   ((fun rom_label =>
                       [ rom_label;
                         PyFloat.format_1f
                           (rom_get rom_label
                              (rom_of (unaffected_angle_entries a)));
                         PyFloat.format_1f
                           (rom_get rom_label
                              (rom_of (affected_angle_entries a))) ])
                    <$> labels))]> files |}).
Proof.
  intros content a files Hlaid. revert content.
  destruct (Hlaid Unaffected) as [Hu _], (Hlaid Affected) as [Ha _].
  cbn in Hu, Ha.
  induction labels as [|rom_label rest IH]; intros content.
  - cbn. rewrite string_app_nil_r. reflexivity.
  - cbn [write_roms fmap list_fmap csv_text].
    unfold mbind at 1, W_bind at 1.
    unfold on_window at 1, mbind at 1, M_bind at 1, gets at 1, lift at 1.
    cbn [window disk]. rewrite (calculate_rom_side_rom_of _ Hu).
    unfold mbind at 1, W_bind at 1.
    unfold on_window at 1, mbind at 1, M_bind at 1, gets at 1, lift at 1.
    cbn [window disk]. rewrite (calculate_rom_side_rom_of _ Ha).
    unfold mbind at 1, W_bind at 1.
    rewrite writerow_open.
    rewrite IH.
    rewrite string_app_assoc. reflexivity.
Qed.

(** The export of a laid-out window, once an identifier is entered and a
    path chosen. *)
Lemma export_to_csv_written patient_id_text asksaveasfilename a files :
  laid_out a ->
  let patient_id := PyStr.strip patient_id_text in
  let file_path :=
    asksaveasfilename ".csv" (patient_id +:+ "_DiagnosticTest.csv") in
  patient_id <> "" -> file_path <> "" ->
  export_to_csv patient_id_text asksaveasfilename
    {| window := a; disk := files |}
  = (Ok tt,
     {| window :=
          set_trace
            (trace a ++ [ShowInfo "Success" "Data exported successfully!"]) a;
        disk :=
          <[file_path := CsvFile (csv_text (csv_rows patient_id a))]> files |}).
Proof.
  intros Hlaid patient_id file_path Hid Hpath.
  destruct (Hlaid Unaffected) as [Hu _], (Hlaid Affected) as [Ha _].
  cbn in Hu, Ha.
  unfold export_to_csv, try_except_files. fold patient_id. cbv zeta.
  destruct (PyStr.is_empty patient_id) eqn:E1.
  { apply is_empty_true in E1. contradiction. }
  fold file_path.
  destruct (PyStr.is_empty file_path) eqn:E2.
  { apply is_empty_true in E2. contradiction. }
  unfold mbind at 1, W_bind at 1. unfold open_w, on_disk. cbn [window disk].
  do 4 (unfold mbind at 1, W_bind at 1; rewrite writerow_open).
  unfold mbind at 1, W_bind at 1.
  rewrite write_movements_rows by (cbn; lia).
  do 3 (unfold mbind at 1, W_bind at 1; rewrite writerow_open).
  unfold mbind at 1, W_bind at 1.
  rewrite (write_roms_rows _ _ _ _ _ Hlaid).
  unfold on_window, showinfo, record, modify. cbn [window disk].
  do 2 f_equal. f_equal. f_equal.
  unfold csv_rows. rewrite !csv_text_app.
  cbn [csv_text app]. rewrite !string_app_assoc, ?string_app_nil_r.
  reflexivity.
Qed.

Lemma pdf_movements_rows a names : forall i,
  (i + length names <= length (unaffected_angle_entries a))%nat ->
  (i + length names <= length (affected_angle_entries a))%nat ->
  pdf_movements a i names = Ok (movement_rows a i names ≫= row_cells false).
Proof.
  induction names as [|movement rest IH]; intros i Hu Ha; [reflexivity|].
  cbn [length] in Hu, Ha.
  destruct (lookup_lt_is_Some_2 (unaffected_angle_entries a) i) as [u Eu];
    [lia|].
  destruct (lookup_lt_is_Some_2 (affected_angle_entries a) i) as [f Ef];
    [lia|].
  cbn [pdf_movements movement_rows]. unfold item. rewrite Eu, Ef.
  cbn [mbind Outcome_bind]. rewrite IH by lia. cbn [mbind Outcome_bind].
  rewrite (slot_text_item Unaffected i a u Eu),
          (slot_text_item Affected i a f Ef).
  reflexivity.
Qed.

Lemma pdf_report_laid_out patient_id current_date a :
  laid_out a ->
  pdf_report patient_id current_date a
  = Ok (pdf_ops patient_id current_date a).
Proof.
  intros Hlaid.
  destruct (Hlaid Unaffected) as [Hu _], (Hlaid Affected) as [Ha _].
  cbn in Hu, Ha.
  unfold pdf_report.
  rewrite pdf_movements_rows by (cbn; lia). cbn [mbind Outcome_bind].
  rewrite (calculate_rom_side_rom_of _ Hu), (calculate_rom_side_rom_of _ Ha).
  cbn [mbind Outcome_bind]. reflexivity.
Qed.

Lemma export_to_pdf_written patient_id_text asksaveasfilename current_date
    a files :
  laid_out a ->
  let patient_id := PyStr.strip patient_id_text in
  let file_path :=
    asksaveasfilename ".pdf" (patient_id +:+ "_DiagnosticTest.pdf") in
  patient_id <> "" -> file_path <> "" ->
  export_to_pdf patient_id_text asksaveasfilename current_date
    {| window := a; disk := files |}
  = (Ok tt,
     {| window :=
          set_trace
            (trace a ++ [ShowInfo "Success" "PDF exported successfully!"]) a;
        disk :=
          <[file_path := PdfFile (pdf_ops patient_id current_date a)]> files |}).
Proof.
  intros Hlaid patient_id file_path Hid Hpath.
  unfold export_to_pdf, try_except_files. fold patient_id. cbv zeta.
  destruct (PyStr.is_empty patient_id) eqn:E1.
  { apply is_empty_true in E1. contradiction. }
  fold file_path.
  destruct (PyStr.is_empty file_path) eqn:E2.
  { apply is_empty_true in E2. contradiction. }
  unfold mbind at 1, W_bind at 1.
  unfold on_window at 1, mbind at 1, M_bind at 1, gets at 1, lift at 1.
  cbn [window disk]. unfold id at 1.
  rewrite (pdf_report_laid_out _ _ _ Hlaid).
  reflexivity.
Qed.

(** Without an identifier an export shows its error and does nothing else,
    whatever the window holds. *)
Lemma export_to_csv_blank patient_id_text asksaveasfilename d :
  PyStr.strip patient_id_text = "" ->
  export_to_csv patient_id_text asksaveasfilename d
  = (Ok tt,
     {| window :=
          set_trace
            (trace (window d) ++ [ShowError "Error" "Please enter a patient ID!"])
            (window d);
        disk := disk d |}).
Proof.
  intros H. unfold export_to_csv, try_except_files. rewrite H. reflexivity.
Qed.

Lemma export_to_pdf_blank patient_id_text asksaveasfilename current_date d :
  PyStr.strip patient_id_text = "" ->
  export_to_pdf patient_id_text asksaveasfilename current_date d
  = (Ok tt,
     {| window :=
          set_trace
            (trace (window d) ++ [ShowError "Error" "Please enter a patient ID!"])
            (window d);
        disk := disk d |}).
Proof.
  intros H. unfold export_to_pdf, try_except_files. rewrite H. reflexivity.
Qed.

(** A cancelled dialog ends an export at once. *)
Lemma export_to_csv_cancelled patient_id_text asksaveasfilename d :
  PyStr.strip patient_id_text <> "" ->
  asksaveasfilename ".csv"
    (PyStr.strip patient_id_text +:+ "_DiagnosticTest.csv") = "" ->
  export_to_csv patient_id_text asksaveasfilename d = (Ok tt, d).
Proof.
  intros Hid Hpath. unfold export_to_csv, try_except_files. cbv zeta.
  destruct (PyStr.is_empty (PyStr.strip patient_id_text)) eqn:E1.
  { apply is_empty_true in E1. contradiction. }
  rewrite Hpath. reflexivity.
Qed.

Lemma export_to_pdf_cancelled patient_id_text asksaveasfilename current_date d :
  PyStr.strip patient_id_text <> "" ->
  asksaveasfilename ".pdf"
    (PyStr.strip patient_id_text +:+ "_DiagnosticTest.pdf") = "" ->
  export_to_pdf patient_id_text asksaveasfilename current_date d = (Ok tt, d).
Proof.
  intros Hid Hpath. unfold export_to_pdf, try_except_files. cbv zeta.
  destruct (PyStr.is_empty (PyStr.strip patient_id_text)) eqn:E1.
  { apply is_empty_true in E1. contradiction. }
  rewrite Hpath. reflexivity.
Qed.

Lemma string_eq_dec_empty (s : string) : s = "" \/ s <> "".
Proof. destruct s; [left; reflexivity|right; discriminate]. Qed.

(** On a well-formed window an export returns normally and leaves the
    window well formed. *)
Lemma export_to_csv_well_formed patient_id_text asksaveasfilename d :
  well_formed (window d) ->
  result_files (export_to_csv patient_id_text asksaveasfilename) d = Ok tt /\
  well_formed
    (window (exec_files (export_to_csv patient_id_text asksaveasfilename) d)).
Proof.
  intros Hwf. unfold result_files, exec_files.
  destruct (string_eq_dec_empty (PyStr.strip patient_id_text)) as [Hid|Hid].
  { rewrite export_to_csv_blank by exact Hid. split; [reflexivity|].
    apply well_formed_record; [exact Hwf|].
    apply expected_user_error. set_solver. }
  destruct (string_eq_dec_empty
              (asksaveasfilename ".csv"
                 (PyStr.strip patient_id_text +:+ "_DiagnosticTest.csv")))
    as [Hpath|Hpath].
  { rewrite export_to_csv_cancelled by assumption. split; [reflexivity|exact Hwf]. }
  destruct d as [a files]. cbn [window] in Hwf.
  rewrite (export_to_csv_written _ _ a files (wf_laid_out _ Hwf) Hid Hpath).
  split; [reflexivity|]. apply well_formed_record; [exact Hwf|exact I].
Qed.

Lemma export_to_pdf_well_formed patient_id_text asksaveasfilename current_date d :
  well_formed (window d) ->
  result_files (export_to_pdf patient_id_text asksaveasfilename current_date) d
  = Ok tt /\
  well_formed
    (window
       (exec_files
          (export_to_pdf patient_id_text asksaveasfilename current_date) d)).
Proof.
  intros Hwf. unfold result_files, exec_files.
  destruct (string_eq_dec_empty (PyStr.strip patient_id_text)) as [Hid|Hid].
  { rewrite export_to_pdf_blank by exact Hid. split; [reflexivity|].
    apply well_formed_record; [exact Hwf|].
    apply expected_user_error. set_solver. }
  destruct (string_eq_dec_empty
              (asksaveasfilename ".pdf"
                 (PyStr.strip patient_id_text +:+ "_DiagnosticTest.pdf")))
    as [Hpath|Hpath].
  { rewrite export_to_pdf_cancelled by assumption. split; [reflexivity|exact Hwf]. }
  destruct d as [a files]. cbn [window] in Hwf.
  rewrite (export_to_pdf_written _ _ _ a files (wf_laid_out _ Hwf) Hid Hpath).
  split; [reflexivity|]. apply well_formed_record; [exact Hwf|exact I].
Qed.

Lemma handle_export_run patient_id_text asksaveasfilename current_date d :
  well_formed (window d) ->
  handle_export patient_id_text asksaveasfilename current_date d
  = export_to_pdf patient_id_text asksaveasfilename current_date
      (exec_files (export_to_csv patient_id_text asksaveasfilename) d).
Proof.
  intros Hwf.
  destruct (export_to_csv_well_formed patient_id_text asksaveasfilename d Hwf)
    as [Hres _].
  unfold handle_export, mbind, W_bind, result_files, exec_files in *.
  destruct (export_to_csv patient_id_text asksaveasfilename d) as [r d'].
  cbn in Hres. rewrite Hres. reflexivity.
Qed.

(* ===================================================================== *)
(** * Every handler keeps the window well formed *)
(* ===================================================================== *)

Lemma on_window_run {A} (m : M A) d :
  on_window m d
  = (result m (window d), {| window := exec m (window d); disk := disk d |}).
Proof.
  unfold on_window, result, exec. destruct (m (window d)). reflexivity.
Qed.

Lemma read_serial_live_result now st :
  serial_read_start_time st <> None -> result (read_serial_live now) st = Ok tt.
Proof.
  intros Hstart. unfold result.
  destruct (serial_read_start_time st) as [start|] eqn:Es; [|congruence].
  destruct (open_port st) as [port|] eqn:Hport.
  - rewrite (read_serial_live_open now port start) by assumption.
    destruct (window_elapsed now start (serial_read_duration st));
      [|reflexivity].
    destruct (serial_read_mode st); [|reflexivity].
    apply process_final_result.
  - rewrite read_serial_live_closed by exact Hport. reflexivity.
Qed.

Lemma fire_timer_result now st :
  well_formed st -> result (fire_timer now) st = Ok tt.
Proof.
  intros Hwf. unfold fire_timer, result.
  unfold mbind, M_bind, mret, M_ret, gets, modify.
  destruct (after_queue st) as [|[ms []] rest] eqn:Hq; [reflexivity|].
  apply (read_serial_live_result now (set_after_queue rest st)).
  intros H. apply (wf_timer _ Hwf) in H. congruence.
Qed.

Lemma connect_bluetooth_result selected_port opened st :
  result (connect_bluetooth selected_port opened) st = Ok tt.
Proof.
  unfold result, connect_bluetooth.
  destruct (PyStr.is_empty selected_port); [reflexivity|].
  destruct opened; reflexivity.
Qed.

Lemma press_movement_button_result idx side st :
  result (press_movement_button idx side) st = Ok tt.
Proof.
  unfold result, press_movement_button.
  destruct (movements !! idx) as [[movement letter]|]; reflexivity.
Qed.

Lemma handle_well_formed ev d :
  well_formed (window d) ->
  result_files (handle ev) d = Ok tt /\
  well_formed (window (exec_files (handle ev) d)).
Proof.
  intros Hwf. unfold result_files, exec_files.
  destruct ev; cbn [handle]; rewrite ?on_window_run; cbn [fst snd window].
  - split; [apply connect_bluetooth_result|].
    apply connect_bluetooth_well_formed, Hwf.
  - split; [apply press_movement_button_result|].
    apply press_movement_button_well_formed, Hwf.
  - split; [apply start_measurement_result|].
    apply start_measurement_well_formed, Hwf.
  - split; [apply try_except_result|]. apply redo_well_formed, Hwf.
  - split; [apply try_except_result|]. apply calibrate_well_formed, Hwf.
  - split; [apply try_except_result|]. apply clear_all_well_formed, Hwf.
  - rewrite handle_export_run by exact Hwf.
    apply export_to_pdf_well_formed.
    apply export_to_csv_well_formed, Hwf.
  - split; [apply fire_timer_result, Hwf|]. apply fire_timer_well_formed, Hwf.
  - split; [reflexivity|]. apply device_sends_well_formed, Hwf.
Qed.

Lemma run_well_formed events : forall d,
  well_formed (window d) -> well_formed (window (run events d)).
Proof.
  induction events as [|ev events IH]; intros d Hwf; [exact Hwf|].
  cbn [run foldl]. apply IH. apply handle_well_formed, Hwf.
Qed.

Lemma reachable_well_formed events files :
  well_formed (window (run events {| window := new_app; disk := files |})).
Proof. apply run_well_formed. exact well_formed_new_app. Qed.

(* ===================================================================== *)
(** * The final scan over what the read loop stored *)
(* ===================================================================== *)

Lemma scan_lines_app lines1 lines2 :
  scan_lines (lines1 ++ lines2) =
  match scan_lines lines1 with
  | Ok None => scan_lines lines2
  | r => r
  end.
Proof.
  induction lines1 as [|line lines1 IH]; [reflexivity|].
  cbn [app scan_lines].
  destruct (PyStr.contains marker line); [|exact IH].
  destruct (angle_of_line line) as [v|e] eqn:E; [reflexivity|].
  cbn. rewrite (angle_of_line_raises _ _ E). exact IH.
Qed.

Module PyStrFacts.
Import PyStr.

Notation lf := (ascii_of_nat 10).

Lemma app_cons c s t : String c s +:+ t = String c (s +:+ t).
Proof. reflexivity. Qed.

Lemma contains_newline_cons c s :
  contains newline (String c s) = Ascii.eqb lf c || contains newline s.
Proof.
  cbn [contains]. unfold newline at 1. cbn [startswith].
  destruct (Ascii.eqb lf c); reflexivity.
Qed.

Lemma split_go_line cur line rest :
  contains newline line = false ->
  split_go newline 0 cur (line +:+ rest)
  = split_go newline 0 (cur +:+ line) rest.
Proof.
  revert cur. induction line as [|c line IH]; intros cur H.
  - rewrite string_app_nil_r. reflexivity.
  - rewrite contains_newline_cons in H. apply orb_false_elim in H as [Hc H].
    rewrite app_cons. cbn [split_go]. unfold newline at 1. cbn [startswith].
    rewrite Hc. rewrite (IH _ H).
    rewrite string_app_assoc. reflexivity.
Qed.

Lemma split_line line :
  contains newline line = false -> split newline line = [line].
Proof.
  intros H. unfold split.
  rewrite <- (string_app_nil_r line) at 1. rewrite (split_go_line _ _ _ H).
  reflexivity.
Qed.

Lemma split_line_cons line rest :
  contains newline line = false ->
  split newline (line +:+ String lf rest) = line :: split newline rest.
Proof.
  intros H. unfold split. rewrite (split_go_line _ _ _ H).
  cbn [split_go]. unfold newline at 1. cbn [startswith].
  rewrite Ascii.eqb_refl. reflexivity.
Qed.

Section Strip.
Variable ws : ascii -> bool.

Lemma rstrip_with_app s t :
  rstrip_with ws (s +:+ t) =
  if is_empty (rstrip_with ws t) then rstrip_with ws s
  else s +:+ rstrip_with ws t.
Proof.
  induction s as [|c s IH].
  - change ("" +:+ t) with t.
    destruct (rstrip_with ws t) eqn:E; reflexivity.
  - rewrite app_cons. cbn [rstrip_with]. rewrite IH.
    destruct (rstrip_with ws t) as [|d r] eqn:E; cbn [is_empty].
    + reflexivity.
    + assert (H : is_empty (s +:+ String d r) = false)
        by (destruct s; reflexivity).
      rewrite H, andb_false_r. reflexivity.
Qed.

Lemma rstrip_with_idempotent s :
  rstrip_with ws (rstrip_with ws s) = rstrip_with ws s.
Proof.
  induction s as [|c s IH]; [reflexivity|].
  cbn [rstrip_with].
  destruct (ws c && is_empty (rstrip_with ws s)) eqn:E; [reflexivity|].
  cbn [rstrip_with]. rewrite IH, E. reflexivity.
Qed.

Lemma lstrip_with_no_lead s : no_lead ws (lstrip_with ws s).
Proof.
  induction s as [|c s IH]; [exact I|].
  cbn [lstrip_with]. destruct (ws c) eqn:E; [exact IH|exact E].
Qed.

Lemma rstrip_with_no_lead s : no_lead ws s -> no_lead ws (rstrip_with ws s).
Proof.
  destruct s as [|c s]; [auto|]. cbn [rstrip_with no_lead]. intros H.
  destruct (ws c && is_empty (rstrip_with ws s)); [exact I|exact H].
Qed.

End Strip.

Lemma lstrip_one_line s :
  one_line s = true -> one_line (lstrip_with is_space s) = true.
Proof.
  induction s as [|c s IH]; [reflexivity|]. intros H.
  cbn [lstrip_with]. destruct (is_space c); [|exact H].
  cbn [one_line] in H.
  destruct (Ascii.eqb c lf).
  - apply is_empty_true in H. subst s. reflexivity.
  - apply IH, H.
Qed.

Lemma rstrip_one_line s :
  one_line s = true -> contains newline (rstrip_with is_space s) = false.
Proof.
  induction s as [|c s IH]; [reflexivity|]. intros H.
  cbn [one_line] in H. cbn [rstrip_with].
  destruct (Ascii.eqb c lf) eqn:Ec.
  - apply is_empty_true in H. subst s. apply Ascii.eqb_eq in Ec. subst c.
    reflexivity.
  - specialize (IH H).
    destruct (is_space c && is_empty (rstrip_with is_space s)); [reflexivity|].
    rewrite contains_newline_cons, IH, Ascii.eqb_sym, Ec. reflexivity.
Qed.

Lemma strip_clean chunk : one_line chunk = true -> clean (strip chunk).
Proof.
  intros H. unfold strip, strip_with. split.
  - apply rstrip_with_no_lead, lstrip_with_no_lead.
  - apply rstrip_with_idempotent.
  - apply rstrip_one_line, lstrip_one_line, H.
Qed.

End PyStrFacts.

Lemma received_cons chunk rest :
  received (chunk :: rest)
  = PyStr.strip chunk +:+ String (ascii_of_nat 10) (received rest).
Proof.
  cbn [received]. unfold PyStr.newline. rewrite string_app_assoc. reflexivity.
Qed.

Lemma received_app chunks1 chunks2 :
  received (chunks1 ++ chunks2) = received chunks1 +:+ received chunks2.
Proof.
  induction chunks1 as [|chunk rest IH]; [reflexivity|].
  cbn [app received]. rewrite IH, !string_app_assoc. reflexivity.
Qed.

Lemma scan_lines_snoc lines line :
  scan_lines (reverse (line :: lines)) =
  match scan_lines (reverse lines) with
  | Ok None => scan_lines [line]
  | r => r
  end.
Proof. rewrite reverse_cons. apply scan_lines_app. Qed.

(** Blank lines at the end of the buffer do not count. *)
Lemma scan_rstrip_received chunks :
  Forall (fun chunk => one_line chunk = true) chunks ->
  scan_lines
    (reverse (PyStr.split PyStr.newline
                (PyStr.rstrip_with PyStr.is_space (received chunks))))
  = scan_lines (reverse (PyStr.strip <$> chunks)).
Proof.
  induction 1 as [|chunk rest Hchunk _ IH]; [reflexivity|].
  destruct (PyStrFacts.strip_clean chunk Hchunk) as [_ Htrail Hline].
  rewrite received_cons, fmap_cons, scan_lines_snoc, <- IH.
  rewrite PyStrFacts.rstrip_with_app. cbn [PyStr.rstrip_with].
  change (PyStr.is_space (ascii_of_nat 10)) with true. cbn [andb].
  destruct (PyStr.rstrip_with PyStr.is_space (received rest)) as [|d r] eqn:E.
  - cbn [PyStr.is_empty]. rewrite Htrail.
    rewrite (PyStrFacts.split_line _ Hline). reflexivity.
  - cbn [PyStr.is_empty].
    rewrite (PyStrFacts.split_line_cons _ _ Hline).
    apply scan_lines_snoc.
Qed.

(** Nor do blank lines at its beginning. *)
Lemma scan_lstrip_received chunks :
  Forall (fun chunk => one_line chunk = true) chunks ->
  exists chunks',
    PyStr.lstrip_with PyStr.is_space (received chunks) = received chunks' /\
    Forall (fun chunk => one_line chunk = true) chunks' /\
    scan_lines (reverse (PyStr.strip <$> chunks'))
    = scan_lines (reverse (PyStr.strip <$> chunks)).
Proof.
  induction 1 as [|chunk rest Hchunk Hrest IH].
  - exists []. repeat split. constructor.
  - destruct (PyStrFacts.strip_clean chunk Hchunk) as [Hlead _ _].
    destruct (PyStr.strip chunk) as [|a line] eqn:E.
    + destruct IH as (chunks' & Heq & Hall & Hscan).
      exists chunks'. split; [|split; [exact Hall|]].
      * rewrite received_cons, E. exact Heq.
      * rewrite fmap_cons, scan_lines_snoc, E, Hscan.
        destruct (scan_lines (reverse (PyStr.strip <$> rest))) as [[v|]|e];
          reflexivity.
    + exists (chunk :: rest). split; [|split; [constructor; assumption|reflexivity]].
      rewrite received_cons, E. cbn in Hlead.
      rewrite PyStrFacts.app_cons. cbn [PyStr.lstrip_with]. rewrite Hlead.
      reflexivity.
Qed.

(** The final scan over what the read loop stored goes, from the last to the
    first, through the stripped lines the device sent. *)
Lemma parse_final_received chunks :
  Forall (fun chunk => one_line chunk = true) chunks ->
  parse_final (received chunks) = scan_lines (reverse (PyStr.strip <$> chunks)).
Proof.
  intros H. unfold parse_final, PyStr.strip at 1, PyStr.strip_with.
  destruct (scan_lstrip_received chunks H) as (chunks' & -> & Hall & <-).
  apply scan_rstrip_received, Hall.
Qed.

(* ===================================================================== *)
(** * A whole measurement *)
(* ===================================================================== *)

Lemma open_port_ser st port : open_port st = Some port -> ser st = Some port.
Proof.
  unfold open_port. destruct (ser st) as [p|]; [|discriminate].
  destruct (is_open p); [|discriminate]. intros [= <-]. reflexivity.
Qed.

Lemma after_chunk_box port rest chunk st :
  box_text (serial_output_box (after_chunk port rest chunk st))
  = box_text (serial_output_box st) +:+ (PyStr.strip chunk +:+ PyStr.newline).
Proof.
  unfold after_chunk. destruct (parse_live (PyStr.strip chunk)); reflexivity.
Qed.

Lemma read_lines_box port chunks : forall st,
  box_text (serial_output_box (exec (read_lines port chunks) st))
  = box_text (serial_output_box st) +:+ received chunks.
Proof.
  induction chunks as [|chunk rest IH]; intros st.
  - cbn. rewrite string_app_nil_r. reflexivity.
  - unfold exec. rewrite read_lines_cons. fold (exec (read_lines port rest)
      (after_chunk port rest chunk st)).
    rewrite IH, after_chunk_box. cbn [received].
    rewrite string_app_assoc. reflexivity.
Qed.

Lemma polled_ser port st :
  ser (polled port st)
  = match in_buffer port with
    | [] => ser st
    | _ :: _ => Some (set_in_buffer [] port)
    end.
Proof.
  unfold polled, exec.
  destruct (read_lines_spec port (in_buffer port) st)
    as (st' & Hrun & _ & _ & _ & H).
  rewrite Hrun. exact H.
Qed.

(** The state a started measurement is in before its first tick. *)
Lemma start_measurement_reading st port letter i side started now :
  open_port st = Some port ->
  movement_letter st = Some letter ->
  selected_movement st = Some i ->
  selected_side st = Some side ->
  after_queue st = [] ->
  window_elapsed now started (serial_read_duration st) = false ->
  reading st started [] [] (exec (start_measurement started now) st).
Proof.
  intros Hport Hletter Hidx Hside Hqueue Hnot. unfold exec.
  rewrite (start_measurement_open port letter i side) by assumption.
  rewrite (read_serial_live_armed port letter Measurement started now st
             (open_port_is_open _ _ Hport)).
  cbv zeta. rewrite Hnot, Hqueue. cbn [snd app].
  split; try reflexivity.
  - exists (write letter (reset_input_buffer port)). split; [|reflexivity].
    unfold open_port. cbn. rewrite (open_port_is_open _ _ Hport). reflexivity.
Qed.

(** What a tick of a measurement under way reads, and what it then does. *)
Lemma reading_tick st0 started acc shown st chunks now :
  reading st0 started acc shown st ->
  exists stp,
    fire_timer now (device_sends chunks st) =
    (if window_elapsed now started (serial_read_duration st0)
     then process_final_serial_data stp
     else (Ok tt, set_after_queue [(50, ReadSerialLive)] stp)) /\
    (exists port, open_port stp = Some port /\ in_buffer port = []) /\
    serial_read_start_time stp = Some started /\
    serial_read_duration stp = serial_read_duration st0 /\
    serial_read_mode stp = Measurement /\
    after_queue stp = [] /\
    serial_full_response stp = received (acc ++ chunks) /\
    box_text (serial_output_box stp) = received (shown ++ chunks) /\
    movement_letter stp = movement_letter st0 /\
    selected_movement stp = selected_movement st0 /\
    selected_side stp = selected_side st0 /\
    (forall side, angle_entries side stp = angle_entries side st0) /\
    (forall side, rom_canvases side stp = rom_canvases side st0) /\
    trace stp = trace st ++ live_calls chunks.
Proof.
  intros [(port & Hport & Hbuf) Hstart Hdur Hmode Hqueue Hresp Hbox
          Hletter Hidx Hside Hentries Hcanvases].
  pose proof (open_port_ser _ _ Hport) as Hser.
  pose proof (open_port_is_open _ _ Hport) as Hopen.
  set (port' := set_in_buffer chunks port).
  set (st1 := set_after_queue [] (set_ser (Some port') st)).
  assert (Hsends : device_sends chunks st = set_ser (Some port') st).
  { unfold device_sends. rewrite Hser, Hbuf. reflexivity. }
  assert (Hport1 : open_port st1 = Some port').
  { unfold open_port, st1. cbn. rewrite Hopen. reflexivity. }
  pose proof (polled_same_session port' st1) as Hsame.
  exists (polled port' st1).
  split; [|split; [|split; [|split; [|split; [|split; [|split; [|split;
    [|split; [|split; [|split; [|split; [|split]]]]]]]]]]]].
  - rewrite Hsends. unfold fire_timer.
    unfold mbind, M_bind, mret, M_ret, gets, modify.
    change (after_queue (set_ser (Some port') st)) with (after_queue st).
    rewrite Hqueue. fold st1.
    rewrite (read_serial_live_open now port' started st1 Hport1 Hstart).
    change (serial_read_duration st1) with (serial_read_duration st).
    change (serial_read_mode st1) with (serial_read_mode st).
    rewrite Hdur, Hmode. reflexivity.
  - assert (Hser' : exists p, ser (polled port' st1) = Some p /\
                               is_open p = true /\ in_buffer p = []).
    { rewrite polled_ser. subst st1 port'. destruct chunks as [|chunk rest].
      - exists (set_in_buffer [] port). repeat split. exact Hopen.
      - exists (set_in_buffer [] (set_in_buffer (chunk :: rest) port)).
        repeat split. exact Hopen. }
    destruct Hser' as (p & Hp & Hopen' & Hbuf').
    exists p. split; [|exact Hbuf'].
    unfold open_port. rewrite Hp, Hopen'. reflexivity.
  - rewrite (same_start_time _ _ Hsame). exact Hstart.
  - rewrite (same_duration _ _ Hsame). exact Hdur.
  - rewrite (same_mode _ _ Hsame). exact Hmode.
  - rewrite (same_after_queue _ _ Hsame). reflexivity.
  - rewrite polled_response. change (serial_full_response st1)
      with (serial_full_response st).
    rewrite Hresp, received_app. reflexivity.
  - unfold polled. rewrite read_lines_box.
    change (box_text (serial_output_box st1))
      with (box_text (serial_output_box st)).
    rewrite Hbox, received_app. reflexivity.
  - rewrite (same_movement_letter _ _ Hsame). exact Hletter.
  - rewrite (same_selected_movement _ _ Hsame). exact Hidx.
  - rewrite (same_selected_side _ _ Hsame). exact Hside.
  - intros side. rewrite (same_entries _ _ Hsame side). revert side.
    by_side Hentries.
  - intros side. rewrite (same_canvases _ _ Hsame side). revert side.
    by_side Hcanvases.
  - rewrite polled_trace. reflexivity.
Qed.

Lemma reading_step st0 started acc shown st chunks now :
  reading st0 started acc shown st ->
  window_elapsed now started (serial_read_duration st0) = false ->
  reading st0 started (acc ++ chunks) (shown ++ chunks)
    (exec (fire_timer now) (device_sends chunks st)).
Proof.
  intros Hreading Hnot.
  destruct (reading_tick st0 started acc shown st chunks now Hreading)
    as (stp & Hrun & Hport & Hstart & Hdur & Hmode & Hqueue & Hresp & Hbox
        & Hletter & Hidx & Hside & Hentries & Hcanvases & _).
  unfold exec. rewrite Hrun, Hnot. cbn [snd].
  split; first [assumption | reflexivity].
Qed.

Lemma poll_reading st0 started batches : forall acc shown st,
  reading st0 started acc shown st ->
  Forall (fun batch : list string * float =>
            window_elapsed batch.2 started (serial_read_duration st0) = false)
         batches ->
  reading st0 started (acc ++ chunks_of batches) (shown ++ chunks_of batches)
    (poll batches st).
Proof.
  induction batches as [|[chunks now] batches IH];
    intros acc shown st Hreading Hnot.
  - unfold chunks_of. cbn. rewrite !app_nil_r. exact Hreading.
  - apply Forall_cons in Hnot as [Hnow Hnot]. cbn [poll].
    unfold chunks_of. cbn [fmap list_fmap mjoin list_join fst].
    rewrite !app_assoc. apply IH; [|exact Hnot].
    apply reading_step; assumption.
Qed.

(** The tick that sees the window elapsed: the final processing runs on the
    buffer of the whole read. *)
Lemma reading_deadline st0 started acc shown st chunks now :
  reading st0 started acc shown st ->
  window_elapsed now started (serial_read_duration st0) = true ->
  exists stp,
    fire_timer now (device_sends chunks st) = process_final_serial_data stp /\
    serial_full_response stp = received (acc ++ chunks) /\
    box_text (serial_output_box stp) = received (shown ++ chunks) /\
    after_queue stp = [] /\
    selected_movement stp = selected_movement st0 /\
    selected_side stp = selected_side st0 /\
    (forall side, angle_entries side stp = angle_entries side st0) /\
    (forall side, rom_canvases side stp = rom_canvases side st0) /\
    trace stp = trace st ++ live_calls chunks.
Proof.
  intros Hreading Helapsed.
  destruct (reading_tick st0 started acc shown st chunks now Hreading)
    as (stp & Hrun & Hport & Hstart & Hdur & Hmode & Hqueue & Hresp & Hbox
        & Hletter & Hidx & Hside & Hentries & Hcanvases & Htrace).
  exists stp. rewrite Hrun, Helapsed. auto 12.
Qed.

Lemma laid_out_same st st' :
  (forall side, angle_entries side st' = angle_entries side st) ->
  (forall side, rom_canvases side st' = rom_canvases side st) ->
  laid_out st -> laid_out st'.
Proof.
  intros He Hc Hl side. rewrite He, Hc. apply Hl.
Qed.

(** A whole measurement, up to the tick that sees the window elapsed: the
    final processing runs on the buffer of everything read. *)
Lemma session_deadline st port letter i side started now0 now batches chunks :
  open_port st = Some port ->
  movement_letter st = Some letter ->
  selected_movement st = Some i ->
  selected_side st = Some side ->
  after_queue st = [] ->
  window_elapsed now0 started (serial_read_duration st) = false ->
  Forall (fun batch : list string * float =>
            window_elapsed batch.2 started (serial_read_duration st) = false)
         batches ->
  window_elapsed now started (serial_read_duration st) = true ->
  exists stp,
    fire_timer now
      (device_sends chunks
         (poll batches (exec (start_measurement started now0) st)))
    = process_final_serial_data stp /\
    serial_full_response stp = received (chunks_of batches ++ chunks) /\
    box_text (serial_output_box stp) = received (chunks_of batches ++ chunks) /\
    after_queue stp = [] /\
    selected_movement stp = Some i /\
    selected_side stp = Some side /\
    (forall side, angle_entries side stp = angle_entries side st) /\
    (forall side, rom_canvases side stp = rom_canvases side st).
Proof.
  intros Hport Hletter Hidx Hside Hqueue Hnot0 Hnot Helapsed.
  pose proof (start_measurement_reading st port letter i side started now0
                Hport Hletter Hidx Hside Hqueue Hnot0) as Hreading.
  apply (poll_reading st started batches) in Hreading; [|exact Hnot].
  cbn [app] in Hreading.
  destruct (reading_deadline st started _ _ _ chunks now Hreading Helapsed)
    as (stp & Hrun & Hresp & Hbox & Hq & Hidx' & Hside' & Hentries & Hcanvases
        & Htrace).
  exists stp. rewrite Hidx', Hside'. auto 10.
Qed.

(* ===================================================================== *)
(** * Properties of every reachable window *)
(* ===================================================================== *)

(** X1. Whatever the user, the device and the timer do, the window keeps
    the layout [setup_ui] gave it: eight entries and four ROM gauges on each
    side. So the indices of [calculate_rom_side] are never out of range: on
    either side it returns the ROM of the eight entries. *)
Theorem layout_is_kept (events : list Event) :
  let st := window (run events new_desk) in
  forall side : Side,
    length (angle_entries side st) = 8%nat /\
    length (rom_canvases side st) = 4%nat /\
    calculate_rom_side (angle_entries side st)
    = Ok (rom_of (angle_entries side st)).
Proof.
  intros st side.
  pose proof (wf_laid_out _ (reachable_well_formed events ∅) side) as [He Hc].
  split; [exact He|]. split; [exact Hc|].
  apply calculate_rom_side_rom_of. exact He.
Qed.

(** X2. Every handler that makes an entry or the serial monitor writable
    locks it again before it returns: in every reachable window all sixteen
    entries are read-only and the monitor is disabled. *)
Theorem widgets_stay_locked (events : list Event) :
  let st := window (run events new_desk) in
  (forall side : Side,
     Forall (fun entry => entry_state entry = Readonly) (angle_entries side st))
  /\ box_normal (serial_output_box st) = false.
Proof.
  intros st.
  pose proof (reachable_well_formed events ∅) as Hwf. split.
  - intros side. eapply Forall_impl; [exact (wf_rendered _ Hwf side)|].
    intros entry [H _]. exact H.
  - exact (wf_monitor _ Hwf).
Qed.

(** X3. The three attributes of the selection go together: in every
    reachable window either no letter, no movement and no side is selected,
    or all three are, the movement being one of the eight of the sidebar and
    the letter the one the sidebar gives to it. *)
Theorem selection_is_consistent (events : list Event) :
  let st := window (run events new_desk) in
  (movement_letter st = None /\ selected_movement st = None /\
   selected_side st = None) \/
  (exists (i : nat) (name letter : string) (side : Side),
     movements !! i = Some (name, letter) /\ (i < 8)%nat /\
     movement_letter st = Some letter /\ selected_movement st = Some i /\
     selected_side st = Some side).
Proof.
  intros st.
  pose proof (wf_selection _ (reachable_well_formed events ∅)) as H.
  change (selection_ok st) in H. unfold selection_ok in H.
  destruct (movement_letter st) as [letter|], (selected_movement st) as [i|],
           (selected_side st) as [side|]; try contradiction.
  - destruct H as [name H]. right. exists i, name, letter, side.
    split; [exact H|]. split; [exact (movements_index _ _ _ H)|]. auto.
  - left. auto.
Qed.

(** X4. As long as the toolkit, the serial port and the file system do what
    they are asked, no handler fails: from every reachable desk each handler
    returns normally, and every message box shown so far is a success
    message, the report of a refused connection, or one of the six errors
    the handlers raise on purpose after a check ([user_errors]); the
    [except Exception] clauses, whose messages end in [error:] and the text
    of the exception, are never reached. *)
Theorem no_handler_fails (events : list Event) :
  let d := run events new_desk in
  (forall ev : Event, result_files (handle ev) d = Ok tt) /\
  Forall expected (trace (window d)).
Proof.
  intros d. pose proof (reachable_well_formed events ∅) as Hwf. split.
  - intros ev. apply handle_well_formed, Hwf.
  - exact (wf_trace _ Hwf).
Qed.

(** X5. An entry only ever holds what [clear_all_measurements] or the final
    processing put there: in every reachable window each entry is empty, and
    then counts as an unset slot, or holds the [.1f] rendering of a float,
    and then reads back as that float rounded to tenths; [safe_float] falls
    back on 0.0 for the empty entries only. *)
Theorem slots_hold_renderings (events : list Event) :
  let st := window (run events new_desk) in
  forall side : Side,
    Forall (fun entry =>
              (entry_get entry = "" /\ slot entry = None /\
               safe_float (entry_get entry) = Ok PyFloat.zero) \/
              (exists v : float,
                 entry_get entry = PyFloat.format_1f v /\
                 slot entry = Some (PyFloat.round_1f v) /\
                 safe_float (entry_get entry) = Ok (PyFloat.round_1f v)))
           (angle_entries side st).
Proof.
  intros st side.
  eapply Forall_impl;
    [exact (wf_rendered _ (reachable_well_formed events ∅) side)|].
  intros entry [_ [H | [v H]]]; unfold slot, entry_get; rewrite H.
  - left. repeat split.
  - right. exists v. rewrite safe_float_default.
    rewrite PyFloatFacts.of_string_format_1f. repeat split.
Qed.

(* ===================================================================== *)
(** * Properties of a whole measurement *)
(* ===================================================================== *)

(** X6. The read loop adds each line it reads, stripped and followed by a
    line feed, to the buffer; the final scan over that buffer is the scan,
    from the last to the first, over the stripped lines themselves: the
    strip of the whole buffer and the blank lines change nothing. So the
    value a read ends with is the one of the last line received that holds
    a valid [ANGLE:] value, and there is none exactly when no line received
    holds one. Each chunk is what one [readline] returns, a text with no
    line feed but possibly at its end. *)
Theorem final_scan_reads_device_lines (chunks : list string) :
  Forall (fun chunk => one_line chunk = true) chunks ->
  (forall port (st : App),
     in_buffer port = chunks ->
     serial_full_response (exec (read_lines port (in_buffer port)) st)
     = serial_full_response st +:+ received chunks) /\
  parse_final (received chunks)
  = scan_lines (reverse (PyStr.strip <$> chunks)) /\
  (forall before chunk after v,
     chunks = before ++ chunk :: after ->
     valid_angle_line (PyStr.strip chunk) v ->
     Forall no_valid_angle (PyStr.strip <$> after) ->
     parse_final (received chunks) = Ok (Some v)) /\
  (Forall no_valid_angle (PyStr.strip <$> chunks) ->
   parse_final (received chunks) = Ok None).
Proof.
  intros Hlines.
  split; [intros port st <-; apply polled_response|].
  split; [apply parse_final_received, Hlines|].
  split.
  - intros before chunk after v -> Hvalid Hafter.
    rewrite (parse_final_received _ Hlines).
    rewrite fmap_app, fmap_cons, reverse_app, reverse_cons, <- app_assoc.
    apply scan_lines_found; [|exact Hvalid].
    apply Forall_reverse. exact Hafter.
  - intros Hnone. rewrite (parse_final_received _ Hlines).
    apply scan_lines_none, Forall_reverse, Hnone.
Qed.

(** X6, witness: a read of [noise], a blank line, [ANGLE:12.0], [ANGLE:abc]
    and a line of spaces ends with 12.0. *)
Lemma final_scan_reads_device_lines_witness :
  let chunks :=
    [ sent "noise"; sent ""; sent "ANGLE:12.0"; sent "ANGLE:abc"; sent "  " ] in
  Forall (fun chunk => one_line chunk = true) chunks /\
  parse_final (received chunks) = Ok (Some (PyFloat.of_Z 12)).
Proof.
  assert (H : Forall (fun chunk => one_line chunk = true)
                [ sent "noise"; sent ""; sent "ANGLE:12.0"; sent "ANGLE:abc";
                  sent "  " ]) by (repeat constructor).
  split; [exact H|].
  rewrite (proj1 (proj2 (final_scan_reads_device_lines _ H))).
  vm_compute. reflexivity.
Defined.

(** X7. A whole measurement. On a connected, laid-out window with a movement
    selected and no tick pending, [start_measurement] followed by any number
    of ticks inside the read window, each reading what the device sent in
    the meantime, and by the tick that sees the window elapsed, stores the
    rendering of the value of the last line received, over the whole read,
    that holds a valid [ANGLE:] value: it goes to the selected slot, every
    other slot is as before the start, no tick is left pending, and the last
    call to the display is the live update with that value. *)
Theorem measurement_stores_last_valid_line
    (st : App) (port : Serial) (letter : string) (i : nat) (side : Side)
    (started now0 now : float) (batches : list (list string * float))
    (chunks before : list string) (chunk : string) (after : list string)
    (v : float) :
  open_port st = Some port ->
  movement_letter st = Some letter ->
  selected_movement st = Some i ->
  selected_side st = Some side ->
  laid_out st -> (i < 8)%nat ->
  after_queue st = [] ->
  window_elapsed now0 started (serial_read_duration st) = false ->
  Forall (fun batch : list string * float =>
            window_elapsed batch.2 started (serial_read_duration st) = false)
         batches ->
  window_elapsed now started (serial_read_duration st) = true ->
  Forall (fun chunk => one_line chunk = true) (chunks_of batches ++ chunks) ->
  chunks_of batches ++ chunks = before ++ chunk :: after ->
  valid_angle_line (PyStr.strip chunk) v ->
  Forall no_valid_angle (PyStr.strip <$> after) ->
  let st' :=
    exec (fire_timer now)
      (device_sends chunks
         (poll batches (exec (start_measurement started now0) st))) in
  angle_entries side st' !! i = Some (stored_entry v) /\
  (forall sd j, (sd, j) <> (side, i) ->
     angle_entries sd st' !! j = angle_entries sd st !! j) /\
  after_queue st' = [] /\
  serial_full_response st' = received (chunks_of batches ++ chunks) /\
  last (trace st') = Some (LiveAngle v).
Proof.
  intros Hport Hletter Hidx Hside Hlaid Hi Hqueue Hnot0 Hnot Helapsed Hlines
         Hsplit Hvalid Hafter st'.
  destruct (session_deadline st port letter i side started now0 now batches
              chunks Hport Hletter Hidx Hside Hqueue Hnot0 Hnot Helapsed)
    as (stp & Hrun & Hresp & Hbox & Hq & Hidx' & Hside' & Hentries & Hcanvases).
  assert (Hparse : parse_final (serial_full_response stp) = Ok (Some v)).
  { rewrite Hresp, (parse_final_received _ Hlines), Hsplit.
    rewrite fmap_app, fmap_cons, reverse_app, reverse_cons, <- app_assoc.
    apply scan_lines_found; [|exact Hvalid].
    apply Forall_reverse. exact Hafter. }
  pose proof (laid_out_same st stp Hentries Hcanvases Hlaid) as Hlaid'.
  assert (Hst' : st' = show_live v (show_roms (store_angle side i v stp))).
  { unfold st'. unfold exec at 1. rewrite Hrun.
    rewrite (process_final_stores stp v side i Hparse Hside' Hidx' Hlaid' Hi).
    reflexivity. }
  assert (Hin : forall sd,
    angle_entries sd st' = angle_entries sd (store_angle side i v stp)).
  { intros []; rewrite Hst'; reflexivity. }
  destruct (Hlaid' Unaffected) as [Hu _], (Hlaid' Affected) as [Ha _].
  cbn in Hu, Ha.
  split.
  { rewrite Hin. unfold store_angle.
    destruct side; cbn; apply list_lookup_insert_eq; lia. }
  split.
  { intros sd j Hne. rewrite Hin, <- Hentries. unfold store_angle.
    destruct side, sd; cbn; try reflexivity;
      apply list_lookup_insert_ne; intros ->; apply Hne; reflexivity. }
  split; [rewrite Hst'; destruct side; exact Hq|].
  split; [rewrite Hst'; destruct side; exact Hresp|].
  rewrite Hst'. unfold show_live. cbn [trace set_trace]. apply last_snoc.
Qed.

(** X7, witness: Wrist Flexion on the unaffected side, started at second
    1000; a tick at second 1003 reads [12.5] and [ANGLE:41.0], the tick at
    second 1007 reads [ANGLE:42.35] and [done]: the slot holds [42.4]. *)
Lemma measurement_stores_last_valid_line_witness :
  let st := exec (press_movement_button 0 Unaffected) connected_app in
  let batches := [([sent "12.5"; sent "ANGLE:41.0"], PyFloat.of_Z 1003)] in
  let chunks := [sent "ANGLE:42.35"; sent "done"] in
  let st' :=
    exec (fire_timer (PyFloat.of_Z 1007))
      (device_sends chunks
         (poll batches
            (exec (start_measurement (PyFloat.of_Z 1000) (PyFloat.of_Z 1000))
               st))) in
  window_elapsed (PyFloat.of_Z 1003) (PyFloat.of_Z 1000)
    (serial_read_duration st) = false /\
  window_elapsed (PyFloat.of_Z 1007) (PyFloat.of_Z 1000)
    (serial_read_duration st) = true /\
  valid_angle_line (PyStr.strip (sent "ANGLE:42.35")) (number "42.35") /\
  angle_entries Unaffected st' !! 0%nat = Some (stored_entry (number "42.35")) /\
  entry_get (stored_entry (number "42.35")) = "42.4".
Proof.
  assert (Hvalid :
    valid_angle_line (PyStr.strip (sent "ANGLE:42.35")) (number "42.35"))
    by (split; vm_compute; reflexivity).
  split; [vm_compute; reflexivity|].
  split; [vm_compute; reflexivity|].
  split; [exact Hvalid|].
  split; [|vm_compute; reflexivity].
  refine (proj1 (measurement_stores_last_valid_line
    (exec (press_movement_button 0 Unaffected) connected_app)
    port0 "f" 0 Unaffected (PyFloat.of_Z 1000) (PyFloat.of_Z 1000)
    (PyFloat.of_Z 1007)
    [([sent "12.5"; sent "ANGLE:41.0"], PyFloat.of_Z 1003)]
    [sent "ANGLE:42.35"; sent "done"]
    [sent "12.5"; sent "ANGLE:41.0"] (sent "ANGLE:42.35") [sent "done"]
    (number "42.35")
    eq_refl eq_refl eq_refl eq_refl _ _ eq_refl _ _ _ _ eq_refl Hvalid _)).
  - intros []; split; reflexivity.
  - lia.
  - vm_compute. reflexivity.
  - repeat constructor.
  - vm_compute. reflexivity.
  - repeat constructor.
  - constructor; [|constructor]. left. vm_compute. reflexivity.
Defined.

(** X8. A whole measurement that receives no line with a valid [ANGLE:]
    value, whatever else the device sent and however the lines were spread
    over the ticks, ends at the tick that sees the window elapsed: the error
    [No valid ANGLE data found!] is the last thing shown, every entry and
    every ROM gauge is as before the start, and no tick is left pending. *)
Theorem measurement_without_valid_line
    (st : App) (port : Serial) (letter : string) (i : nat) (side : Side)
    (started now0 now : float) (batches : list (list string * float))
    (chunks : list string) :
  open_port st = Some port ->
  movement_letter st = Some letter ->
  selected_movement st = Some i ->
  selected_side st = Some side ->
  after_queue st = [] ->
  window_elapsed now0 started (serial_read_duration st) = false ->
  Forall (fun batch : list string * float =>
            window_elapsed batch.2 started (serial_read_duration st) = false)
         batches ->
  window_elapsed now started (serial_read_duration st) = true ->
  Forall (fun chunk => one_line chunk = true) (chunks_of batches ++ chunks) ->
  Forall no_valid_angle (PyStr.strip <$> chunks_of batches ++ chunks) ->
  let st' :=
    exec (fire_timer now)
      (device_sends chunks
         (poll batches (exec (start_measurement started now0) st))) in
  (forall sd, angle_entries sd st' = angle_entries sd st) /\
  (forall sd, rom_canvases sd st' = rom_canvases sd st) /\
  after_queue st' = [] /\
  last (trace st') = Some (ShowError "Error" "No valid ANGLE data found!").
Proof.
  intros Hport Hletter Hidx Hside Hqueue Hnot0 Hnot Helapsed Hlines Hnone st'.
  destruct (session_deadline st port letter i side started now0 now batches
              chunks Hport Hletter Hidx Hside Hqueue Hnot0 Hnot Helapsed)
    as (stp & Hrun & Hresp & Hbox & Hq & Hidx' & Hside' & Hentries & Hcanvases).
  assert (Hparse : parse_final (serial_full_response stp) = Ok None).
  { rewrite Hresp, (parse_final_received _ Hlines).
    apply scan_lines_none, Forall_reverse, Hnone. }
  assert (Hst' : st' =
    set_trace (trace stp ++ [ShowError "Error" "No valid ANGLE data found!"])
      stp).
  { unfold st'. unfold exec at 1.
    rewrite Hrun, (process_final_no_angle stp Hparse). reflexivity. }
  rewrite Hst'.
  split; [by_side Hentries|]. split; [by_side Hcanvases|].
  split; [exact Hq|]. cbn [trace set_trace]. apply last_snoc.
Qed.

(** X8, witness: the device only streams bare values and a tagged line
    whose number does not parse. *)
Lemma measurement_without_valid_line_witness :
  let st := exec (press_movement_button 0 Unaffected) connected_app in
  let batches := [([sent "12.5"; sent "13.0"], PyFloat.of_Z 1003)] in
  let chunks := [sent "ANGLE:abc"] in
  let st' :=
    exec (fire_timer (PyFloat.of_Z 1007))
      (device_sends chunks
         (poll batches
            (exec (start_measurement (PyFloat.of_Z 1000) (PyFloat.of_Z 1000))
               st))) in
  Forall no_valid_angle (PyStr.strip <$> chunks_of batches ++ chunks) /\
  (forall sd, angle_entries sd st' = angle_entries sd st) /\
  last (trace st') = Some (ShowError "Error" "No valid ANGLE data found!").
Proof.
  assert (Hnone : Forall no_valid_angle
    (PyStr.strip <$>
       chunks_of [([sent "12.5"; sent "13.0"], PyFloat.of_Z 1003)]
       ++ [sent "ANGLE:abc"])).
  { constructor; [left; vm_compute; reflexivity|].
    constructor; [left; vm_compute; reflexivity|].
    constructor; [|constructor].
    right. exists ValueError. vm_compute. reflexivity. }
  pose proof (measurement_without_valid_line
    (exec (press_movement_button 0 Unaffected) connected_app)
    port0 "f" 0 Unaffected (PyFloat.of_Z 1000) (PyFloat.of_Z 1000)
    (PyFloat.of_Z 1007)
    [([sent "12.5"; sent "13.0"], PyFloat.of_Z 1003)] [sent "ANGLE:abc"]
    eq_refl eq_refl eq_refl eq_refl eq_refl) as H.
  split; [exact Hnone|].
  refine ((fun H' => conj (proj1 H') (proj2 (proj2 (proj2 H'))))
            (H _ _ _ _ Hnone)).
  - vm_compute. reflexivity.
  - repeat constructor.
  - vm_compute. reflexivity.
  - repeat constructor.
Defined.

(** X9. While the read window is open a measurement only accumulates: after
    [start_measurement] and any number of ticks that do not see the window
    elapsed, exactly one tick is pending, the input buffer of the port is
    empty, the buffer and the serial monitor both hold the lines read so
    far, each stripped and followed by a line feed, and the selection, the
    entries and the ROM gauges are as they were at the start. *)
Theorem open_window_only_accumulates
    (st : App) (port : Serial) (letter : string) (i : nat) (side : Side)
    (started now0 : float) (batches : list (list string * float)) :
  open_port st = Some port ->
  movement_letter st = Some letter ->
  selected_movement st = Some i ->
  selected_side st = Some side ->
  after_queue st = [] ->
  window_elapsed now0 started (serial_read_duration st) = false ->
  Forall (fun batch : list string * float =>
            window_elapsed batch.2 started (serial_read_duration st) = false)
         batches ->
  let st' := poll batches (exec (start_measurement started now0) st) in
  after_queue st' = [(50, ReadSerialLive)] /\
  incoming st' = [] /\
  serial_full_response st' = received (chunks_of batches) /\
  box_text (serial_output_box st') = received (chunks_of batches) /\
  (movement_letter st', selected_movement st', selected_side st')
  = (Some letter, Some i, Some side) /\
  (forall sd, angle_entries sd st' = angle_entries sd st) /\
  (forall sd, rom_canvases sd st' = rom_canvases sd st).
Proof.
  intros Hport Hletter Hidx Hside Hqueue Hnot0 Hnot st'.
  pose proof (start_measurement_reading st port letter i side started now0
                Hport Hletter Hidx Hside Hqueue Hnot0) as Hreading.
  apply (poll_reading st started batches) in Hreading; [|exact Hnot].
  cbn [app] in Hreading. fold st' in Hreading.
  destruct Hreading as [(p & Hp & Hbuf) _ _ _ Hq Hresp Hbox Hl Hm Hs He Hc].
  split; [exact Hq|].
  split; [unfold incoming; rewrite Hp; exact Hbuf|].
  split; [exact Hresp|]. split; [exact Hbox|].
  split; [rewrite Hl, Hm, Hs, Hletter, Hidx, Hside; reflexivity|].
  split; assumption.
Qed.

(** X9, witness: two ticks inside the window of a measurement of Wrist
    Flexion; the monitor shows the three lines read. *)
Lemma open_window_only_accumulates_witness :
  let st := exec (press_movement_button 0 Unaffected) connected_app in
  let batches :=
    [ ([sent "12.5"], PyFloat.of_Z 1001);
      ([sent "ANGLE:41.0"; sent "13.0"], PyFloat.of_Z 1002) ] in
  let st' :=
    poll batches
      (exec (start_measurement (PyFloat.of_Z 1000) (PyFloat.of_Z 1000)) st) in
  open_port st = Some port0 /\
  Forall (fun batch : list string * float =>
            window_elapsed batch.2 (PyFloat.of_Z 1000) (serial_read_duration st)
            = false) batches /\
  after_queue st' = [(50, ReadSerialLive)] /\
  box_text (serial_output_box st')
  = sent "12.5" +:+ sent "ANGLE:41.0" +:+ sent "13.0".
Proof.
  assert (Hnot : Forall (fun batch : list string * float =>
    window_elapsed batch.2 (PyFloat.of_Z 1000)
      (serial_read_duration
         (exec (press_movement_button 0 Unaffected) connected_app)) = false)
    [ ([sent "12.5"], PyFloat.of_Z 1001);
      ([sent "ANGLE:41.0"; sent "13.0"], PyFloat.of_Z 1002) ]).
  { constructor; [vm_compute; reflexivity|].
    constructor; [vm_compute; reflexivity|constructor]. }
  pose proof (open_window_only_accumulates
    (exec (press_movement_button 0 Unaffected) connected_app)
    port0 "f" 0 Unaffected (PyFloat.of_Z 1000) (PyFloat.of_Z 1000) _
    eq_refl eq_refl eq_refl eq_refl eq_refl eq_refl Hnot) as H.
  split; [reflexivity|]. split; [exact Hnot|].
  split; [exact (proj1 H)|].
  rewrite (proj1 (proj2 (proj2 (proj2 H)))). vm_compute. reflexivity.
Defined.

(* ===================================================================== *)
(** * Properties of the exports *)
(* ===================================================================== *)

(** X10. Without a patient identifier nothing is exported: when the text of
    the identifier entry is empty or white space only, [handle_export] shows
    [Please enter a patient ID!] twice, once by export function, asks for no
    file name and leaves every file as it is. *)
Theorem export_needs_patient_id
    (patient_id_text : string) (asksaveasfilename : Dialog)
    (current_date : string) (d : Desk) :
  PyStr.strip patient_id_text = "" ->
  handle_export patient_id_text asksaveasfilename current_date d =
  (Ok tt,
   {| window :=
        set_trace
          (trace (window d)
           ++ [ ShowError "Error" "Please enter a patient ID!";
                ShowError "Error" "Please enter a patient ID!" ])
          (window d);
      disk := disk d |}).
Proof.
  intros Hid. unfold handle_export, mbind, W_bind.
  rewrite (export_to_csv_blank _ _ _ Hid), (export_to_pdf_blank _ _ _ _ Hid).
  cbn [window disk trace set_trace]. rewrite <- app_assoc. reflexivity.
Qed.

(** X10, witness: an identifier made of spaces, on the window as it opens;
    the dialog would have answered. *)
Lemma export_needs_patient_id_witness :
  PyStr.strip "   " = "" /\
  trace (window (exec_files
                   (handle_export "   " (fun _ _ => "report") "2025-01-01 10:00")
                   new_desk))
  = [ ShowError "Error" "Please enter a patient ID!";
      ShowError "Error" "Please enter a patient ID!" ] /\
  disk (exec_files
          (handle_export "   " (fun _ _ => "report") "2025-01-01 10:00")
          new_desk) = ∅.
Proof.
  assert (H : PyStr.strip "   " = "") by reflexivity.
  split; [exact H|]. unfold exec_files.
  rewrite (export_needs_patient_id "   " (fun _ _ => "report")
             "2025-01-01 10:00" new_desk H).
  split; reflexivity.
Defined.

(** X11. A cancelled file dialog skips its file and nothing else: with an
    identifier entered, cancelling the CSV dialog makes [handle_export] go
    on with the PDF export as if the CSV one had not been asked for, and an
    export whose dialog is cancelled leaves the desk as it is, without any
    message. Cancelling both dialogs therefore changes nothing. The file
    name proposed is the stripped identifier followed by
    [_DiagnosticTest] and the extension. *)
Theorem cancelled_dialog_skips_the_file
    (patient_id_text : string) (asksaveasfilename : Dialog)
    (current_date : string) (d : Desk) :
  let patient_id := PyStr.strip patient_id_text in
  patient_id <> "" ->
  (asksaveasfilename ".csv" (patient_id +:+ "_DiagnosticTest.csv") = "" ->
   export_to_csv patient_id_text asksaveasfilename d = (Ok tt, d) /\
   handle_export patient_id_text asksaveasfilename current_date d
   = export_to_pdf patient_id_text asksaveasfilename current_date d) /\
  (asksaveasfilename ".pdf" (patient_id +:+ "_DiagnosticTest.pdf") = "" ->
   export_to_pdf patient_id_text asksaveasfilename current_date d = (Ok tt, d)).
Proof.
  intros patient_id Hid. split.
  - intros Hpath.
    pose proof (export_to_csv_cancelled _ _ d Hid Hpath) as Hcsv.
    split; [exact Hcsv|].
    unfold handle_export, mbind, W_bind. rewrite Hcsv. reflexivity.
  - intros Hpath. apply export_to_pdf_cancelled; assumption.
Qed.

(** X11, witness: both dialogs cancelled, for patient [P7]. *)
Lemma cancelled_dialog_skips_the_file_witness :
  PyStr.strip " P7 " <> "" /\
  handle_export " P7 " (fun _ _ => "") "2025-01-01 10:00" new_desk
  = (Ok tt, new_desk).
Proof.
  assert (H : PyStr.strip " P7 " <> "") by (vm_compute; discriminate).
  split; [exact H|].
  destruct (cancelled_dialog_skips_the_file " P7 " (fun _ _ => "")
              "2025-01-01 10:00" new_desk H) as [Hcsv Hpdf].
  rewrite (proj2 (Hcsv eq_refl)). exact (Hpdf eq_refl).
Defined.

Lemma movement_row_names a i name letter :
  movements !! i = Some (name, letter) ->
  movement_rows a 0 movement_names !! i
  = Some [name; slot_text Unaffected i a; slot_text Affected i a].
Proof.
  intros H. do 8 (destruct i as [|i]; [injection H as <- <-; reflexivity|]).
  discriminate H.
Qed.

(** X12. The CSV file of a laid-out window. With an identifier entered and a
    path chosen, [export_to_csv] replaces the file at that path by the rows
    [csv_rows]: the identifier, the movements table and the ROM table, each
    row written as [csv.writer] does; it shows [Data exported successfully!]
    and changes nothing else, neither in the window nor in the other files.
    The row of each movement of the sidebar holds its name and the texts of
    its two entries; the ROM rows hold the values [calculate_rom_side] gives
    at that moment, with one decimal. *)
Theorem export_to_csv_writes_the_tables
    (patient_id_text : string) (asksaveasfilename : Dialog) (d : Desk) :
  let patient_id := PyStr.strip patient_id_text in
  let file_path :=
    asksaveasfilename ".csv" (patient_id +:+ "_DiagnosticTest.csv") in
  let d' := exec_files (export_to_csv patient_id_text asksaveasfilename) d in
  laid_out (window d) -> patient_id <> "" -> file_path <> "" ->
  result_files (export_to_csv patient_id_text asksaveasfilename) d = Ok tt /\
  disk d' !! file_path
  = Some (CsvFile (csv_text (csv_rows patient_id (window d)))) /\
  (forall other, other <> file_path -> disk d' !! other = disk d !! other) /\
  window d'
  = set_trace
      (trace (window d) ++ [ShowInfo "Success" "Data exported successfully!"])
      (window d) /\
  (forall i name letter,
     movements !! i = Some (name, letter) ->
     csv_rows patient_id (window d) !! (4 + i)%nat
     = Some [ name; slot_text Unaffected i (window d);
              slot_text Affected i (window d) ]) /\
  (forall side,
     calculate_rom_side (angle_entries side (window d))
     = Ok (rom_of (angle_entries side (window d)))) /\
  drop 15 (csv_rows patient_id (window d)) = rom_rows (window d).
Proof.
  intros patient_id file_path d' Hlaid Hid Hpath.
  destruct d as [a files]. cbn [window disk] in *.
  pose proof (export_to_csv_written patient_id_text asksaveasfilename a files
                Hlaid Hid Hpath) as Hrun.
  unfold d', exec_files, result_files. rewrite Hrun. cbn [fst snd window disk].
  fold patient_id file_path.
  split; [reflexivity|].
  split; [apply lookup_insert_eq|].
  split; [intros other Hother; apply lookup_insert_ne; congruence|].
  split; [reflexivity|].
  split; [|split; [|reflexivity]].
  - intros i name letter Hi. unfold csv_rows.
    change (([ ["Patient ID"; patient_id]; []; ["Movement Measurements"];
               ["Movement"; "Unaffected"; "Affected"] ]
             ++ movement_rows a 0 movement_names
             ++ [ []; ["Calculated ROM Values"];
                  ["ROM Type"; "Unaffected"; "Affected"] ]
             ++ rom_rows a) !! (4 + i)%nat)
      with ((movement_rows a 0 movement_names
             ++ [ []; ["Calculated ROM Values"];
                  ["ROM Type"; "Unaffected"; "Affected"] ]
             ++ rom_rows a) !! i).
    rewrite lookup_app_l by (cbn; apply (movements_index _ _ _ Hi)).
    apply (movement_row_names a i name letter Hi).
  - intros side. apply calculate_rom_side_rom_of. apply Hlaid.
Qed.

(** X12, witness: the window as it opens, patient [P7]: the file holds the
    identifier row, and a row by movement with two empty fields. *)
Lemma export_to_csv_writes_the_tables_witness :
  let d' := exec_files (export_to_csv " P7 " (fun _ _ => "P7.csv")) new_desk in
  laid_out (window new_desk) /\
  PyStr.strip " P7 " = "P7" /\
  disk d' !! "P7.csv" = Some (CsvFile (csv_text (csv_rows "P7" new_app))) /\
  take 5 (csv_rows "P7" new_app)
  = [ ["Patient ID"; "P7"]; []; ["Movement Measurements"];
      ["Movement"; "Unaffected"; "Affected"]; ["Wrist Flexion"; ""; ""] ].
Proof.
  assert (Hlaid : laid_out (window new_desk)) by (intros []; split; reflexivity).
  assert (Hid : PyStr.strip " P7 " <> "") by (vm_compute; discriminate).
  assert (Hpath : (fun _ _ : string => "P7.csv")
                    ".csv" (PyStr.strip " P7 " +:+ "_DiagnosticTest.csv") <> "")
    by discriminate.
  split; [exact Hlaid|]. split; [reflexivity|].
  split; [|reflexivity].
  exact (proj1 (proj2 (export_to_csv_writes_the_tables " P7 "
                         (fun _ _ => "P7.csv") new_desk Hlaid Hid Hpath))).
Defined.

(** X13. The two exports of a laid-out window hold the same figures. With an
    identifier entered and two different paths chosen, [handle_export] writes
    both files and shows both success messages; the bordered cells of the
    PDF document, read row by row, are the two tables of the report, each
    under its heading: exactly the rows of three fields of the CSV file. *)
Theorem exports_hold_the_same_tables
    (patient_id_text : string) (asksaveasfilename : Dialog)
    (current_date : string) (d : Desk) :
  let patient_id := PyStr.strip patient_id_text in
  let csv_path :=
    asksaveasfilename ".csv" (patient_id +:+ "_DiagnosticTest.csv") in
  let pdf_path :=
    asksaveasfilename ".pdf" (patient_id +:+ "_DiagnosticTest.pdf") in
  let d' :=
    exec_files (handle_export patient_id_text asksaveasfilename current_date)
      d in
  laid_out (window d) -> patient_id <> "" ->
  csv_path <> "" -> pdf_path <> "" -> csv_path <> pdf_path ->
  disk d' !! csv_path
  = Some (CsvFile (csv_text (csv_rows patient_id (window d)))) /\
  disk d' !! pdf_path
  = Some (PdfFile (pdf_ops patient_id current_date (window d))) /\
  bordered_rows [] (pdf_ops patient_id current_date (window d))
  = report_tables (window d) /\
  filter (fun row => length row = 3%nat) (csv_rows patient_id (window d))
  = report_tables (window d) /\
  trace (window d')
  = trace (window d)
    ++ [ ShowInfo "Success" "Data exported successfully!";
         ShowInfo "Success" "PDF exported successfully!" ].
Proof.
  intros patient_id csv_path pdf_path d' Hlaid Hid Hcsv Hpdf Hne.
  destruct d as [a files]. cbn [window disk] in *.
  assert (Hrun : d' =
    {| window :=
         set_trace
           (trace a
            ++ [ ShowInfo "Success" "Data exported successfully!";
                 ShowInfo "Success" "PDF exported successfully!" ]) a;
       disk :=
         <[pdf_path := PdfFile (pdf_ops patient_id current_date a)]>
           (<[csv_path := CsvFile (csv_text (csv_rows patient_id a))]> files) |}).
  { unfold d', exec_files, handle_export, mbind, W_bind.
    rewrite (export_to_csv_written patient_id_text asksaveasfilename a files
               Hlaid Hid Hcsv).
    rewrite (export_to_pdf_written patient_id_text asksaveasfilename
               current_date _ _).
    - cbn [snd trace set_trace]. rewrite <- app_assoc. reflexivity.
    - intros side. exact (Hlaid side).
    - exact Hid.
    - exact Hpdf. }
  rewrite Hrun. cbn [window disk].
  split; [rewrite lookup_insert_ne by congruence; apply lookup_insert_eq|].
  split; [apply lookup_insert_eq|].
  split; [reflexivity|]. split; reflexivity.
Qed.

(** X13, witness: the window as it opens, patient [P7]. *)
Lemma exports_hold_the_same_tables_witness :
  let dialog : Dialog := fun extension initialfile => initialfile in
  let d' := exec_files (handle_export "P7" dialog "2025-01-01 10:00") new_desk in
  laid_out (window new_desk) /\
  dialog ".csv" (PyStr.strip "P7" +:+ "_DiagnosticTest.csv")
  = "P7_DiagnosticTest.csv" /\
  disk d' !! "P7_DiagnosticTest.pdf"
  = Some (PdfFile (pdf_ops "P7" "2025-01-01 10:00" new_app)) /\
  bordered_rows [] (pdf_ops "P7" "2025-01-01 10:00" new_app)
  = report_tables new_app.
Proof.
  assert (Hlaid : laid_out (window new_desk)) by (intros []; split; reflexivity).
  assert (Hid : PyStr.strip "P7" <> "") by (vm_compute; discriminate).
  split; [exact Hlaid|]. split; [reflexivity|].
  pose proof (exports_hold_the_same_tables "P7"
    (fun extension initialfile => initialfile) "2025-01-01 10:00" new_desk
    Hlaid Hid) as H.
  cbv zeta in H.
  destruct H as (_ & Hpdf & Hrows & _).
  - vm_compute. discriminate.
  - vm_compute. discriminate.
  - vm_compute. discriminate.
  - split; [exact Hpdf|exact Hrows].
Defined.

(* ===================================================================== *)
(** * Properties of the timer and of the port *)
(* ===================================================================== *)

Lemma process_final_queue st :
  after_queue (exec process_final_serial_data st) = after_queue st.
Proof.
  apply (untouched_process_final after_queue); try reflexivity.
  - intros [] v a; reflexivity.
  - intros [] i entry _ _; reflexivity.
Qed.

Lemma read_serial_live_queue now st :
  after_queue (exec (read_serial_live now) st) =
  match open_port st, serial_read_start_time st with
  | Some _, Some start =>
      if window_elapsed now start (serial_read_duration st)
      then after_queue st
      else after_queue st ++ [(50, ReadSerialLive)]
  | _, _ => after_queue st
  end.
Proof.
  unfold exec at 1.
  destruct (open_port st) as [port|] eqn:Hport.
  2:{ rewrite read_serial_live_closed by exact Hport. reflexivity. }
  pose proof (polled_same_session port st) as Hsame.
  destruct (serial_read_start_time st) as [start|] eqn:Hstart.
  - rewrite (read_serial_live_open now port start) by assumption.
    destruct (window_elapsed now start (serial_read_duration st));
      [|reflexivity].
    destruct (serial_read_mode st).
    + fold (exec process_final_serial_data (polled port st)).
      rewrite process_final_queue. exact (same_after_queue _ _ Hsame).
    + exact (same_after_queue _ _ Hsame).
  - unfold read_serial_live.
    unfold mbind, M_bind, mret, M_ret, gets, try_except, raise.
    rewrite Hport, read_lines_exec. fold (polled port st).
    rewrite (same_start_time _ _ Hsame), Hstart.
    exact (same_after_queue _ _ Hsame).
Qed.

(** X14. A tick never multiplies. [fire_timer] takes the oldest pending tick
    away and runs it, and the tick queues at most one tick in its place: it
    does so exactly when the port is open, a read has been started and its
    window has not elapsed. So the number of pending ticks never grows by
    the timer, and the tick that sees the window elapsed, in measurement or
    in calibration mode, valid line or not, is not queued again. *)
Theorem timer_does_not_multiply (now : float) (st : App) :
  let st' := exec (fire_timer now) st in
  after_queue st' =
  match after_queue st with
  | [] => []
  | _ :: rest =>
      match open_port st, serial_read_start_time st with
      | Some _, Some start =>
          if window_elapsed now start (serial_read_duration st)
          then rest
          else rest ++ [(50, ReadSerialLive)]
      | _, _ => rest
      end
  end /\
  (length (after_queue st') <= length (after_queue st))%nat.
Proof.
  intros st'.
  assert (H : after_queue st' =
    match after_queue st with
    | [] => []
    | _ :: rest =>
        match open_port st, serial_read_start_time st with
        | Some _, Some start =>
            if window_elapsed now start (serial_read_duration st)
            then rest
            else rest ++ [(50, ReadSerialLive)]
        | _, _ => rest
        end
    end).
  { unfold st', fire_timer, exec.
    unfold mbind, M_bind, mret, M_ret, gets, modify.
    destruct (after_queue st) as [|[ms []] rest] eqn:Hq; [exact Hq|].
    apply (read_serial_live_queue now (set_after_queue rest st)). }
  split; [exact H|]. rewrite H.
  destruct (after_queue st) as [|tick rest]; [reflexivity|].
  destruct (open_port st), (serial_read_start_time st) as [start|];
    cbn [length]; try lia.
  destruct (window_elapsed now start (serial_read_duration st));
    rewrite ?length_app; cbn [length]; lia.
Qed.

Lemma process_final_ser st : ser (exec process_final_serial_data st) = ser st.
Proof.
  apply (untouched_process_final ser); try reflexivity.
  - intros [] v a; reflexivity.
  - intros [] i entry _ _; reflexivity.
Qed.

Lemma polled_written port st :
  ser st = Some port ->
  written <$> ser (polled port st) = Some (written port).
Proof.
  intros Hser. rewrite polled_ser.
  destruct (in_buffer port); [rewrite Hser|]; reflexivity.
Qed.

(** A tick writes nothing to the port. *)
Lemma read_serial_live_written now st :
  written <$> ser (exec (read_serial_live now) st) = written <$> ser st.
Proof.
  unfold exec at 1.
  destruct (open_port st) as [port|] eqn:Hport.
  2:{ rewrite read_serial_live_closed by exact Hport. reflexivity. }
  pose proof (open_port_ser _ _ Hport) as Hser.
  pose proof (polled_written port st Hser) as Hpolled.
  pose proof (polled_same_session port st) as Hsame.
  rewrite Hser. cbn [fmap option_fmap option_map].
  destruct (serial_read_start_time st) as [start|] eqn:Hstart.
  - rewrite (read_serial_live_open now port start) by assumption.
    destruct (window_elapsed now start (serial_read_duration st));
      [|exact Hpolled].
    destruct (serial_read_mode st); [|exact Hpolled].
    fold (exec process_final_serial_data (polled port st)).
    rewrite process_final_ser. exact Hpolled.
  - unfold read_serial_live.
    unfold mbind, M_bind, mret, M_ret, gets, try_except, raise.
    rewrite Hport, read_lines_exec. fold (polled port st).
    rewrite (same_start_time _ _ Hsame), Hstart. exact Hpolled.
Qed.

Lemma fire_timer_written now st :
  written <$> ser (exec (fire_timer now) st) = written <$> ser st.
Proof.
  unfold fire_timer, exec.
  unfold mbind, M_bind, mret, M_ret, gets, modify.
  destruct (after_queue st) as [|[ms []] rest]; [reflexivity|].
  apply (read_serial_live_written now (set_after_queue rest st)).
Qed.

Lemma start_measurement_written started now st :
  written <$> ser (exec (start_measurement started now) st) =
  match open_port st, movement_letter st, selected_movement st,
        selected_side st with
  | Some port, Some letter, Some _, Some _ => Some (written port +:+ letter)
  | _, _, _, _ => written <$> ser st
  end.
Proof.
  destruct (open_port st) as [port|] eqn:Hport.
  - destruct (movement_letter st) as [letter|] eqn:Hletter,
             (selected_movement st) as [i|] eqn:Hidx,
             (selected_side st) as [side|] eqn:Hside;
      try (unfold exec, start_measurement, mbind, M_bind, gets;
           rewrite Hport; cbn beta iota; rewrite ?Hletter, ?Hidx, ?Hside;
           reflexivity).
    unfold exec at 1.
    rewrite (start_measurement_open port letter i side) by assumption.
    apply (read_serial_live_written now (armed port letter Measurement started st)).
  - unfold exec, start_measurement, mbind, M_bind, gets. rewrite Hport.
    reflexivity.
Qed.

Lemma calibrate_written started now st :
  written <$> ser (exec (calibrate started now) st) =
  match open_port st with
  | Some port => Some (written port +:+ "r")
  | None => written <$> ser st
  end.
Proof.
  destruct (open_port st) as [port|] eqn:Hport.
  - unfold exec at 1. rewrite (calibrate_open port) by assumption.
    apply (read_serial_live_written now (armed port "r" Calibration started st)).
  - unfold exec, calibrate, try_except, mbind, M_bind, gets. rewrite Hport.
    reflexivity.
Qed.

(** On a well-formed window an export changes, in the window, nothing but
    the calls to the display. *)
Lemma handle_export_frame {X} (f : App -> X) patient_id_text asksaveasfilename
    current_date d :
  (forall calls a, f (set_trace calls a) = f a) ->
  well_formed (window d) ->
  f (window (exec_files
               (handle_export patient_id_text asksaveasfilename current_date)
               d))
  = f (window d).
Proof.
  intros Hf Hwf.
  assert (Hcsv : forall d0, well_formed (window d0) ->
    f (window (exec_files (export_to_csv patient_id_text asksaveasfilename) d0))
    = f (window d0)).
  { intros d0 Hwf0. unfold exec_files.
    destruct (string_eq_dec_empty (PyStr.strip patient_id_text)) as [Hid|Hid].
    { rewrite export_to_csv_blank by exact Hid. apply Hf. }
    destruct (string_eq_dec_empty
                (asksaveasfilename ".csv"
                   (PyStr.strip patient_id_text +:+ "_DiagnosticTest.csv")))
      as [Hpath|Hpath].
    { rewrite export_to_csv_cancelled by assumption. reflexivity. }
    destruct d0 as [a files]. cbn [window] in *.
    rewrite (export_to_csv_written _ _ a files (wf_laid_out _ Hwf0) Hid Hpath).
    apply Hf. }
  assert (Hpdf : forall d0, well_formed (window d0) ->
    f (window (exec_files
                 (export_to_pdf patient_id_text asksaveasfilename current_date)
                 d0))
    = f (window d0)).
  { intros d0 Hwf0. unfold exec_files.
    destruct (string_eq_dec_empty (PyStr.strip patient_id_text)) as [Hid|Hid].
    { rewrite export_to_pdf_blank by exact Hid. apply Hf. }
    destruct (string_eq_dec_empty
                (asksaveasfilename ".pdf"
                   (PyStr.strip patient_id_text +:+ "_DiagnosticTest.pdf")))
      as [Hpath|Hpath].
    { rewrite export_to_pdf_cancelled by assumption. reflexivity. }
    destruct d0 as [a files]. cbn [window] in *.
    rewrite (export_to_pdf_written _ _ _ a files (wf_laid_out _ Hwf0) Hid Hpath).
    apply Hf. }
  unfold exec_files at 1. rewrite handle_export_run by exact Hwf.
  fold (exec_files
          (export_to_pdf patient_id_text asksaveasfilename current_date)
          (exec_files (export_to_csv patient_id_text asksaveasfilename) d)).
  rewrite Hpdf, Hcsv; [reflexivity|exact Hwf|].
  apply export_to_csv_well_formed, Hwf.
Qed.

(** X15. The program sends the device nothing but its one-letter commands.
    From every reachable desk, [Start] and [Redo] either add to what was
    written to the port the letter the sidebar gives to the selected
    movement, or write nothing; [Calibrate] adds [r] or writes nothing; and
    every other handler but [Connect], which replaces the port, leaves what
    was written as it is: the ticks, in particular, only read. *)
Theorem only_commands_are_sent (events : list Event) (ev : Event) :
  let d := run events new_desk in
  let d' := exec_files (handle ev) d in
  let before := written <$> ser (window d) in
  let after := written <$> ser (window d') in
  match ev with
  | ClickConnect _ _ => True
  | ClickStart _ _ | ClickRedo _ _ =>
      after = before \/
      exists (i : nat) (name letter : string),
        selected_movement (window d) = Some i /\
        movements !! i = Some (name, letter) /\
        after = (fun bytes => bytes +:+ letter) <$> before
  | ClickCalibrate _ _ =>
      after = before \/ after = (fun bytes => bytes +:+ "r") <$> before
  | _ => after = before
  end.
Proof.
  intros d d' before after.
  pose proof (reachable_well_formed events ∅) as Hwf.
  change (well_formed (window d)) in Hwf.
  assert (Hstart : forall started now,
    let w := written <$> ser (exec (start_measurement started now) (window d)) in
    w = before \/
    exists (i : nat) (name letter : string),
      selected_movement (window d) = Some i /\
      movements !! i = Some (name, letter) /\
      w = (fun bytes => bytes +:+ letter) <$> before).
  { intros started now w. unfold w. rewrite start_measurement_written.
    pose proof (wf_selection _ Hwf) as Hsel. unfold selection_ok in Hsel.
    destruct (open_port (window d)) as [port|] eqn:Hport; [|left; reflexivity].
    destruct (movement_letter (window d)) as [letter|],
             (selected_movement (window d)) as [i|],
             (selected_side (window d)) as [side|];
      try contradiction; [|left; reflexivity].
    destruct Hsel as [name Hname]. right. exists i, name, letter.
    split; [reflexivity|]. split; [exact Hname|].
    unfold before. rewrite (open_port_ser _ _ Hport). reflexivity. }
  unfold after, d', exec_files.
  destruct ev; cbn [handle]; rewrite ?on_window_run; cbn [snd window].
  - exact I.
  - unfold exec, press_movement_button.
    destruct (movements !! idx) as [[movement letter]|]; reflexivity.
  - apply Hstart.
  - destruct (movement_letter (window d)) as [letter|] eqn:Hletter.
    + unfold exec. rewrite (redo_with_letter _ _ _ letter Hletter).
      apply Hstart.
    + unfold exec. rewrite (redo_without_letter _ _ _ Hletter).
      left. reflexivity.
  - rewrite calibrate_written.
    destruct (open_port (window d)) as [port|] eqn:Hport; [|left; reflexivity].
    right. unfold before. rewrite (open_port_ser _ _ Hport). reflexivity.
  - unfold exec. rewrite clear_all_measurements_run. reflexivity.
  - change (snd (handle_export patient_id_text asksaveasfilename current_date d))
      with (exec_files
              (handle_export patient_id_text asksaveasfilename current_date) d).
    rewrite (handle_export_frame ser _ _ _ d (fun _ _ => eq_refl) Hwf).
    reflexivity.
  - apply fire_timer_written.
  - unfold before, exec, modify, device_sends. cbn [snd].
    destruct (ser (window d)) as [port|] eqn:Hser;
      [reflexivity|rewrite Hser; reflexivity].
Qed.

(* ===================================================================== *)
(** * Redo, Clear All and the live gauge *)
(* ===================================================================== *)

(** X16. [redo_last_measurement] checks the stored letter and nothing else:
    without one it shows [No previous movement to redo!], connected or not,
    and leaves the rest of the state as it is; with one it does exactly what
    [start_measurement] does, its checks and their messages included. Since
    [start_measurement] never lets an exception out, the catch-all clause of
    [redo_last_measurement] is never reached. *)
Theorem redo_is_start (st : App) (started now : float) :
  match movement_letter st with
  | Some _ =>
      redo_last_measurement started now st = start_measurement started now st
  | None =>
      redo_last_measurement started now st =
      (Ok tt,
       set_trace
         (trace st ++ [ShowError "Error" "No previous movement to redo!"]) st)
  end /\
  result (start_measurement started now) st = Ok tt /\
  result (redo_last_measurement started now) st = Ok tt.
Proof.
  split; [|split; [apply start_measurement_result|apply try_except_result]].
  destruct (movement_letter st) as [letter|] eqn:Hletter.
  - apply (redo_with_letter started now st letter Hletter).
  - apply (redo_without_letter started now st Hletter).
Qed.

Lemma after_chunk_live_canvas port rest chunk st :
  live_canvas (after_chunk port rest chunk st)
  = match parse_live (PyStr.strip chunk) with
    | Some angle => gauge angle
    | None => live_canvas st
    end.
Proof.
  unfold after_chunk. destruct (parse_live (PyStr.strip chunk)); reflexivity.
Qed.

(** X17. The live gauge shows the last bare number read. After the read
    loop has gone through the chunks of the input buffer, the live gauge is
    drawn for the last of them that is a number once stripped, and is left
    as it was when none is; lines that are not numbers, tagged ones
    included, never move it. The calls to [update_live_angle] are these
    numbers, in the order read. *)
Theorem live_gauge_shows_last_number (port : Serial) (chunks : list string)
    (st : App) :
  let st' := exec (read_lines port chunks) st in
  let numbers := omap (fun chunk => parse_live (PyStr.strip chunk)) chunks in
  live_canvas st' = from_option gauge (live_canvas st) (last numbers) /\
  trace st' = trace st ++ (LiveAngle <$> numbers).
Proof.
  revert st. induction chunks as [|chunk rest IH]; intros st st' numbers.
  - split; [reflexivity|]. cbn. rewrite app_nil_r. reflexivity.
  - unfold st', exec. rewrite read_lines_cons.
    fold (exec (read_lines port rest) (after_chunk port rest chunk st)).
    destruct (IH (after_chunk port rest chunk st)) as [Hcanvas Htrace].
    cbv zeta in Hcanvas, Htrace. rewrite Hcanvas, Htrace.
    rewrite after_chunk_live_canvas.
    assert (Ht : trace (after_chunk port rest chunk st)
                 = trace st ++ match parse_live (PyStr.strip chunk) with
                               | Some angle => [LiveAngle angle]
                               | None => []
                               end).
    { unfold after_chunk.
      destruct (parse_live (PyStr.strip chunk)); cbn;
        rewrite ?app_nil_r; reflexivity. }
    rewrite Ht. unfold numbers. cbn [omap list_omap].
    destruct (parse_live (PyStr.strip chunk)) as [angle|].
    + rewrite last_cons, fmap_cons, <- app_assoc.
      destruct (last (omap (fun chunk => parse_live (PyStr.strip chunk)) rest));
        split; reflexivity.
    + rewrite app_nil_r. split; reflexivity.
Qed.

Lemma clear_all_reading st0 started acc shown st :
  reading st0 started acc shown st ->
  reading (exec clear_all_measurements st0) started acc []
    (exec clear_all_measurements st).
Proof.
  intros [Hport Hstart Hdur Hmode Hqueue Hresp Hbox Hletter Hidx Hside
          Hentries Hcanvases].
  pose proof (Hentries Unaffected) as Heu. pose proof (Hentries Affected) as Hea.
  pose proof (Hcanvases Unaffected) as Hcu.
  pose proof (Hcanvases Affected) as Hca.
  cbn in Heu, Hea, Hcu, Hca.
  unfold exec. rewrite !clear_all_measurements_run. cbn [snd].
  split; try assumption; try reflexivity.
  - intros []; cbn; rewrite ?Heu, ?Hea, ?Hcu, ?Hca; reflexivity.
  - intros []; cbn; rewrite ?Heu, ?Hea, ?Hcu, ?Hca; reflexivity.
Qed.

Lemma clear_all_laid_out st :
  laid_out st -> laid_out (exec clear_all_measurements st).
Proof.
  intros Hl. unfold exec. rewrite clear_all_measurements_run. cbn [snd].
  destruct (Hl Unaffected) as [Hu Hcu], (Hl Affected) as [Ha Hca].
  cbn in Hu, Hcu, Ha, Hca.
  intros []; cbn; rewrite ?clear_zip_canvases;
    rewrite (proj1 (clear_zip_entries _ _)); auto.
Qed.

(** X18. [Clear All] does not cancel a measurement under way. When it is
    clicked between two ticks of an open read window, the read goes on:
    the buffer keeps the lines read before the click, only the monitor
    starts again from empty, and the tick that sees the window elapsed
    stores, in the selected slot of the cleared table, the value of the last
    valid [ANGLE:] line of the whole read, lines read before the click
    included. *)
Theorem clear_all_does_not_cancel
    (st : App) (port : Serial) (letter : string) (i : nat) (side : Side)
    (started now0 now : float) (batches1 batches2 : list (list string * float))
    (chunks before : list string) (chunk : string) (after : list string)
    (v : float) :
  open_port st = Some port ->
  movement_letter st = Some letter ->
  selected_movement st = Some i ->
  selected_side st = Some side ->
  laid_out st -> (i < 8)%nat ->
  after_queue st = [] ->
  window_elapsed now0 started (serial_read_duration st) = false ->
  Forall (fun batch : list string * float =>
            window_elapsed batch.2 started (serial_read_duration st) = false)
         (batches1 ++ batches2) ->
  window_elapsed now started (serial_read_duration st) = true ->
  Forall (fun chunk => one_line chunk = true)
         (chunks_of batches1 ++ chunks_of batches2 ++ chunks) ->
  chunks_of batches1 ++ chunks_of batches2 ++ chunks
  = before ++ chunk :: after ->
  valid_angle_line (PyStr.strip chunk) v ->
  Forall no_valid_angle (PyStr.strip <$> after) ->
  let cleared :=
    exec clear_all_measurements
      (poll batches1 (exec (start_measurement started now0) st)) in
  let st' :=
    exec (fire_timer now) (device_sends chunks (poll batches2 cleared)) in
  after_queue cleared = [(50, ReadSerialLive)] /\
  serial_full_response cleared = received (chunks_of batches1) /\
  box_text (serial_output_box cleared) = "" /\
  angle_entries side st' !! i = Some (stored_entry v) /\
  after_queue st' = [] /\
  serial_full_response st'
  = received (chunks_of batches1 ++ chunks_of batches2 ++ chunks) /\
  box_text (serial_output_box st') = received (chunks_of batches2 ++ chunks).
Proof.
  intros Hport Hletter Hidx Hside Hlaid Hi Hqueue Hnot0 Hnot Helapsed Hlines
         Hsplit Hvalid Hafter cleared st'.
  apply Forall_app in Hnot as [Hnot1 Hnot2].
  pose proof (start_measurement_reading st port letter i side started now0
                Hport Hletter Hidx Hside Hqueue Hnot0) as Hreading.
  apply (poll_reading st started batches1) in Hreading; [|exact Hnot1].
  cbn [app] in Hreading.
  apply clear_all_reading in Hreading. fold cleared in Hreading.
  set (st0 := exec clear_all_measurements st) in *.
  assert (Hdur : serial_read_duration st0 = serial_read_duration st).
  { unfold st0, exec. rewrite clear_all_measurements_run. reflexivity. }
  pose proof (reading_queue _ _ _ _ _ Hreading) as Hq1.
  pose proof (reading_response _ _ _ _ _ Hreading) as Hr1.
  pose proof (reading_monitor _ _ _ _ _ Hreading) as Hm1.
  split; [exact Hq1|]. split; [exact Hr1|]. split; [exact Hm1|].
  apply (poll_reading st0 started batches2) in Hreading;
    [|rewrite Hdur; exact Hnot2].
  cbn [app] in Hreading.
  destruct (reading_deadline st0 started _ _ _ chunks now Hreading)
    as (stp & Hrun & Hresp & Hbox & Hq & Hidx' & Hside' & Hentries & Hcanvases
        & Htrace).
  { rewrite Hdur. exact Helapsed. }
  rewrite <- app_assoc in Hresp.
  assert (Hsel0 : selected_movement st0 = Some i /\ selected_side st0 = Some side).
  { unfold st0, exec. rewrite clear_all_measurements_run. cbn [snd].
    split; [exact Hidx|exact Hside]. }
  destruct Hsel0 as [Hidx0 Hside0].
  assert (Hparse : parse_final (serial_full_response stp) = Ok (Some v)).
  { rewrite Hresp, (parse_final_received _ Hlines), Hsplit.
    rewrite fmap_app, fmap_cons, reverse_app, reverse_cons, <- app_assoc.
    apply scan_lines_found; [|exact Hvalid].
    apply Forall_reverse. exact Hafter. }
  pose proof (laid_out_same st0 stp Hentries Hcanvases
                (clear_all_laid_out st Hlaid)) as Hlaid'.
  assert (Hst' : st' = show_live v (show_roms (store_angle side i v stp))).
  { unfold st'. unfold exec at 1. rewrite Hrun.
    rewrite (process_final_stores stp v side i Hparse); try assumption.
    - reflexivity.
    - rewrite Hside'. exact Hside0.
    - rewrite Hidx'. exact Hidx0. }
  destruct (Hlaid' Unaffected) as [Hu _], (Hlaid' Affected) as [Ha _].
  cbn in Hu, Ha.
  rewrite Hst'.
  split.
  { unfold store_angle.
    destruct side; cbn; apply list_lookup_insert_eq; lia. }
  split; [destruct side; exact Hq|].
  split; [destruct side; exact Hresp|].
  destruct side; exact Hbox.
Qed.

(** X18, witness: Wrist Flexion; [ANGLE:41.0] is read at second 1002, Clear
    All is clicked, and the tick at second 1007 reads only [done]: the slot
    holds [41.0], and the monitor shows [done] alone. *)
Lemma clear_all_does_not_cancel_witness :
  let st := exec (press_movement_button 0 Unaffected) connected_app in
  let batches1 := [([sent "ANGLE:41.0"], PyFloat.of_Z 1002)] in
  let cleared :=
    exec clear_all_measurements
      (poll batches1
         (exec (start_measurement (PyFloat.of_Z 1000) (PyFloat.of_Z 1000)) st))
  in
  let st' :=
    exec (fire_timer (PyFloat.of_Z 1007)) (device_sends [sent "done"] cleared)
  in
  valid_angle_line (PyStr.strip (sent "ANGLE:41.0")) (PyFloat.of_Z 41) /\
  angle_entries Unaffected st' !! 0%nat = Some (stored_entry (PyFloat.of_Z 41)) /\
  entry_get (stored_entry (PyFloat.of_Z 41)) = "41.0" /\
  box_text (serial_output_box st') = sent "done".
Proof.
  assert (Hvalid :
    valid_angle_line (PyStr.strip (sent "ANGLE:41.0")) (PyFloat.of_Z 41))
    by (split; vm_compute; reflexivity).
  pose proof (clear_all_does_not_cancel
    (exec (press_movement_button 0 Unaffected) connected_app)
    port0 "f" 0 Unaffected (PyFloat.of_Z 1000) (PyFloat.of_Z 1000)
    (PyFloat.of_Z 1007)
    [([sent "ANGLE:41.0"], PyFloat.of_Z 1002)] [] [sent "done"]
    [] (sent "ANGLE:41.0") [sent "done"] (PyFloat.of_Z 41)
    eq_refl eq_refl eq_refl eq_refl) as H.
  cbv zeta in H.
  destruct H as (_ & _ & _ & Hslot & _ & _ & Hbox).
  - intros []; split; reflexivity.
  - lia.
  - reflexivity.
  - vm_compute. reflexivity.
  - repeat constructor.
  - vm_compute. reflexivity.
  - repeat constructor.
  - reflexivity.
  - exact Hvalid.
  - constructor; [|constructor]. left. vm_compute. reflexivity.
  - split; [exact Hvalid|]. split; [exact Hslot|].
    split; [vm_compute; reflexivity|].
    transitivity (received (chunks_of [] ++ [sent "done"])); [exact Hbox|].
    vm_compute. reflexivity.
Defined.

(* ===================================================================== *)
(** * Without a connection *)
(* ===================================================================== *)

Lemma idle_new_app : idle new_app.
Proof. split; try reflexivity; intros []; reflexivity. Qed.

Lemma idle_record st c : idle st -> idle (set_trace (trace st ++ [c]) st).
Proof.
  intros [Hs Hq He Hc]. split; [exact Hs|exact Hq|by_side He|by_side Hc].
Qed.

Lemma idle_closed st : idle st -> open_port st = None.
Proof. intros H. unfold open_port. rewrite (idle_ser _ H). reflexivity. Qed.

Lemma handle_idle ev d :
  connects ev = false ->
  well_formed (window d) -> idle (window d) ->
  idle (window (exec_files (handle ev) d)).
Proof.
  intros Hev Hwf Hidle. pose proof (idle_closed _ Hidle) as Hport.
  unfold exec_files.
  destruct ev; cbn [handle]; rewrite ?on_window_run; cbn [snd window].
  - unfold exec, connect_bluetooth. cbn [connects] in Hev.
    destruct (PyStr.is_empty selected_port).
    + apply idle_record, Hidle.
    + destruct opened as [message|port]; [|discriminate Hev].
      apply idle_record, Hidle.
  - unfold exec, press_movement_button.
    destruct (movements !! idx) as [[movement letter]|]; [|exact Hidle].
    destruct Hidle as [Hs Hq He Hc].
    split; [exact Hs|exact Hq|by_side He|by_side Hc].
  - unfold exec, start_measurement, mbind, M_bind, gets. rewrite Hport.
    apply idle_record, Hidle.
  - destruct (movement_letter (window d)) as [letter|] eqn:Hletter.
    + unfold exec. rewrite (redo_with_letter _ _ _ letter Hletter).
      unfold start_measurement, mbind, M_bind, gets. rewrite Hport.
      apply idle_record, Hidle.
    + unfold exec. rewrite (redo_without_letter _ _ _ Hletter).
      apply idle_record, Hidle.
  - unfold exec, calibrate, try_except, mbind, M_bind, gets. rewrite Hport.
    apply idle_record, Hidle.
  - unfold exec. rewrite clear_all_measurements_run. cbn [snd].
    destruct Hidle as [Hs Hq He Hc].
    pose proof (He Unaffected) as Heu. pose proof (He Affected) as Hea.
    pose proof (Hc Unaffected) as Hcu. pose proof (Hc Affected) as Hca.
    cbn in Heu, Hea, Hcu, Hca.
    split; [exact Hs|exact Hq| |];
      intros []; cbn; rewrite ?Heu, ?Hea, ?Hcu, ?Hca; reflexivity.
  - change (snd (handle_export patient_id_text asksaveasfilename current_date d))
      with (exec_files
              (handle_export patient_id_text asksaveasfilename current_date) d).
    destruct Hidle as [Hs Hq He Hc]. split.
    + rewrite (handle_export_frame ser _ _ _ d (fun _ _ => eq_refl) Hwf).
      exact Hs.
    + rewrite (handle_export_frame after_queue _ _ _ d (fun _ _ => eq_refl) Hwf).
      exact Hq.
    + intros side.
      rewrite (handle_export_frame (angle_entries side) _ _ _ d); auto.
    + intros side.
      rewrite (handle_export_frame (rom_canvases side) _ _ _ d); auto.
  - unfold exec, fire_timer, mbind, M_bind, gets.
    rewrite (idle_queue _ Hidle). exact Hidle.
  - unfold exec, modify, device_sends. cbn [snd].
    rewrite (idle_ser _ Hidle). exact Hidle.
Qed.

Lemma run_idle events : forall d,
  Forall (fun ev => connects ev = false) events ->
  well_formed (window d) -> idle (window d) ->
  idle (window (run events d)).
Proof.
  induction events as [|ev events IH]; intros d Hev Hwf Hidle; [exact Hidle|].
  apply Forall_cons in Hev as [Hev Hrest]. cbn [run foldl].
  apply IH; [exact Hrest| |].
  - apply handle_well_formed, Hwf.
  - apply handle_idle; assumption.
Qed.

(** X19. Without a connection nothing is ever measured. As long as no click
    on [Connect] has opened a port (no port was selected, or
    [serial.Serial] raised), whatever else is clicked, sent or due, the
    window has no port, no tick is ever queued, and every entry and every
    ROM gauge is as [setup_ui] left it: the entries empty, the gauges at 0. *)
Theorem nothing_is_measured_without_connection (events : list Event) :
  Forall (fun ev => connects ev = false) events ->
  let st := window (run events new_desk) in
  ser st = None /\ after_queue st = [] /\
  (forall side, angle_entries side st = replicate 8 new_entry) /\
  (forall side, rom_canvases side st = replicate 4 (gauge (PyFloat.of_Z 0))) /\
  (forall started now,
     trace (exec (start_measurement started now) st)
     = trace st ++ [ShowError "Error" "Bluetooth not connected!"]).
Proof.
  intros Hev. cbv zeta.
  pose proof (run_idle events new_desk Hev well_formed_new_app idle_new_app)
    as [Hs Hq He Hc].
  split; [exact Hs|]. split; [exact Hq|]. split; [exact He|].
  split; [exact Hc|].
  intros started now.
  unfold exec, start_measurement, mbind, M_bind, gets, open_port.
  rewrite Hs. reflexivity.
Qed.

(** X19, witness: a connection refused, then a movement selected, Start,
    Clear All and a tick. *)
Lemma nothing_is_measured_without_connection_witness :
  let events :=
    [ ClickConnect "COM3" (inl "could not open port 'COM3'");
      ClickMovement 0 Unaffected;
      ClickStart (PyFloat.of_Z 1000) (PyFloat.of_Z 1000);
      ClickClearAll; TimerFires (PyFloat.of_Z 1007) ] in
  Forall (fun ev => connects ev = false) events /\
  ser (window (run events new_desk)) = None /\
  trace (window (run events new_desk))
  = [ ShowError "Connection Failed" "could not open port 'COM3'";
      ShowError "Error" "Bluetooth not connected!";
      LiveAngle (PyFloat.of_Z 0) ].
Proof.
  assert (H : Forall (fun ev => connects ev = false)
    [ ClickConnect "COM3" (inl "could not open port 'COM3'");
      ClickMovement 0 Unaffected;
      ClickStart (PyFloat.of_Z 1000) (PyFloat.of_Z 1000);
      ClickClearAll; TimerFires (PyFloat.of_Z 1007) ])
    by (repeat constructor).
  split; [exact H|].
  split; [exact (proj1 (nothing_is_measured_without_connection _ H))|].
  vm_compute. reflexivity.
Defined.
